(** * EPIAS quarterly report: a shallow embedding of [epias_rapor_v3.py]

    The report builder authenticates, fetches thirteen category series,
    merges them on their timestamps, reduces the merged table to sixteen
    indicators and writes a two-sheet workbook.  This file embeds the
    program function by function and settles the properties its
    specification states: most are proved, some are proved in the form
    the code has them, next to an input on which the stated form fails.

    Conventions of the embedding.
    - Python [int] is [Z]; a number held in a table is the rational it
      denotes; a missing number (NaN, None, NaT) is a constructor of its
      own.  The arithmetic of the libraries on columns (sums, means,
      products, quotients, with their rounding and their overflow) is a
      parameter of the embedding, the record [library], of which only
      what is stated there is assumed.
    - [str] is [string]; names handled by the program are ASCII, and
      [lower] folds the ASCII letters.
    - A Python exception is a value [Exn kind msg]; a function that may
      raise returns [outcome].
    - Printing, logging, sleeping and HTTP calls are events appended to
      a trace, threaded by the monad [M]. *)

From Stdlib Require Import List String Ascii Bool Arith ZArith QArith Qabs Lia.
From Stdlib Require Import DecimalString.
Import ListNotations.
Local Open Scope string_scope.
Local Open Scope Z_scope.
Set Warnings "-register-all".

(** ** Text *)

(** [str(n)] for an integer. *)
Definition show_Z (z : Z) : string := NilZero.string_of_int (Z.to_int z).

Definition show_nat (n : nat) : string := show_Z (Z.of_nat n).

(** [s.lower()] on ASCII text. *)
Definition lower_ascii (c : ascii) : ascii :=
  let n := nat_of_ascii c in
  if ((65 <=? n)%nat && (n <=? 90)%nat)%bool then ascii_of_nat (n + 32) else c.

Fixpoint lower (s : string) : string :=
  match s with
  | EmptyString => EmptyString
  | String c r => String (lower_ascii c) (lower r)
  end.

(** [needle in hay] for two strings. *)
Fixpoint contains (needle hay : string) : bool :=
  if String.prefix needle hay then true
  else match hay with
       | EmptyString => false
       | String _ r => contains needle r
       end.

(** [s[n:]] *)
Fixpoint drop_chars (n : nat) (s : string) : string :=
  match n, s with
  | O, _ => s
  | S _, EmptyString => EmptyString
  | S k, String _ r => drop_chars k r
  end.

(** [s[:n]] *)
Fixpoint take_chars (n : nat) (s : string) : string :=
  match n, s with
  | O, _ => EmptyString
  | S _, EmptyString => EmptyString
  | S k, String c r => String c (take_chars k r)
  end.

(** Characters removed by [str.strip()]: the ASCII white space
    (TAB, LF, VT, FF, CR, FS, GS, RS, US and the space). *)
Definition is_space (c : ascii) : bool :=
  let n := nat_of_ascii c in
  (((9 <=? n)%nat && (n <=? 13)%nat) || ((28 <=? n)%nat && (n <=? 32)%nat))%bool.

Fixpoint lstrip (s : string) : string :=
  match s with
  | String c r => if is_space c then lstrip r else s
  | EmptyString => EmptyString
  end.

Fixpoint rstrip (s : string) : string :=
  match s with
  | EmptyString => EmptyString
  | String c r =>
      match rstrip r with
      | EmptyString => if is_space c then EmptyString else String c EmptyString
      | r' => String c r'
      end
  end.

Definition strip (s : string) : string := rstrip (lstrip s).

(** [s.split('/')[-1]]: the text after the last separator. *)
Fixpoint last_segment_from (acc s : string) : string :=
  match s with
  | EmptyString => acc
  | String c r =>
      if Ascii.eqb c "/"%char then last_segment_from r r
      else last_segment_from acc r
  end.

Definition last_segment (s : string) : string := last_segment_from s s.

(** ** Exceptions and outcomes *)

Inductive exn : Type :=
  | Exn (kind : string) (msg : string).

Inductive outcome (A : Type) : Type :=
  | Ret (a : A)
  | Raise (e : exn).
Arguments Ret {A} a.
Arguments Raise {A} e.

(** ** Calendar *)

(** A naive (zone-less) civil time, as a [pandas.Timestamp] without tz. *)
Record stamp : Type := mkStamp
  { yr : Z; mo : Z; dy : Z; hr : Z; mi : Z; sc : Z }.

Definition is_leap (y : Z) : bool :=
  ((y mod 4 =? 0) && negb (y mod 100 =? 0) || (y mod 400 =? 0))%bool.

Definition days_in_month (y m : Z) : Z :=
  if (m =? 2) then (if is_leap y then 29 else 28)
  else if ((m =? 4) || (m =? 6) || (m =? 9) || (m =? 11))%bool then 30
  else 31.

(** Calendar order: the fields compared from the year down. *)
Fixpoint lex_leb (a b : list Z) : bool :=
  match a, b with
  | x :: a', y :: b' => (x <? y) || ((x =? y) && lex_leb a' b')
  | _, _ => true
  end.

Definition stamp_fields (t : stamp) : list Z :=
  [yr t; mo t; dy t; hr t; mi t; sc t].

Definition stamp_leb (a b : stamp) : bool :=
  lex_leb (stamp_fields a) (stamp_fields b).

Definition stamp_eqb (a b : stamp) : bool :=
  forallb (fun p => fst p =? snd p) (combine (stamp_fields a) (stamp_fields b)).

(** [f"{n:02d}"] *)
Definition two (n : Z) : string :=
  if (0 <=? n) && (n <? 10) then "0" ++ show_Z n else show_Z n.

(** The date text the transparency platform expects, at UTC+3:
    [YYYY-MM-DDTHH:MM:SS+03:00]. *)
Definition iso_plus3 (t : stamp) : string :=
  show_Z (yr t) ++ "-" ++ two (mo t) ++ "-" ++ two (dy t) ++ "T" ++
  two (hr t) ++ ":" ++ two (mi t) ++ ":" ++ two (sc t) ++ "+03:00".

(** ** [quarter_to_dates] *)

Definition quarter_to_dates (quarter_info : Z * Z) : outcome (string * string) :=
  let '(q, year) := quarter_info in
  let start := show_Z year ++ "-01-01T00:00:00+03:00" in
  if q =? 1 then Ret (start, show_Z year ++ "-03-31T23:00:00+03:00")
  else if q =? 2 then Ret (start, show_Z year ++ "-06-30T23:00:00+03:00")
  else if q =? 3 then Ret (start, show_Z year ++ "-09-30T23:00:00+03:00")
  else if q =? 4 then Ret (start, show_Z year ++ "-12-31T23:00:00+03:00")
  else Raise (Exn "ValueError" "Geçersiz çeyrek!").

(** The first instant of year [y] and the last hour of quarter [q]. *)
Definition year_start (y : Z) : stamp := mkStamp y 1 1 0 0 0.

Definition quarter_end (q y : Z) : stamp :=
  mkStamp y (3 * q) (days_in_month y (3 * q)) 23 0 0.

(** ** JSON values, as [response.json()] returns them *)

Inductive json : Type :=
  | JNull
  | JBool (b : bool)
  | JNum (q : Q)
  | JStr (s : string)
  | JArr (items : list json)
  | JObj (fields : list (string * json)).

(** Python truth value of a decoded JSON value ([if x:], [not x]). *)
Definition truthy (j : json) : bool :=
  match j with
  | JNull => false
  | JBool b => b
  | JNum q => negb (Qeq_bool q 0)
  | JStr s => negb (String.eqb s "")
  | JArr l => match l with [] => false | _ => true end
  | JObj l => match l with [] => false | _ => true end
  end.

(** Key lookup in a decoded object; a repeated key holds its last value. *)
Fixpoint assoc_last {A : Type} (k : string) (l : list (string * A)) : option A :=
  match l with
  | [] => None
  | (k', v) :: r =>
      match assoc_last k r with
      | Some v' => Some v'
      | None => if String.eqb k k' then Some v else None
      end
  end.

(** [d.get(key, default)]; on a value that is not a dict the attribute
    lookup itself fails. *)
Definition py_get (d : json) (key : string) (default : json) : outcome json :=
  match d with
  | JObj fields =>
      match assoc_last key fields with
      | Some v => Ret v
      | None => Ret default
      end
  | _ => Raise (Exn "AttributeError" "object has no attribute 'get'")
  end.

(** [len(x)] *)
Definition py_len (j : json) : outcome nat :=
  match j with
  | JStr s => Ret (String.length s)
  | JArr l => Ret (List.length l)
  | JObj l => Ret (List.length l)
  | _ => Raise (Exn "TypeError" "object has no len()")
  end.

(** ** The outside world and the trace of effects *)

Record response : Type := mkResponse
  { status_code : Z;
    text : string;
    (** what [response.json()] decodes; [None] when the body is not JSON *)
    decoded : option json }.

(** What [requests.post] does: it returns a response or raises.  A
    raised [Exn "Timeout" _] stands for [requests.exceptions.Timeout]. *)
Inductive http : Type :=
  | Answers (r : response)
  | Throws (e : exn).

(** A value held in a table or computed from one: missing, a number, a
    boolean, a text, or a value that is not a scalar (a nested list or
    object of the JSON; the Series that a library call gives for a
    table), given by its content. *)
Inductive cell : Type :=
  | NA
  | Num (q : Q)
  | Flag (b : bool)
  | Text (s : string)
  | Other (j : json).

(** A row label: a position of the default index, a naive timestamp of
    a date index, or the missing timestamp. *)
Inductive label : Type :=
  | Pos (n : nat)
  | At (t : stamp)
  | NaT.

(** What [df[name]] gives: the column of that name, a Series, or, when
    several columns carry the name, the table of all of them. *)
Inductive selection : Type :=
  | Series (name : string) (col : list cell)
  | Table (name : string) (cols : list (list cell)).

Definition million : Q := 1000000%Q.

(** The arithmetic of pandas and NumPy that [format_data] calls.  Its
    results depend on how a column is stored (64-bit integers wrap,
    floats round, a column of objects may refuse the operation), so the
    operations are left to the library; a result that is not a scalar,
    such as the Series that the sum of a table is, is an [Other] value.
    Two facts about them are used: a number compares with 0 as the
    number it is, and 0 divided by 1e6 is 0. *)
Record library : Type := mkLibrary
  { (** [x.sum()] *)
    sum_of : selection -> outcome cell;
    (** [x.mean()] *)
    mean_of : selection -> outcome cell;
    (** [x.abs()] *)
    abs_of : selection -> outcome selection;
    (** [x * y] *)
    times : selection -> selection -> outcome selection;
    (** [a + b] on two results *)
    plus : cell -> cell -> outcome cell;
    (** [a / b] on two results *)
    quotient : cell -> cell -> outcome cell;
    (** the truth of [a > 0] *)
    positive : cell -> outcome bool;
    positive_number : forall q, positive (Num q) = Ret (negb (Qle_bool q 0));
    zero_scaled :
      exists v, quotient (Num 0) (Num million) = Ret (Num v) /\ (v == 0)%Q }.

Record world : Type := mkWorld
  { (** the ticket endpoint, by form body *)
    auth_server : string -> http;
    (** the data endpoints, by URL, JSON payload and TGT header *)
    data_server : string -> list (string * string) -> string -> http;
    (** [pd.to_datetime] on one value of a [date] column followed by
        the removal of its zone; [None] when the library raises *)
    to_datetime : cell -> option label;
    (** [datetime.datetime.now()] *)
    now : stamp;
    (** the arithmetic of the libraries *)
    lib : library }.

Inductive event : Type :=
  | Printed (msg : string)
  | Logged (msg : string)
  | AuthPost (data : string)
  | DataPost (url : string) (payload : list (string * string)) (tgt : string)
  | Slept (seconds : Q)
  | Progress (percent : Z)
  | Shown (msg : string).

(** A computation appends to the trace and returns or raises. *)
Definition M (A : Type) : Type := list event -> outcome A * list event.

Definition ret {A : Type} (a : A) : M A := fun tr => (Ret a, tr).

Definition raise {A : Type} (e : exn) : M A := fun tr => (Raise e, tr).

Definition bind {A B : Type} (c : M A) (k : A -> M B) : M B :=
  fun tr =>
    match c tr with
    | (Ret a, tr') => k a tr'
    | (Raise e, tr') => (Raise e, tr')
    end.

(** [try: c  except Exception as e: h e] *)
Definition try_except {A : Type} (c : M A) (h : exn -> M A) : M A :=
  fun tr =>
    match c tr with
    | (Ret a, tr') => (Ret a, tr')
    | (Raise e, tr') => h e tr'
    end.

Definition emit (e : event) : M unit := fun tr => (Ret tt, (tr ++ [e])%list).

Definition lift {A : Type} (o : outcome A) : M A := fun tr => (o, tr).

Declare Scope m_scope.
Delimit Scope m_scope with M.
Notation "x <- c ;; k" := (bind c (fun x => k))
  (at level 61, c at next level, right associativity) : m_scope.
Notation "c ;; k" := (bind c (fun _ => k))
  (at level 61, right associativity) : m_scope.
Local Open Scope m_scope.

Definition print (msg : string) : M unit := emit (Printed msg).
Definition log (msg : string) : M unit := emit (Logged msg).
Definition sleep (seconds : Q) : M unit := emit (Slept seconds).

(** [str(e)] *)
Definition exn_text (e : exn) : string := let '(Exn _ msg) := e in msg.

Definition is_timeout (e : exn) : bool :=
  let '(Exn kind _) := e in String.eqb kind "Timeout".

(** ** Constants *)

Definition REQUEST_DELAY : Q := 1.5.
Definition AUTH_URL : string := "https://giris.epias.com.tr/cas/v1/tickets".
Definition BASE_URL : string := "https://seffaflik.epias.com.tr/electricity-service".

(** ** [get_tgt_token] *)

Definition get_tgt_token (w : world) (username password : string) : M string :=
  let payload := "username=" ++ username ++ "&password=" ++ password in
  emit (AuthPost payload) ;;
  match auth_server w payload with
  | Throws e => raise e
  | Answers r =>
      if status_code r =? 201 then
        print "✓ TGT token başarıyla alındı." ;;
        ret (strip (text r))
      else
        raise (Exn "Exception"
                 ("Giriş Başarısız! Status: " ++ show_Z (status_code r) ++
                  ", Mesaj: " ++ text r))
  end.

(** ** [make_api_request] *)

Definition empty_result : json :=
  JObj [("items", JArr []); ("body", JObj [("items", JArr [])])].

(** [requests.post(url, json=payload, headers=..., timeout=60)] *)
Definition post_json (w : world) (url : string) (payload : list (string * string))
    (tgt : string) : M response :=
  emit (DataPost url payload tgt) ;;
  match data_server w url payload tgt with
  | Answers r => ret r
  | Throws e => raise e
  end.

(** [response.json()] *)
Definition response_json (r : response) : M json :=
  match decoded r with
  | Some j => ret j
  | None => raise (Exn "JSONDecodeError" "Expecting value")
  end.

Definition make_api_request (w : world) (tgt endpoint : string)
    (payload : list (string * string)) : M json :=
  let url := BASE_URL ++ endpoint in
  try_except
    (r <- post_json w url payload tgt ;;
     sleep REQUEST_DELAY ;;
     if status_code r =? 200 then response_json r
     else
       print ("  ! Hata: " ++ last_segment endpoint ++ ", Status: " ++
              show_Z (status_code r)) ;;
       ret empty_result)
    (fun e =>
       if is_timeout e then
         print ("  ! Timeout: " ++ last_segment endpoint) ;;
         ret empty_result
       else
         print ("  ! İstek hatası: " ++ exn_text e) ;;
         ret empty_result).

(** ** [fetch_paginated_data] *)

(** [payload.update(extra_params)]: later keys replace earlier ones. *)
Definition dict_update (d extra : list (string * string)) : list (string * string) :=
  fold_left
    (fun acc kv =>
       if existsb (fun p => String.eqb (fst p) (fst kv)) acc
       then map (fun p => if String.eqb (fst p) (fst kv) then kv else p) acc
       else (acc ++ [kv])%list)
    extra d.

(** The request body: the date range, then the extra parameters if any. *)
Definition request_payload (start_date end_date : string)
    (extra_params : option (list (string * string))) : list (string * string) :=
  let payload := [("startDate", start_date); ("endDate", end_date)] in
  match extra_params with
  | Some (x :: xs) => dict_update payload (x :: xs)
  | _ => payload
  end.

Definition fetch_paginated_data (w : world) (tgt endpoint start_date end_date : string)
    (extra_params : option (list (string * string))) (items_key : string) : M json :=
  let payload := request_payload start_date end_date extra_params in
  result <- make_api_request w tgt endpoint payload ;;
  items <- lift (py_get result items_key (JArr [])) ;;
  items <- (if negb (truthy items) then
              body <- lift (py_get result "body" (JObj [])) ;;
              lift (py_get body items_key (JArr []))
            else ret items) ;;
  (if truthy items then
     n <- lift (py_len items) ;;
     print ("  ✓ " ++ show_nat n ++ " kayıt çekildi (" ++ last_segment endpoint ++ ")")
   else ret tt) ;;
  ret items.

(** ** Tables *)

(** A [pandas.DataFrame], column-major: the row labels, the name of the
    index, and the named columns, each as long as the index. *)
Record DataFrame : Type := mkFrame
  { index : list label;
    index_name : option string;
    columns : list (string * list cell) }.

(** [pd.DataFrame()] *)
Definition empty_frame : DataFrame := mkFrame [] None [].

(** [df.empty]: no rows or no columns. *)
Definition df_empty (df : DataFrame) : bool :=
  match index df, columns df with
  | [], _ => true
  | _, [] => true
  | _, _ => false
  end.

Definition column_names (df : DataFrame) : list string := map fst (columns df).

(** [name in df.columns] *)
Definition has_column (name : string) (df : DataFrame) : bool :=
  existsb (String.eqb name) (column_names df).

(** [df[name]] on a table made from records, whose names are distinct:
    the column of that name.  On the merged table, where a name can
    repeat, the program's [df[name]] is [select] below. *)
Fixpoint get_column (name : string) (cols : list (string * list cell)) : list cell :=
  match cols with
  | [] => []
  | (n, c) :: r => if String.eqb name n then c else get_column name r
  end.

(** [df.drop(columns=[name])] *)
Definition drop_column (name : string) (df : DataFrame) : DataFrame :=
  mkFrame (index df) (index_name df)
    (filter (fun p => negb (String.eqb name (fst p))) (columns df)).

(** [df.columns = [f(c) for c in df.columns]] *)
Definition rename_columns (f : string -> string) (df : DataFrame) : DataFrame :=
  mkFrame (index df) (index_name df)
    (map (fun p => (f (fst p), snd p)) (columns df)).

(** Rows kept by a boolean mask. *)
Fixpoint keep_rows {A : Type} (mask : list bool) (l : list A) : list A :=
  match mask, l with
  | b :: m, x :: r => if b then x :: keep_rows m r else keep_rows m r
  | _, _ => []
  end.

Definition select_rows (mask : list bool) (df : DataFrame) : DataFrame :=
  mkFrame (keep_rows mask (index df)) (index_name df)
    (map (fun p => (fst p, keep_rows mask (snd p))) (columns df)).

(** [df[col] = values], replacing the column in place or adding it last. *)
Definition set_column (name : string) (values : list cell)
    (cols : list (string * list cell)) : list (string * list cell) :=
  if existsb (fun p => String.eqb name (fst p)) cols
  then map (fun p => if String.eqb name (fst p) then (name, values) else p) cols
  else (cols ++ [(name, values)])%list.

Definition cell_of_json (j : json) : cell :=
  match j with
  | JNull => NA
  | JBool b => Flag b
  | JNum q => Num q
  | JStr s => Text s
  | _ => Other j
  end.

(** The records of an item list: a JSON array of objects. *)
Definition record : Type := list (string * json).

Fixpoint records_of_list (l : list json) : option (list record) :=
  match l with
  | [] => Some []
  | JObj f :: r =>
      match records_of_list r with
      | Some rs => Some (f :: rs)
      | None => None
      end
  | _ :: _ => None
  end.

Definition records_of (items : json) : option (list record) :=
  match items with
  | JArr l => records_of_list l
  | _ => None
  end.

(** Keys in order of first appearance. *)
Fixpoint add_keys (seen : list string) (ks : list string) : list string :=
  match ks with
  | [] => seen
  | k :: r =>
      if existsb (String.eqb k) seen then add_keys seen r
      else add_keys (seen ++ [k])%list r
  end.

Definition record_keys (rs : list record) : list string :=
  fold_left (fun seen r => add_keys seen (map fst r)) rs [].

Definition field (k : string) (r : record) : cell :=
  match assoc_last k r with
  | Some j => cell_of_json j
  | None => NA
  end.

(** [pd.DataFrame(records)]: one column per key, a missing field is NaN,
    rows labelled by position. *)
Definition frame_of_records (rs : list record) : DataFrame :=
  mkFrame (map Pos (seq 0 (List.length rs))) None
    (map (fun k => (k, map (field k) rs)) (record_keys rs)).

(** [pd.DataFrame(items)] for a non-empty item list.  Item lists that are
    not arrays of records lie outside this model. *)
Definition frame_of_items (items : json) : outcome DataFrame :=
  match records_of items with
  | Some rs => Ret (frame_of_records rs)
  | None => Raise (Exn "Unmodelled" "items is not a list of records")
  end.

Fixpoint all_some {A : Type} (l : list (option A)) : option (list A) :=
  match l with
  | [] => Some []
  | Some a :: r =>
      match all_some r with
      | Some r' => Some (a :: r')
      | None => None
      end
  | None :: _ => None
  end.

(** [df.set_index("date")] once the column holds [labels]. *)
Definition set_date_index (labels : list label) (df : DataFrame) : DataFrame :=
  mkFrame labels (Some "date")
    (filter (fun p => negb (String.eqb "date" (fst p))) (columns df)).

(** ** [items_to_dataframe] *)

Definition items_to_dataframe (w : world) (items : json) (prefix : string)
    : outcome DataFrame :=
  if negb (truthy items) then Ret empty_frame
  else
    match frame_of_items items with
    | Raise e => Raise e
    | Ret df =>
        let dated :=
          if has_column "date" df then
            match all_some (map (to_datetime w) (get_column "date" (columns df))) with
            | Some labels => Ret (set_date_index labels df)
            | None => Raise (Exn "ValueError" "to_datetime")
            end
          else Ret df in
        match dated with
        | Raise e => Raise e
        | Ret df =>
            let df := if has_column "hour" df then drop_column "hour" df else df in
            let df := if negb (String.eqb prefix "")
                      then rename_columns (fun c => prefix ++ c) df else df in
            Ret df
        end
    end.

(** ** Contract names: [strptime] with the format [%y%m%d%H] *)

Definition digit (c : ascii) : option Z :=
  let n := nat_of_ascii c in
  if ((48 <=? n)%nat && (n <=? 57)%nat)%bool then Some (Z.of_nat (n - 48)) else None.

(** Ways a directive can match at the head of [s], in the order in which
    the regular expression of the directive tries them: two digits with a
    value in [lo2..hi2], then one digit with a value in [lo1..9]. *)
Definition two_then_one (lo2 hi2 lo1 : Z) (s : string) : list (Z * string) :=
  let long :=
    match s with
    | String a (String b r) =>
        match digit a, digit b with
        | Some x, Some y =>
            if (lo2 <=? 10 * x + y) && (10 * x + y <=? hi2) then [(10 * x + y, r)] else []
        | _, _ => []
        end
    | _ => []
    end in
  let short :=
    match s with
    | String a r =>
        match digit a with
        | Some x => if lo1 <=? x then [(x, r)] else []
        | None => []
        end
    | _ => []
    end in
  (long ++ short)%list.

(** [%y] is [\d\d]. *)
Definition match_y (s : string) : list (Z * string) :=
  match s with
  | String a (String b r) =>
      match digit a, digit b with
      | Some x, Some y => [(10 * x + y, r)]
      | _, _ => []
      end
  | _ => []
  end.

(** [%m] is [1[0-2]|0[1-9]|[1-9]]. *)
Definition match_m (s : string) : list (Z * string) := two_then_one 1 12 1 s.

(** [%d] is [3[0-1]|[1-2]\d|0[1-9]|[1-9]| [1-9]]. *)
Definition match_d (s : string) : list (Z * string) :=
  (two_then_one 1 31 1 s ++
   match s with
   | String " " (String b r) =>
       match digit b with
       | Some y => if 1 <=? y then [(y, r)] else []
       | None => []
       end
   | _ => []
   end)%list.

(** [%H] is [2[0-3]|[0-1]\d|\d]. *)
Definition match_H (s : string) : list (Z * string) := two_then_one 0 23 0 s.

(** All matches of the four directives in sequence, in the order a
    backtracking matcher visits them; the first is the match found. *)
Definition matches_ymdH (s : string) : list (Z * Z * Z * Z * string) :=
  flat_map (fun ys =>
    flat_map (fun ms =>
      flat_map (fun ds =>
        map (fun hs => (fst ys, fst ms, fst ds, fst hs, snd hs)) (match_H (snd ds)))
        (match_d (snd ms)))
      (match_m (snd ys)))
    (match_y s).

(** [pd.to_datetime(s, format='%y%m%d%H', errors='coerce')] on one text:
    [None] is NaT.  Text left over after the match, or a day the month
    does not have, is an error, hence NaT. *)
Definition strptime_ymdH (s : string) : option stamp :=
  match matches_ymdH s with
  | (y, m, d, h, rest) :: _ =>
      let year := if y <=? 68 then 2000 + y else 1900 + y in
      if negb (String.eqb rest "") then None
      else if d <=? days_in_month year m then Some (mkStamp year m d h 0 0)
      else None
  | [] => None
  end.

(** [.str[2:]] then the parse, on one cell of the [kontratAdi] column. *)
Definition contract_time (c : cell) : option stamp :=
  match c with
  | Text s => strptime_ymdH (drop_chars 2 s)
  | _ => None
  end.

Definition is_na (c : cell) : bool := match c with NA => true | _ => false end.
Definition is_num (c : cell) : bool := match c with Num _ => true | _ => false end.
Definition is_flag (c : cell) : bool := match c with Flag _ => true | _ => false end.

(** The [.str] accessor exists on a column unless its values are all
    numbers or all booleans. *)
Definition str_accessor_ok (col : list cell) : bool :=
  let present := filter (fun c => negb (is_na c)) col in
  match present with
  | [] => true
  | _ => negb (forallb is_num present) && negb (forallb is_flag present)
  end.

Definition label_of_time (t : option stamp) : label :=
  match t with Some t => At t | None => NaT end.

Definition not_nat (l : label) : bool := match l with NaT => false | _ => true end.

(** The body of the [try] in [fetch_idm_data]: the [date] column from the
    contract names, [dropna(subset=["date"])], [set_index("date")]. *)
Definition index_by_contract (df : DataFrame) : outcome DataFrame :=
  let names := get_column "kontratAdi" (columns df) in
  if str_accessor_ok names then
    let dates := map (fun c => label_of_time (contract_time c)) names in
    let mask := map not_nat dates in
    let kept := select_rows mask df in
    Ret (set_date_index (keep_rows mask dates) kept)
  else Raise (Exn "AttributeError" "Can only use .str accessor with string values!").

(** ** The category fetchers *)

Definition fetch_items (w : world) (tgt endpoint start_date end_date : string) : M json :=
  fetch_paginated_data w tgt endpoint start_date end_date None "items".

Definition fetch_ptf_smf (w : world) (tgt start_date end_date : string) : M DataFrame :=
  ptf_items <- fetch_items w tgt "/v1/markets/dam/data/mcp" start_date end_date ;;
  lift (items_to_dataframe w ptf_items "ptf_").

Definition fetch_smf (w : world) (tgt start_date end_date : string) : M DataFrame :=
  items <- fetch_items w tgt "/v1/markets/bpm/data/system-marginal-price" start_date end_date ;;
  lift (items_to_dataframe w items "smf_").

Definition fetch_system_direction (w : world) (tgt start_date end_date : string) : M DataFrame :=
  items <- fetch_items w tgt "/v1/markets/bpm/data/system-direction" start_date end_date ;;
  lift (items_to_dataframe w items "sysdir_").

Definition fetch_bilateral_contracts (w : world) (tgt start_date end_date : string) : M DataFrame :=
  items <- fetch_items w tgt
             "/v1/markets/bilateral-contracts/data/bilateral-contracts-bid-quantity"
             start_date end_date ;;
  lift (items_to_dataframe w items "bilateral_").

Definition fetch_dam_clearing_quantity (w : world) (tgt start_date end_date : string) : M DataFrame :=
  items <- fetch_items w tgt "/v1/markets/dam/data/clearing-quantity" start_date end_date ;;
  lift (items_to_dataframe w items "dam_").

Definition fetch_bpm_orders (w : world) (tgt start_date end_date : string)
    : M (DataFrame * DataFrame) :=
  down_items <- fetch_items w tgt "/v1/markets/bpm/data/order-summary-down" start_date end_date ;;
  up_items <- fetch_items w tgt "/v1/markets/bpm/data/order-summary-up" start_date end_date ;;
  df_down <- lift (items_to_dataframe w down_items "bpmD_") ;;
  df_up <- lift (items_to_dataframe w up_items "bpmU_") ;;
  ret (df_down, df_up).

(** The matching-quantity table, keyed by the hour in the contract name. *)
Definition quantity_frame (quantity_items : json) : M DataFrame :=
  if truthy quantity_items then
    df_quant <- lift (frame_of_items quantity_items) ;;
    df_quant <-
      (if has_column "kontratAdi" df_quant then
         try_except (lift (index_by_contract df_quant))
           (fun e => print ("  ! GİP Tarih ayrıştırma hatası: " ++ exn_text e) ;;
                     ret df_quant)
       else ret df_quant) ;;
    ret (rename_columns (fun c => "idm_" ++ c) df_quant)
  else ret empty_frame.

Definition fetch_idm_data (w : world) (tgt start_date end_date : string)
    : M (DataFrame * DataFrame) :=
  price_items <- fetch_items w tgt "/v1/markets/idm/data/weighted-average-price"
                   start_date end_date ;;
  quantity_items <- fetch_items w tgt "/v1/markets/idm/data/matching-quantity"
                      start_date end_date ;;
  df_price <- lift (items_to_dataframe w price_items "idm_") ;;
  df_quant <- quantity_frame quantity_items ;;
  ret (df_price, df_quant).

Definition fetch_ancillary_services (w : world) (tgt start_date end_date : string)
    : M (list (string * DataFrame)) :=
  pfc_items <- fetch_items w tgt
    "/v1/markets/ancillary-services/data/primary-frequency-capacity-amount" start_date end_date ;;
  pfc <- lift (items_to_dataframe w pfc_items "") ;;
  pfp_items <- fetch_items w tgt
    "/v1/markets/ancillary-services/data/primary-frequency-capacity-price" start_date end_date ;;
  pfp <- lift (items_to_dataframe w pfp_items "") ;;
  sfc_items <- fetch_items w tgt
    "/v1/markets/ancillary-services/data/secondary-frequency-capacity-amount" start_date end_date ;;
  sfc <- lift (items_to_dataframe w sfc_items "") ;;
  sfp_items <- fetch_items w tgt
    "/v1/markets/ancillary-services/data/secondary-frequency-capacity-price" start_date end_date ;;
  sfp <- lift (items_to_dataframe w sfp_items "") ;;
  ret [("pfc_amount", pfc); ("pfp_price", pfp); ("sfc_amount", sfc); ("sfp_price", sfp)].

(** ** Column-wise concatenation *)

Definition label_eqb (a b : label) : bool :=
  match a, b with
  | Pos m, Pos n => Nat.eqb m n
  | At s, At t => stamp_eqb s t
  | NaT, NaT => true
  | _, _ => false
  end.

Fixpoint labels_eqb (a b : list label) : bool :=
  match a, b with
  | [], [] => true
  | x :: a', y :: b' => label_eqb x y && labels_eqb a' b'
  | _, _ => false
  end.

Definition mem_label (l : label) (idx : list label) : bool := existsb (label_eqb l) idx.

(** [idx.is_unique] *)
Fixpoint is_unique (idx : list label) : bool :=
  match idx with
  | [] => true
  | l :: r => negb (mem_label l r) && is_unique r
  end.

(** One occurrence of [l] taken out of [budget], if there is one. *)
Fixpoint remove_one (l : label) (budget : list label) : option (list label) :=
  match budget with
  | [] => None
  | x :: r =>
      if label_eqb l x then Some r
      else match remove_one l r with
           | Some r' => Some (x :: r')
           | None => None
           end
  end.

(** The labels of [r] beyond the occurrences [budget] already has. *)
Fixpoint surplus (budget r : list label) : list label :=
  match r with
  | [] => []
  | l :: r' =>
      match remove_one l budget with
      | Some b' => surplus b' r'
      | None => l :: surplus budget r'
      end
  end.

(** [a.union(b)]: every label as often as the index that repeats it
    most.  Labels stay in order of first appearance; the order in which
    the library arranges the union is not modelled. *)
Definition union_labels (a b : list label) : list label := (a ++ surplus a b)%list.

Definition combined_index (idxs : list (list label)) : list label :=
  match idxs with
  | [] => []
  | i :: r => fold_left union_labels r i
  end.

(** Position of the first occurrence of a label. *)
Fixpoint position (l : label) (idx : list label) : option nat :=
  match idx with
  | [] => None
  | x :: r =>
      if label_eqb l x then Some O
      else match position l r with
           | Some n => Some (S n)
           | None => None
           end
  end.

(** A column of a frame laid out on the labels [target]; a label the
    frame lacks gives NaN. *)
Definition reindex_column (idx target : list label) (col : list cell) : list cell :=
  map (fun l => match position l idx with
                | Some i => nth i col NA
                | None => NA
                end) target.

Definition reindex (target : list label) (df : DataFrame) : list (string * list cell) :=
  if labels_eqb (index df) target then columns df
  else map (fun p => (fst p, reindex_column (index df) target (snd p))) (columns df).

Definition common_name (names : list (option string)) : option string :=
  match names with
  | [] => None
  | n :: r =>
      if forallb (fun m => match n, m with
                           | Some a, Some b => String.eqb a b
                           | None, None => true
                           | _, _ => false
                           end) r
      then n else None
  end.

(** [pd.concat(dfs, axis=1)]: an outer join on the index.  A frame
    whose index is not the combined one is re-indexed, which the library
    refuses when the labels of that frame repeat.  The combined index is
    taken here in order of first appearance; the library may arrange it
    otherwise, and with repeated labels its answer can depend on that
    arrangement.  What is proved of the merge below does not. *)
Definition concat_columns (dfs : list DataFrame) : outcome DataFrame :=
  let target := combined_index (map index dfs) in
  if forallb (fun df => labels_eqb (index df) target || is_unique (index df)) dfs
  then Ret (mkFrame target (common_name (map index_name dfs))
              (flat_map (reindex target) dfs))
  else Raise (Exn "InvalidIndexError"
                "Reindexing only valid with uniquely valued Index objects").

(** [idx.duplicated(keep='first')] *)
Fixpoint duplicated_from (seen idx : list label) : list bool :=
  match idx with
  | [] => []
  | l :: r => mem_label l seen :: duplicated_from (l :: seen) r
  end.

Definition duplicated (idx : list label) : list bool := duplicated_from [] idx.

(** [df[~df.index.duplicated(keep='first')]] *)
Definition drop_duplicated (df : DataFrame) : DataFrame :=
  select_rows (map negb (duplicated (index df))) df.

(** The merge at the end of [download_data], on the thirteen tables. *)
Definition merge_frames (all_dfs : list DataFrame) : outcome (option DataFrame) :=
  let valid_dfs := filter (fun df => negb (df_empty df)) all_dfs in
  match valid_dfs with
  | [] => Ret None
  | _ :: _ =>
      match concat_columns valid_dfs with
      | Ret df => Ret (Some (drop_duplicated df))
      | Raise e => Raise e
      end
  end.

(** ** The report object *)

Record report : Type := mkReport
  { username : string;
    password : string;
    tgt : string;
    quarter_info : Z * Z;
    start_date : string;
    end_date : string;
    df : option DataFrame;
    ozet : option (list (string * cell));
    final_result : option (list (string * cell)) }.

Definition set_df (self : report) (d : DataFrame) : report :=
  mkReport (username self) (password self) (tgt self) (quarter_info self)
    (start_date self) (end_date self) (Some d) (ozet self) (final_result self).

Definition set_summary (self : report) (o r : list (string * cell)) : report :=
  mkReport (username self) (password self) (tgt self) (quarter_info self)
    (start_date self) (end_date self) (df self) (Some o) (Some r).

(** [get_quarter]: the quarter before the current one. *)
Definition get_quarter (w : world) : Z * Z :=
  let current_quarter := (mo (now w) + 2) / 3 in
  let current_year := yr (now w) in
  if current_quarter =? 1 then (4, current_year - 1)
  else (current_quarter - 1, current_year).

Fixpoint repeat_string (s : string) (n : nat) : string :=
  match n with
  | O => ""
  | S k => s ++ repeat_string s k
  end.

(** [BakanlikCeyreklikVeri.__init__] *)
Definition init (w : world) (username password : string)
    (quarter_info : option (Z * Z)) : M report :=
  log (repeat_string "=" 50) ;;
  log "Çeyreklik Veri Raporu Başlatılıyor..." ;;
  log (repeat_string "=" 50) ;;
  log "🔑 Giriş yapılıyor..." ;;
  tgt <- get_tgt_token w username password ;;
  qi <- match quarter_info with
        | None => ret (get_quarter w)
        | Some (q, y) =>
            if negb ((q =? 1) || (q =? 2) || (q =? 3) || (q =? 4)) || (y <? 2015)
            then raise (Exn "ValueError"
                          "Tarihleri kontrol ediniz. Çeyrek 1-4, yıl >= 2015 olmalı.")
            else ret (q, y)
        end ;;
  dates <- lift (quarter_to_dates qi) ;;
  log ("📅 Dönem: " ++ show_Z (snd qi) ++ " Q" ++ show_Z (fst qi) ++ " (" ++
       take_chars 10 (fst dates) ++ " - " ++ take_chars 10 (snd dates) ++ ")") ;;
  ret (mkReport username password tgt qi (fst dates) (snd dates) None None None).

(** [BakanlikCeyreklikVeri.download_data] *)
Definition download_data (w : world) (self : report) : M report :=
  let t := tgt self in
  let s := start_date self in
  let e := end_date self in
  log (String "010" "📥 Veriler çekiliyor...") ;;
  log "- PTF ve SMF..." ;;
  df_ptf <- fetch_ptf_smf w t s e ;;
  df_smf <- fetch_smf w t s e ;;
  log "- Sistem Yönü..." ;;
  df_sysdir <- fetch_system_direction w t s e ;;
  log "- İkili Anlaşmalar..." ;;
  df_bilateral <- fetch_bilateral_contracts w t s e ;;
  log "- GÖP Eşleşme Miktarı..." ;;
  df_dam <- fetch_dam_clearing_quantity w t s e ;;
  log "- Dengeleme Güç Piyasası (YAL/YAT)..." ;;
  bpm <- fetch_bpm_orders w t s e ;;
  log "- Gün İçi Piyasası..." ;;
  idm <- fetch_idm_data w t s e ;;
  log "- Yan Hizmetler..." ;;
  ancillary <- fetch_ancillary_services w t s e ;;
  let all_dfs :=
    app [df_ptf; df_smf; df_sysdir; df_bilateral; df_dam; fst bpm; snd bpm; fst idm; snd idm]
      (map (fun kd => rename_columns (fun c => fst kd ++ "_" ++ c) (snd kd)) ancillary) in
  merged <- lift (merge_frames all_dfs) ;;
  match merged with
  | Some d =>
      log ("✓ Toplam " ++ show_nat (List.length (index d)) ++
           " satır veri başarılı bir şekilde birleştirildi.") ;;
      ret (set_df self d)
  | None =>
      log "⚠ Uyarı: Hiç veri çekilemedi. Boş bir rapor oluşturulacak." ;;
      ret (set_df self empty_frame)
  end.

(** ** Selecting columns *)

(** Sequencing of computations that may raise. *)
Definition and_then {A B : Type} (o : outcome A) (k : A -> outcome B) : outcome B :=
  match o with
  | Ret a => k a
  | Raise e => Raise e
  end.

Notation "x <~ o ;; k" := (and_then o (fun x => k))
  (at level 61, o at next level, right associativity).

(** [df[name]] *)
Definition select (name : string) (d : DataFrame) : outcome selection :=
  match filter (fun p => String.eqb name (fst p)) (columns d) with
  | [] => Raise (Exn "KeyError" name)
  | [p] => Ret (Series name (snd p))
  | ps => Ret (Table name (map snd ps))
  end.

(** ** Schoolbook arithmetic *)

(** One arithmetic among those the record [library] admits: exact, on
    numbers without bound, and only on a single column.  The library
    agrees with it on a column of integers small enough that nothing
    overflows or is rounded; it serves for the worked examples. *)

(** The number a cell stands for in arithmetic: NaN is skipped, a boolean
    counts as 0 or 1, text and nested values make the arithmetic raise. *)
Definition numeric (c : cell) : outcome (option Q) :=
  match c with
  | NA => Ret None
  | Num q => Ret (Some q)
  | Flag b => Ret (Some (if b then 1%Q else 0%Q))
  | Text _ | Other _ => Raise (Exn "TypeError" "unsupported operand type(s)")
  end.

(** The exact sum of a column, NaN skipped. *)
Fixpoint col_sum (col : list cell) : outcome Q :=
  match col with
  | [] => Ret 0%Q
  | c :: r =>
      match numeric c with
      | Raise e => Raise e
      | Ret v =>
          match col_sum r with
          | Raise e => Raise e
          | Ret s => Ret (match v with Some q => (q + s)%Q | None => s end)
          end
      end
  end.

(** [col.count()]: the cells that are not NaN. *)
Definition col_count (col : list cell) : nat :=
  List.length (filter (fun c => negb (is_na c)) col).

(** The exact mean of a column: NaN when no value is present. *)
Definition col_mean (col : list cell) : outcome cell :=
  match col_sum col with
  | Raise e => Raise e
  | Ret s =>
      match col_count col with
      | O => Ret NA
      | S n => Ret (Num (s / inject_Z (Z.of_nat (S n)))%Q)
      end
  end.

(** The absolute values of a column. *)
Fixpoint col_abs (col : list cell) : outcome (list cell) :=
  match col with
  | [] => Ret []
  | c :: r =>
      match numeric c with
      | Raise e => Raise e
      | Ret v =>
          match col_abs r with
          | Raise e => Raise e
          | Ret r' => Ret (match v with Some q => Num (Qabs q) | None => NA end :: r')
          end
      end
  end.

(** The exact products, row by row; NaN on either side gives NaN. *)
Fixpoint col_mul (a b : list cell) : outcome (list cell) :=
  match a, b with
  | x :: a', y :: b' =>
      match numeric x, numeric y with
      | Ret u, Ret v =>
          match col_mul a' b' with
          | Raise e => Raise e
          | Ret r => Ret (match u, v with
                          | Some p, Some q => Num (p * q)%Q
                          | _, _ => NA
                          end :: r)
          end
      | Raise e, _ => Raise e
      | _, Raise e => Raise e
      end
  | _, _ => Ret []
  end.

Definition beyond {A : Type} : outcome A :=
  Raise (Exn "Unmodelled" "schoolbook arithmetic is on single columns").

Definition exact_sum (x : selection) : outcome cell :=
  match x with
  | Series _ col => s <~ col_sum col ;; Ret (Num s)
  | Table _ _ => beyond
  end.

Definition exact_mean (x : selection) : outcome cell :=
  match x with
  | Series _ col => col_mean col
  | Table _ _ => beyond
  end.

Definition exact_abs (x : selection) : outcome selection :=
  match x with
  | Series name col => a <~ col_abs col ;; Ret (Series name a)
  | Table _ _ => beyond
  end.

Definition exact_times (x y : selection) : outcome selection :=
  match x, y with
  | Series name a, Series _ b => p <~ col_mul a b ;; Ret (Series name p)
  | _, _ => beyond
  end.

Definition exact_plus (a b : cell) : outcome cell :=
  u <~ numeric a ;;
  v <~ numeric b ;;
  Ret (match u, v with
       | Some p, Some q => Num (p + q)%Q
       | _, _ => NA
       end).

Definition exact_quotient (a b : cell) : outcome cell :=
  u <~ numeric a ;;
  v <~ numeric b ;;
  Ret (match u, v with
       | Some p, Some q => if Qeq_bool q 0 then NA else Num (p / q)%Q
       | _, _ => NA
       end).

Definition exact_positive (a : cell) : outcome bool :=
  u <~ numeric a ;;
  Ret (match u with
       | Some q => negb (Qle_bool q 0)
       | None => false
       end).

Definition schoolbook : library :=
  mkLibrary exact_sum exact_mean exact_abs exact_times exact_plus exact_quotient
    exact_positive
    (fun q => eq_refl)
    (ex_intro _ (0 / million)%Q (conj eq_refl eq_refl)).

(** ** The indicators of [format_data] *)

Section Indicators.

Variable L : library.
Variable d : DataFrame.

Let names : list string := column_names d.

(** [x.sum() / 1e6] *)
Definition scaled_sum (x : selection) : outcome cell :=
  s <~ sum_of L x ;; quotient L s (Num million).

(** [x.abs().sum()] *)
Definition abs_sum (x : selection) : outcome cell :=
  a <~ abs_of L x ;; sum_of L a.

Definition bilateral_quantity : outcome cell :=
  if has_column "bilateral_quantity" d
  then x <~ select "bilateral_quantity" d ;; scaled_sum x
  else Ret (Num 0).

Definition dam_col : list string :=
  filter (fun c => contains "dam_" (lower c) && contains "matched" (lower c)) names.

Definition dam_matchedBids : outcome cell :=
  match dam_col with
  | c :: _ => x <~ select c d ;; scaled_sum x
  | [] => Ret (Num 0)
  end.

Definition ptf_col : list string :=
  filter (fun c => contains "ptf_" c &&
                   (contains "price" (lower c) || contains "mcp" (lower c))) names.

Definition ptf : outcome cell :=
  match ptf_col with
  | c :: _ => x <~ select c d ;; mean_of L x
  | [] => Ret (Num 0)
  end.

Definition smf_col : list string :=
  filter (fun c => contains "smf_" c &&
                   (contains "price" (lower c) || contains "smp" (lower c) ||
                    contains "systemMarginalPrice" c)) names.

Definition smf : outcome cell :=
  match smf_col with
  | c :: _ => x <~ select c d ;; mean_of L x
  | [] => Ret (Num 0)
  end.

Definition wap_col : list string :=
  filter (fun c => contains "idm_" c && contains "wap" (lower c)) names.

Definition idm_wap : outcome cell :=
  match wap_col with
  | c :: _ => x <~ select c d ;; mean_of L x
  | [] => Ret (Num 0)
  end.

Definition idm_quant_col : list string :=
  filter (fun c => contains "idm_" c &&
                   (contains "quantity" (lower c) || contains "clearing" (lower c))) names.

Definition idm_quant : outcome cell :=
  match idm_quant_col with
  | c :: _ => x <~ select c d ;; scaled_sum x
  | [] => Ret (Num 0)
  end.

(** The body of the [try]: [sum(quantity * price) / sum(quantity)] when
    the total volume is positive, else 0. *)
Definition weighted_price (quant_col_name wap_col_name : string) : outcome cell :=
  x <~ select quant_col_name d ;;
  total_vol <~ sum_of L x ;;
  is_positive <~ positive L total_vol ;;
  if is_positive then
    y <~ select wap_col_name d ;;
    products <~ times L x y ;;
    weighted_sum <~ sum_of L products ;;
    quotient L weighted_sum total_vol
  else Ret (Num 0).

Definition idm_year_price : M cell :=
  match idm_quant_col with
  | quant_col_name :: _ =>
      match wap_col with
      | wap_col_name :: _ =>
          try_except (lift (weighted_price quant_col_name wap_col_name))
            (fun e => log ("⚠ GİP Ağırlıklı Ortalama hesaplanamadı: " ++ exn_text e) ;;
                      ret (Num 0))
      | [] => ret (Num 0)
      end
  | [] => ret (Num 0)
  end.

(** One pass of the loop over [ZeroCoded], [OneCoded], [TwoCoded]. *)
Definition coded (code : string) : outcome cell :=
  let down_col := filter (fun c => contains "bpmD_" c && contains (lower code) (lower c)) names in
  let up_col := filter (fun c => contains "bpmU_" c && contains (lower code) (lower c)) names in
  let total := Num 0 in
  total <~ match down_col with
           | c :: _ => x <~ select c d ;; s <~ abs_sum x ;; plus L total s
           | [] => Ret total
           end ;;
  total <~ match up_col with
           | c :: _ => x <~ select c d ;; s <~ abs_sum x ;; plus L total s
           | [] => Ret total
           end ;;
  quotient L total (Num million).

Definition delivered (prefix : string) : outcome cell :=
  match filter (fun c => contains prefix c && contains "delivered" (lower c)) names with
  | c :: _ => x <~ select c d ;; s <~ abs_sum x ;; quotient L s (Num million)
  | [] => Ret (Num 0)
  end.

(** One pass of the loop over the frequency-capacity keys. *)
Definition frequency (key : string) : outcome cell :=
  match filter (fun c => contains key (lower c)) names with
  | c :: _ => x <~ select c d ;; mean_of L x
  | [] => Ret (Num 0)
  end.

(** [fresult], in the order its keys are assigned. *)
Definition indicators : M (list (string * cell)) :=
  v1 <- lift bilateral_quantity ;;
  v2 <- lift dam_matchedBids ;;
  v3 <- lift ptf ;;
  v4 <- lift smf ;;
  v5 <- lift idm_wap ;;
  v6 <- lift idm_quant ;;
  v7 <- idm_year_price ;;
  v8 <- lift (coded "ZeroCoded") ;;
  v9 <- lift (coded "OneCoded") ;;
  v10 <- lift (coded "TwoCoded") ;;
  v11 <- lift (delivered "bpmD_") ;;
  v12 <- lift (delivered "bpmU_") ;;
  v13 <- lift (frequency "pfc_amount") ;;
  v14 <- lift (frequency "pfp_price") ;;
  v15 <- lift (frequency "sfc_amount") ;;
  v16 <- lift (frequency "sfp_price") ;;
  ret [("bilateral_quantity", v1); ("dam_matchedBids", v2); ("ptf", v3); ("smf", v4);
       ("idm_wap", v5); ("idm_quant", v6); ("idm_year_price", v7);
       ("zero_coded", v8); ("one_coded", v9); ("two_coded", v10);
       ("down_delivered", v11); ("up_delivered", v12);
       ("pfc_amount", v13); ("pfp_price", v14); ("sfc_amount", v15); ("sfp_price", v16)].

End Indicators.

(** [fresult.get(key, 0)] *)
Definition result_get (fresult : list (string * cell)) (key : string) : cell :=
  match assoc_last key fresult with
  | Some v => v
  | None => Num 0
  end.

(** The rows of the summary: the labels and the keys they show. *)
Definition summary_rows : list (string * string) :=
  [("Alış veya Satış Miktarı (milyar kWh)", "bilateral_quantity");
   ("Ortalama Piyasa Takas Fiyatı (TL/MWh) (SST/SSM)", "ptf");
   ("Eşleşen Alış veya Satış Miktarı (milyar kWh)", "dam_matchedBids");
   ("Günlük Ağırlıklı Ortalama Fiyatların, Yıl Bazında Aritmetik Ortalama Fiyatı (TL/MWh)",
    "idm_wap");
   ("Yıllık Ağırlıklı Ortalama Fiyat (TL/kWh) (SST/SSM)", "idm_year_price");
   ("Eşleşme Miktarı (milyar kWh)", "idm_quant");
   ("Ortalama Sistem Marjinal Fiyatı (TL/MWh)", "smf");
   ("0 Kodlu YAL ve YAT Talimatları Toplamı (milyar kWh)", "zero_coded");
   ("1 Kodlu YAL ve YAT Talimatları Toplamı (milyar kWh)", "one_coded");
   ("2 Kodlu YAL ve YAT Talimatları Toplamı (milyar kWh)", "two_coded");
   ("Kesinleşmiş Yük Alma Miktarı (milyar kWh)", "up_delivered");
   ("Kesinleşmiş Yük Atma Miktarı (milyar kWh)", "down_delivered");
   ("Ortalama Saatlik Primer Frekans Rezerv Miktarı (MWh)", "pfc_amount");
   ("Ortalama Primer Frekans Kontrolü Fiyatı (TL/MWh)", "pfp_price");
   ("Ortalama Saatlik Sekonder Frekans Rezerv Miktarı (MWh)", "sfc_amount");
   ("Ortalama Sekonder Frekans Kontrolü Fiyatı (TL/MWh)", "sfp_price")].

Definition summary_labels : list string := map fst summary_rows.

(** [BakanlikCeyreklikVeri.format_data] *)
Definition format_data (L : library) (self : report) : M report :=
  log (String "010" "📊 Veriler analiz ediliyor...") ;;
  match df self with
  | None => raise (Exn "AttributeError" "'NoneType' object has no attribute 'columns'")
  | Some d =>
      fresult <- indicators L d ;;
      let ozet := map (fun r => (fst r, result_get fresult (snd r))) summary_rows in
      log "✓ Özet tablo oluşturuldu." ;;
      ret (set_summary self ozet fresult)
  end.

(** ** The workbook *)

(** One written sheet: its header row, its data rows and the column
    widths set on it. *)
Record sheet : Type := mkSheet
  { sheet_name : string;
    header : list string;
    rows : list (list cell);
    widths : list (string * Z) }.

(** Row [i] of a column-major table. *)
Definition rows_of (n : nat) (cols : list (list cell)) : list (list cell) :=
  map (fun i => map (fun c => nth i c NA) cols) (seq 0 n).

(** The first [n] characters of a text. *)
Fixpoint first_chars (n : N) (s : string) : string :=
  match s with
  | EmptyString => EmptyString
  | String c r => if (n =? 0)%N then EmptyString else String c (first_chars (N.pred n) r)
  end.

(** The control characters that a worksheet refuses: the codes 0 to 8,
    11, 12 and 14 to 31. *)
Definition illegal (c : ascii) : bool :=
  let n := nat_of_ascii c in
  ((n <=? 8) || ((11 <=? n) && (n <=? 12)) || ((14 <=? n) && (n <=? 31)))%nat.

Fixpoint has_illegal (s : string) : bool :=
  match s with
  | EmptyString => false
  | String c r => illegal c || has_illegal r
  end.

(** The check a text passes before it enters a cell: it is cut at 32767
    characters, and a control character in what is left is refused. *)
Definition check_string (s : string) : outcome string :=
  let value := first_chars 32767 s in
  if has_illegal value
  then Raise (Exn "IllegalCharacterError" (value ++ " cannot be used in worksheets."))
  else Ret value.

(** One cell written.  A number, a boolean and an empty cell are written
    as they are; a nested value is written as the text [str] makes of
    it, for which the value stands here. *)
Definition write_cell (c : cell) : outcome cell :=
  match c with
  | Text s => value <~ check_string s ;; Ret (Text value)
  | _ => Ret c
  end.

(** The outcomes of a list, in order, up to the first that raises. *)
Fixpoint all_ret {A : Type} (l : list (outcome A)) : outcome (list A) :=
  match l with
  | [] => Ret []
  | o :: r => a <~ o ;; r' <~ all_ret r ;; Ret (a :: r')
  end.

Definition too_large (n columns : nat) : exn :=
  Exn "ValueError"
    ("This sheet is too large! Your sheet size is: " ++ show_nat n ++ ", " ++
     show_nat columns ++ " Max sheet size is: 1048576, 16384").

(** [df.to_excel(writer, sheet_name=name, index=False)] on a table of
    [n] rows: the size is checked, then the header cells are written,
    then the cells of the table column by column. *)
Definition to_excel (name : string) (n : nat) (cols : list (string * list cell))
    : outcome sheet :=
  if ((1048576 <? N.of_nat n) || (16384 <? N.of_nat (List.length cols)))%N
  then Raise (too_large n (List.length cols))
  else
    names <~ all_ret (map (fun p => check_string (fst p)) cols) ;;
    body <~ all_ret (map (fun p => all_ret (map write_cell (snd p))) cols) ;;
    Ret (mkSheet name names (rows_of n body) []).

Definition set_widths (s : sheet) (ws : list (string * Z)) : sheet :=
  mkSheet (sheet_name s) (header s) (rows s) ws.

(** [strftime('%Y-%m-%d %H:%M:%S')] *)
Definition show_stamp (t : stamp) : string :=
  show_Z (yr t) ++ "-" ++ two (mo t) ++ "-" ++ two (dy t) ++ " " ++
  two (hr t) ++ ":" ++ two (mi t) ++ ":" ++ two (sc t).

Definition is_pos (l : label) : bool := match l with Pos _ => true | _ => false end.

(** The index as the leading column of [reset_index()], its time stamps
    turned into text: a column of time stamps by [strftime] and
    [fillna('')], a column of mixed objects value by value with [str]. *)
Definition index_cells (idx : list label) : list cell :=
  if forallb (fun l => negb (is_pos l)) idx then
    map (fun l => match l with At t => Text (show_stamp t) | _ => Text "" end) idx
  else
    map (fun l => match l with
                  | At t => Text (show_stamp t)
                  | NaT => Text "NaT"
                  | Pos n => Num (inject_Z (Z.of_nat n))
                  end) idx.

Definition rename_map : list (string * string) :=
  [("sysdir_direction", "Sistem Yönü");
   ("pfc_amount_amount", "pfc_amount");
   ("pfp_price_price", "pfp_price");
   ("sfc_amount_amount", "sfc_amount");
   ("sfp_price_price", "sfp_price")].

Definition renamed (c : string) : string :=
  match assoc_last c rename_map with
  | Some c' => c'
  | None => c
  end.

(** The detail table handed to [to_excel]. *)
Definition detail_columns (d : DataFrame) : list (string * list cell) :=
  (match index_name d with Some n => n | None => "index" end, index_cells (index d))
  :: map (fun p => (renamed (fst p), snd p)) (columns d).

(** [BakanlikCeyreklikVeri.get_excel_bytes] *)
Definition get_excel_bytes (self : report) : M (list sheet) :=
  log (String "010" "💾 Excel dosyası hazırlanıyor...") ;;
  try_except
    (summary <-
       match ozet self with
       | Some o =>
           ws <- lift (to_excel "Özet" (List.length o)
                         [("Gösterge", map (fun r => Text (fst r)) o);
                          ("Değer", map snd o)]) ;;
           ret [set_widths ws [("A", 70); ("B", 25)]]
       | None => ret []
       end ;;
     detail <-
       match df self with
       | Some d =>
           if negb (df_empty d)
           then lift (to_excel "Detay" (List.length (index d)) (detail_columns d))
           else lift (to_excel "Detay" 1%nat [("Durum", [Text "Veri bulunamadı"])])
       | None => lift (to_excel "Detay" 1%nat [("Durum", [Text "Veri bulunamadı"])])
       end ;;
     log "✓ Excel dosyası bellekte oluşturuldu." ;;
     ret (summary ++ [detail])%list)
    (fun e => log ("❌ Excel oluşturma hatası: " ++ exn_text e) ;; raise e).

(** ** The dashboard button ([app.py]) *)

(** What pressing the button yields: the file offered for download, if
    any. *)
Definition create_report (w : world) (username password : string) (quarter year : Z)
    : M (option (string * list sheet)) :=
  if String.eqb username "" || String.eqb password "" then
    emit (Shown "Lütfen kullanıcı adı ve şifre giriniz!") ;;
    ret None
  else
    try_except
      (emit (Progress 0) ;;
       bcv <- init w username password (Some (quarter, year)) ;;
       emit (Progress 20) ;;
       bcv <- download_data w bcv ;;
       emit (Progress 70) ;;
       bcv <- format_data (lib w) bcv ;;
       emit (Progress 90) ;;
       excel_data <- get_excel_bytes bcv ;;
       emit (Progress 100) ;;
       emit (Shown "✅ İşlem Başarıyla Tamamlandı!") ;;
       ret (Some (show_Z year ++ "-Q" ++ show_Z quarter ++ "-Data.xlsx", excel_data)))
      (fun e =>
         emit (Shown ("❌ Bir hata oluştu: " ++ exn_text e)) ;;
         emit (Shown (exn_text e)) ;;
         ret None).

(** The run of a computation from the empty trace. *)
Definition run {A : Type} (c : M A) : outcome A * list event := c [].

Definition is_data_post (e : event) : bool :=
  match e with DataPost _ _ _ => true | _ => false end.

Definition is_sleep (e : event) : bool :=
  match e with Slept _ => true | _ => false end.

(** ** Sample worlds and tables *)

(** A naive reading of [YYYY-MM-DDTHH:MM:SS+03:00] texts, enough for the
    examples below. *)
Definition digits2 (s : string) : option Z :=
  match s with
  | String a (String b _) =>
      match digit a, digit b with
      | Some x, Some y => Some (10 * x + y)
      | _, _ => None
      end
  | _ => None
  end.

Definition iso_datetime (c : cell) : option label :=
  match c with
  | NA => Some NaT
  | Text s =>
      match digits2 s, digits2 (drop_chars 2 s), digits2 (drop_chars 5 s),
            digits2 (drop_chars 8 s), digits2 (drop_chars 11 s),
            digits2 (drop_chars 14 s), digits2 (drop_chars 17 s) with
      | Some c1, Some c2, Some m, Some d0, Some h, Some n, Some s0 =>
          Some (At (mkStamp (100 * c1 + c2) m d0 h n s0))
      | _, _, _, _, _, _, _ => None
      end
  | _ => None
  end.

Definition sample_now : stamp := mkStamp 2024 5 1 9 0 0.

(** Authentication answers [status] with [body]; every data endpoint
    answers [data]. *)
Definition uniform_world (status : Z) (body : string) (data : http) : world :=
  mkWorld (fun _ => Answers (mkResponse status body None))
          (fun _ _ _ => data) iso_datetime sample_now schoolbook.

Definition server_error : http := Answers (mkResponse 500 "Internal Server Error" None).
Definition timed_out : http := Throws (Exn "Timeout" "Read timed out.").
Definition refused : http := Throws (Exn "ConnectionError" "Connection refused").

(** ** Vocabulary of the statements *)

(** A request that did not succeed: a status other than 200, or an
    exception of the transport, a timeout among them. *)
Definition failed (h : http) : Prop :=
  match h with
  | Answers r => status_code r <> 200
  | Throws _ => True
  end.

(** Every category fetch returns an empty result. *)
Definition fetches_nothing (w : world) : Prop :=
  forall tgt endpoint s e tr, exists items tr',
    fetch_items w tgt endpoint s e tr = (Ret items, tr') /\ truthy items = false.

(** The form body sent to the ticket endpoint. *)
Definition credentials (username password : string) : string :=
  "username=" ++ username ++ "&password=" ++ password.

(** The error raised on a refused login. *)
Definition login_error (r : response) : exn :=
  Exn "Exception"
    ("Giriş Başarısız! Status: " ++ show_Z (status_code r) ++ ", Mesaj: " ++ text r).

Definition forbidden : response := mkResponse 401 "Unauthorized" None.
Definition created : response := mkResponse 201 " TGT-1 " None.

(** The detail sheet of a report without data: one status row. *)
Definition no_data_sheet : sheet :=
  mkSheet "Detay" ["Durum"] [[Text "Veri bulunamadı"]] [].

(** A summary row showing the number zero. *)
Definition zero_row (row : list cell) : Prop :=
  exists label v, row = [Text label; Num v] /\ (v == 0)%Q.

(** The hour a record's contract name stands for, if it parses. *)
Definition contract_hour (r : record) : option stamp :=
  contract_time (field "kontratAdi" r).

Definition contract_parses (r : record) : bool :=
  match contract_hour r with Some _ => true | None => false end.

(** The character of a decimal digit. *)
Definition digit_char (n : Z) : ascii := ascii_of_nat (48 + Z.to_nat n).

(** A contract name: two leading characters, then YYMMDDHH in digits. *)
Definition contract_name (a b : ascii) (y1 y2 m1 m2 d1 d2 h1 h2 : Z) : string :=
  String a (String b
    (String (digit_char y1) (String (digit_char y2)
    (String (digit_char m1) (String (digit_char m2)
    (String (digit_char d1) (String (digit_char d2)
    (String (digit_char h1) (String (digit_char h2) EmptyString))))))))).

(** The century the two-digit year falls in: 69..99 are 19xx. *)
Definition pivot_year (y : Z) : Z := if y <=? 68 then 2000 + y else 1900 + y.

Definition sample_contracts : list record :=
  [[("kontratAdi", JStr "PH23010110"); ("clearingQuantityAsk", JNum 2)];
   [("kontratAdi", JStr "XYshort"); ("clearingQuantityAsk", JNum 3)];
   [("kontratAdi", JStr "PH23010111"); ("clearingQuantityAsk", JNum 4)]].

(** *** Locating an indicator's column *)

(** The three ways an indicator reduces what it selects. *)
Inductive reduction : Type :=
  | ScaledSum      (** [x.sum() / 1e6] *)
  | Mean           (** [x.mean()] *)
  | ScaledAbsSum.  (** [x.abs().sum() / 1e6] *)

Definition reduce (L : library) (r : reduction) (x : selection) : outcome cell :=
  match r with
  | ScaledSum => scaled_sum L x
  | Mean => mean_of L x
  | ScaledAbsSum => s <~ abs_sum L x ;; quotient L s (Num million)
  end.

(** The indicator read from what the table gives under the first name,
    in column order, that passes [test]; 0 when no name passes. *)
Definition located (L : library) (test : string -> bool) (r : reduction) (d : DataFrame)
    : outcome cell :=
  match find test (column_names d) with
  | Some c => x <~ select c d ;; reduce L r x
  | None => Ret (Num 0)
  end.

(** [part] occurs in the name, letter case ignored. *)
Definition mentions (part c : string) : bool := contains part (lower c).

(** The name tests of the indicators, as the program writes them. *)
Definition dam_test (c : string) : bool := mentions "dam_" c && mentions "matched" c.
Definition ptf_test (c : string) : bool :=
  contains "ptf_" c && (mentions "price" c || mentions "mcp" c).
Definition smf_test (c : string) : bool :=
  contains "smf_" c &&
  (mentions "price" c || mentions "smp" c || contains "systemMarginalPrice" c).
Definition wap_test (c : string) : bool := contains "idm_" c && mentions "wap" c.
Definition quantity_test (c : string) : bool :=
  contains "idm_" c && (mentions "quantity" c || mentions "clearing" c).
Definition coded_test (prefix code c : string) : bool :=
  contains prefix c && contains (lower code) (lower c).
Definition delivered_test (prefix c : string) : bool :=
  contains prefix c && mentions "delivered" c.

(** The test the specification words for the clearing price: the prefix
    and the keyword both matched without regard to case. *)
Definition claimed_ptf_test (c : string) : bool :=
  mentions "ptf_" c && (mentions "price" c || mentions "mcp" c).

(** The total that starts at [total] and takes in the absolute sum of
    what the table gives under the first name passing [test], if any. *)
Definition taking (L : library) (test : string -> bool) (d : DataFrame) (total : cell)
    : outcome cell :=
  match find test (column_names d) with
  | Some c => x <~ select c d ;; s <~ abs_sum L x ;; plus L total s
  | None => Ret total
  end.

(** *** Weighted price on plain numbers *)

Definition numbers (l : list Q) : list cell := map Num l.

(** The sum of the quantities. *)
Fixpoint total (qs : list Q) : Q :=
  match qs with
  | [] => 0%Q
  | q :: r => (q + total r)%Q
  end.

(** Quantity times price, row by row. *)
Fixpoint products (qs ps : list Q) : list Q :=
  match qs, ps with
  | q :: qs', p :: ps' => (q * p)%Q :: products qs' ps'
  | _, _ => []
  end.

(** A merged table holding one intraday quantity column and one
    weighted-average-price column. *)
Definition price_table (qs ps : list Q) : DataFrame :=
  mkFrame (map Pos (seq 0 (List.length qs))) None
    [("idm_clearingQuantityAsk", numbers qs); ("idm_wap", numbers ps)].

(** An upper-case prefix, and two columns passing the day-ahead test. *)
Definition upper_case_table : DataFrame :=
  mkFrame [Pos 0] None [("PTF_price", [Num 10%Q])].

Definition two_matched_table : DataFrame :=
  mkFrame [Pos 0] None
    [("dam_matchedOffers", [Num 1000000%Q]); ("dam_matchedBidQuantity", [Num 2000000%Q])].

Definition matched_bid_table : DataFrame :=
  mkFrame [Pos 0; Pos 1] None
    [("smf_systemMarginalPrice", [Num 7%Q; Num 9%Q]);
     ("dam_matchedBidQuantity", [Num 2000000%Q; Num 1000000%Q])].

(** *** Tables with a repeated time stamp *)

Definition midnight : stamp := mkStamp 2024 1 1 0 0 0.
Definition one_o_clock : stamp := mkStamp 2024 1 1 1 0 0.

(** The clearing-price table when the platform lists one hour twice. *)
Definition repeated_frame : DataFrame :=
  mkFrame [At midnight; At midnight] (Some "date") [("ptf_price", [Num 1%Q; Num 2%Q])].

Definition hourly_frame : DataFrame :=
  mkFrame [At midnight; At one_o_clock] (Some "date")
    [("smf_systemMarginalPrice", [Num 3%Q; Num 4%Q])].

Definition repeated_items : json :=
  JArr [JObj [("date", JStr "2024-01-01T00:00:00+03:00"); ("price", JNum 1)];
        JObj [("date", JStr "2024-01-01T00:00:00+03:00"); ("price", JNum 2)]].

Definition hourly_items : json :=
  JArr [JObj [("date", JStr "2024-01-01T00:00:00+03:00"); ("systemMarginalPrice", JNum 3)];
        JObj [("date", JStr "2024-01-01T01:00:00+03:00"); ("systemMarginalPrice", JNum 4)]].

Definition answer_items (items : json) : http :=
  Answers (mkResponse 200 "" (Some (JObj [("items", items)]))).

(** A platform that lists midnight twice in the clearing prices, two
    hours of marginal prices, and nothing else. *)
Definition repeated_world : world :=
  mkWorld (fun _ => Answers created)
    (fun url _ _ =>
       if contains "/dam/data/mcp" url then answer_items repeated_items
       else if contains "/system-marginal-price" url then answer_items hourly_items
       else answer_items (JArr []))
    iso_datetime sample_now schoolbook.

(** The rows of a frame as pairs of label and cell, for one column. *)
Definition labelled (idx : list label) (col : list cell) : list (label * cell) :=
  combine idx col.

(** The cell of the first row carrying the label. *)
Definition first_cell (l : label) (rows : list (label * cell)) : option cell :=
  match find (fun p => label_eqb l (fst p)) rows with
  | Some p => Some (snd p)
  | None => None
  end.

(** *** Vocabulary of the further properties *)

(** The data requests in a stretch of trace. *)
Definition posts (tr : list event) : list event := filter is_data_post tr.

(** An event a single data request may leave: no login, and no pause
    other than the fixed delay. *)
Definition request_event (e : event) : Prop :=
  match e with
  | AuthPost _ => False
  | Slept s => s = REQUEST_DELAY
  | _ => True
  end.

(** What the item lookup of [fetch_paginated_data] finds in a decoded
    answer: the list under the key, else the one under [body]. *)
Definition is_object (j : json) : bool :=
  match j with JObj _ => true | _ => false end.

Definition answer_json (j : json) : http := Answers (mkResponse 200 "" (Some j)).

Definition json_world (j : json) : world :=
  mkWorld (fun _ => Answers created) (fun _ _ _ => answer_json j) iso_datetime sample_now
    schoolbook.

(** [c] appends to the trace, and what it appends satisfies [G]. *)
Definition appends {A : Type} (G : event -> Prop) (c : M A) : Prop :=
  forall tr, exists new, snd (c tr) = (tr ++ new)%list /\ Forall G new.

(** [c] sends the data requests [l] in this order: all of them when it
    returns, the first few of them when it raises on the way. *)
Definition sends {A : Type} (l : list event) (c : M A) : Prop :=
  forall tr, exists new,
    snd (c tr) = (tr ++ new)%list
    /\ (exists rest, l = (posts new ++ rest)%list)
    /\ (forall a, fst (c tr) = Ret a -> posts new = l).

(** What [c] returns, when it returns, satisfies [P]. *)
Definition yields {A : Type} (P : A -> Prop) (c : M A) : Prop :=
  forall tr a tr', c tr = (Ret a, tr') -> P a.

(** The thirteen category endpoints, in the order [download_data] asks
    them. *)
Definition category_endpoints : list string :=
  ["/v1/markets/dam/data/mcp";
   "/v1/markets/bpm/data/system-marginal-price";
   "/v1/markets/bpm/data/system-direction";
   "/v1/markets/bilateral-contracts/data/bilateral-contracts-bid-quantity";
   "/v1/markets/dam/data/clearing-quantity";
   "/v1/markets/bpm/data/order-summary-down";
   "/v1/markets/bpm/data/order-summary-up";
   "/v1/markets/idm/data/weighted-average-price";
   "/v1/markets/idm/data/matching-quantity";
   "/v1/markets/ancillary-services/data/primary-frequency-capacity-amount";
   "/v1/markets/ancillary-services/data/primary-frequency-capacity-price";
   "/v1/markets/ancillary-services/data/secondary-frequency-capacity-amount";
   "/v1/markets/ancillary-services/data/secondary-frequency-capacity-price"].

(** The request of one category for a ticket and a date range. *)
Definition category_request (tgt start_date end_date endpoint : string) : event :=
  DataPost (BASE_URL ++ endpoint) [("startDate", start_date); ("endDate", end_date)] tgt.

Definition category_requests (tgt start_date end_date : string) : list event :=
  map (category_request tgt start_date end_date) category_endpoints.

(** The events of the constructor up to and including the login. *)
Definition login_events (username password : string) : list event :=
  [Logged (repeat_string "=" 50);
   Logged "Çeyreklik Veri Raporu Başlatılıyor...";
   Logged (repeat_string "=" 50);
   Logged "🔑 Giriş yapılıyor...";
   AuthPost (credentials username password)].

(** The check of an explicit quarter in the constructor. *)
Definition quarter_accepted (qi : Z * Z) : bool :=
  ((fst qi =? 1) || (fst qi =? 2) || (fst qi =? 3) || (fst qi =? 4))
  && negb (snd qi <? 2015).

Definition is_auth_post (e : event) : bool :=
  match e with AuthPost _ => true | _ => false end.

Definition is_shown (e : event) : bool :=
  match e with Shown _ => true | _ => false end.

(** A clock in the first quarter of 2015, and one in an impossible month. *)
Definition early_world : world :=
  mkWorld (fun _ => Answers created) (fun _ _ _ => server_error) iso_datetime
          (mkStamp 2015 2 10 9 0 0) schoolbook.

(** The steps of the button's run once the report object exists. *)
Definition after_login (w : world) (quarter year : Z) (bcv : report)
    : M (option (string * list sheet)) :=
  emit (Progress 20) ;;
  bcv <- download_data w bcv ;;
  emit (Progress 70) ;;
  bcv <- format_data (lib w) bcv ;;
  emit (Progress 90) ;;
  excel_data <- get_excel_bytes bcv ;;
  emit (Progress 100) ;;
  emit (Shown "✅ İşlem Başarıyla Tamamlandı!") ;;
  ret (Some (show_Z year ++ "-Q" ++ show_Z quarter ++ "-Data.xlsx", excel_data)).

Definition success_events : list event :=
  [Progress 100; Shown "✅ İşlem Başarıyla Tamamlandı!"].

(** Every column has one cell per row. *)
Definition rectangular (d : DataFrame) : Prop :=
  Forall (fun p => List.length (snd p) = List.length (index d)) (columns d).

(** The cell of a column in the first row carrying the label; NaN when
    no row carries it. *)
Definition cell_at (idx : list label) (col : list cell) (l : label) : cell :=
  match position l idx with
  | Some i => nth i col NA
  | None => NA
  end.

(** The fields a record list keeps as value columns: all but [hour] and
    [date]. *)
Definition value_key (k : string) : bool :=
  negb (String.eqb "hour" k) && negb (String.eqb "date" k).

Definition sample_prices : list record :=
  [[("date", JStr "2024-01-01T00:00:00+03:00"); ("hour", JStr "00:00"); ("price", JNum 10)];
   [("date", JStr "2024-01-01T01:00:00+03:00"); ("hour", JStr "01:00"); ("price", JNum 20)]].

(** The positional table of a record list under the intraday prefix:
    what [fetch_idm_data] keeps when it cannot index by contract. *)
Definition unindexed_quantities (rs : list record) : DataFrame :=
  mkFrame (map Pos (seq 0 (List.length rs))) None
    (map (fun k => ("idm_" ++ k, map (field k) rs)) (record_keys rs)).

Definition accessor_warning : event :=
  Printed "  ! GİP Tarih ayrıştırma hatası: Can only use .str accessor with string values!".

Definition sample_unnamed : list record :=
  [[("id", JNum 1); ("clearingQuantityAsk", JNum 2)];
   [("id", JNum 2); ("clearingQuantityAsk", JNum 3)]].

Definition sample_numbered : list record :=
  [[("kontratAdi", JNum 23010110); ("clearingQuantityAsk", JNum 2)]].

Definition sample_blocks : list record :=
  [[("kontratAdi", JStr "PB23010110-04"); ("clearingQuantityAsk", JNum 2)];
   [("kontratAdi", JStr "PB23010112-02"); ("clearingQuantityAsk", JNum 3)]].

(** A table that starts one hour late, an empty table, and three tables
    as the merge receives them. *)
Definition late_frame : DataFrame :=
  mkFrame [At one_o_clock] (Some "date") [("dam_matchedBids", [Num 5%Q])].

Definition no_frame : DataFrame := mkFrame [] None [].

Definition sample_tables : list DataFrame := [hourly_frame; no_frame; late_frame].

Definition sample_merged : DataFrame :=
  mkFrame [At midnight; At one_o_clock] (Some "date")
    [("smf_systemMarginalPrice", [Num 3%Q; Num 4%Q]);
     ("dam_matchedBids", [NA; Num 5%Q])].

(** The prefixes under which [download_data] files the columns of the
    thirteen tables. *)
Definition table_prefixes : list string :=
  ["ptf_"; "smf_"; "sysdir_"; "bilateral_"; "dam_"; "bpmD_"; "bpmU_"; "idm_";
   "pfc_amount_"; "pfp_price_"; "sfc_amount_"; "sfp_price_"].

(** Every column name of the table starts with [p]. *)
Definition prefixed (p : string) (d : DataFrame) : Prop :=
  Forall (fun c => String.prefix p c = true) (column_names d).

(** A platform on which every category lists two hours of marginal
    prices, and a report object as [__init__] leaves it. *)
Definition hourly_world : world := json_world (JObj [("items", hourly_items)]).

Definition sample_report : report :=
  mkReport "u" "p" "TGT-1" (1, 2024) "2024-01-01T00:00:00+03:00"
    "2024-03-31T23:00:00+03:00" None None None.

(** Two hours of balancing instructions; load shedding is listed with
    negative amounts. *)
Definition sample_orders : DataFrame :=
  mkFrame [At midnight; At one_o_clock] (Some "date")
    [("bpmD_downRegulationZeroCoded", [Num (-5)%Q; Num 3%Q]);
     ("bpmU_upRegulationZeroCoded", [NA; Num 2%Q]);
     ("bpmD_downRegulationDelivered", [Num (-4)%Q; Num (-6)%Q])].

(** The keys of [fresult], in the order [format_data] assigns them. *)
Definition result_keys : list string :=
  ["bilateral_quantity"; "dam_matchedBids"; "ptf"; "smf"; "idm_wap"; "idm_quant";
   "idm_year_price"; "zero_coded"; "one_coded"; "two_coded"; "down_delivered";
   "up_delivered"; "pfc_amount"; "pfp_price"; "sfc_amount"; "sfp_price"].

(** The lines [format_data] logs: its first and its last, and the
    warning of the yearly weighted price. *)
Definition format_start : event := Logged (String "010" "📊 Veriler analiz ediliyor...").
Definition format_done : event := Logged "✓ Özet tablo oluşturuldu.".

Definition price_warning (e : exn) : event :=
  Logged ("⚠ GİP Ağırlıklı Ortalama hesaplanamadı: " ++ exn_text e).

(** The lines [get_excel_bytes] logs. *)
Definition excel_start : event := Logged (String "010" "💾 Excel dosyası hazırlanıyor...").
Definition excel_done : event := Logged "✓ Excel dosyası bellekte oluşturuldu.".

Definition excel_error (e : exn) : event :=
  Logged ("❌ Excel oluşturma hatası: " ++ exn_text e).

(** A cell as the writer leaves it in the sheet. *)
Definition written (c : cell) : cell :=
  match c with
  | Text s => Text (first_chars 32767 s)
  | _ => c
  end.

(** A report whose table holds a control character in one text, and one
    whose table holds a list in one cell. *)
Definition control_report : report :=
  set_df sample_report
    (mkFrame [At midnight] (Some "date")
       [("sysdir_direction", [Text (String (ascii_of_nat 1) "")])]).

Definition nested_report : report :=
  set_df sample_report
    (mkFrame [At midnight] (Some "date") [("ptf_price", [Other (JArr [JNum 1])])]).

(** The line [download_data] logs last: the number of rows of the merged
    table, or the warning that nothing was fetched. *)
Definition merged_line (d : DataFrame) : event :=
  Logged ("✓ Toplam " ++ show_nat (List.length (index d)) ++
          " satır veri başarılı bir şekilde birleştirildi.").

Definition nothing_line : event :=
  Logged "⚠ Uyarı: Hiç veri çekilemedi. Boş bir rapor oluşturulacak.".

(** * Properties *)

(** ** The date range of a quarter *)

Lemma month_end_of_quarter q y :
  1 <= q <= 4 -> days_in_month y (3 * q) = if (q =? 1) || (q =? 4) then 31 else 30.
Proof.
  intros H.
  assert (q = 1 \/ q = 2 \/ q = 3 \/ q = 4) as [-> | [-> | [-> | ->]]] by lia;
    reflexivity.
Qed.

Lemma year_start_before_quarter_end q y :
  1 <= q -> stamp_leb (year_start y) (quarter_end q y) = true.
Proof.
  intros H. unfold stamp_leb, year_start, quarter_end, stamp_fields; cbn [lex_leb yr mo].
  rewrite Z.ltb_irrefl, Z.eqb_refl. cbn [orb andb].
  replace (1 <? 3 * q) with true by (symmetry; apply Z.ltb_lt; lia).
  reflexivity.
Qed.

(** C4.  For a quarter [q] in 1..4 and any year [y] (so for every
    [y >= 2015]) [quarter_to_dates] returns the range from
    [y-01-01T00:00:00] to 23:00:00 on the last day of the last month of
    the quarter, both at UTC+3, and the start is not after the end; for
    [q] outside 1..4 it raises [ValueError]. *)
Theorem quarter_to_dates_range (q y : Z) :
  (1 <= q <= 4 ->
     quarter_to_dates (q, y)
       = Ret (iso_plus3 (year_start y), iso_plus3 (quarter_end q y))
     /\ quarter_end q y = mkStamp y (3 * q) (days_in_month y (3 * q)) 23 0 0
     /\ stamp_leb (year_start y) (quarter_end q y) = true)
  /\ (~ 1 <= q <= 4 ->
     quarter_to_dates (q, y) = Raise (Exn "ValueError" "Geçersiz çeyrek!")).
Proof.
  split.
  - intros H. split; [| split; [reflexivity | apply year_start_before_quarter_end; lia]].
    assert (q = 1 \/ q = 2 \/ q = 3 \/ q = 4) as [-> | [-> | [-> | ->]]] by lia;
      reflexivity.
  - intros H. unfold quarter_to_dates.
    destruct (q =? 1) eqn:E1; [apply Z.eqb_eq in E1; lia |].
    destruct (q =? 2) eqn:E2; [apply Z.eqb_eq in E2; lia |].
    destruct (q =? 3) eqn:E3; [apply Z.eqb_eq in E3; lia |].
    destruct (q =? 4) eqn:E4; [apply Z.eqb_eq in E4; lia |].
    reflexivity.
Qed.

Lemma quarter_to_dates_range_witness :
  (quarter_to_dates (2, 2024)
     = Ret (iso_plus3 (year_start 2024), iso_plus3 (quarter_end 2 2024))
   /\ quarter_end 2 2024 = mkStamp 2024 (3 * 2) (days_in_month 2024 (3 * 2)) 23 0 0
   /\ stamp_leb (year_start 2024) (quarter_end 2 2024) = true)
  /\ quarter_to_dates (5, 2024) = Raise (Exn "ValueError" "Geçersiz çeyrek!").
Proof.
  split.
  - apply (proj1 (quarter_to_dates_range 2 2024)). lia.
  - apply (proj2 (quarter_to_dates_range 5 2024)). lia.
Defined.

(** ** The fetcher *)

Lemma app_two {A : Type} (l : list A) (a b : A) :
  ((l ++ [a]) ++ [b] = l ++ [a; b])%list.
Proof. now rewrite <- app_assoc. Qed.

Lemma app_three {A : Type} (l : list A) (a b c : A) :
  (((l ++ [a]) ++ [b]) ++ [c] = l ++ [a; b; c])%list.
Proof. now rewrite <- !app_assoc. Qed.

(** What one request does, by what the server does. *)
Lemma make_api_request_run w tgt endpoint payload tr :
  make_api_request w tgt endpoint payload tr =
  let posted := DataPost (BASE_URL ++ endpoint) payload tgt in
  match data_server w (BASE_URL ++ endpoint) payload tgt with
  | Answers r =>
      if status_code r =? 200 then
        match decoded r with
        | Some j => (Ret j, tr ++ [posted; Slept REQUEST_DELAY])
        | None => (Ret empty_result,
                   tr ++ [posted; Slept REQUEST_DELAY;
                          Printed ("  ! İstek hatası: Expecting value")])
        end
      else (Ret empty_result,
            tr ++ [posted; Slept REQUEST_DELAY;
                   Printed ("  ! Hata: " ++ last_segment endpoint ++ ", Status: " ++
                            show_Z (status_code r))])
  | Throws e =>
      (Ret empty_result,
       tr ++ [posted;
              Printed (if is_timeout e then "  ! Timeout: " ++ last_segment endpoint
                       else "  ! İstek hatası: " ++ exn_text e)])
  end%list.
Proof.
  unfold make_api_request, try_except, post_json, bind, emit, sleep, print, emit,
    response_json, ret, raise.
  cbv zeta.
  destruct (data_server w (BASE_URL ++ endpoint) payload tgt) as [r | e].
  - destruct (status_code r =? 200).
    + destruct (decoded r); cbn.
      * now rewrite app_two.
      * now rewrite app_three.
    + now rewrite app_three.
  - destruct (is_timeout e); now rewrite app_two.
Qed.

Lemma failed_request w tgt endpoint payload tr :
  failed (data_server w (BASE_URL ++ endpoint) payload tgt) ->
  exists warning extra,
    make_api_request w tgt endpoint payload tr
      = (Ret empty_result, (tr ++ extra ++ [Printed warning])%list)
    /\ extra <> [].
Proof.
  intros F. rewrite make_api_request_run. cbv zeta.
  destruct (data_server w (BASE_URL ++ endpoint) payload tgt) as [r | e]; cbn in F.
  - destruct (status_code r =? 200) eqn:E; [apply Z.eqb_eq in E; contradiction |].
    eexists _, [_; _]. split; [reflexivity | discriminate].
  - eexists _, [_]. split; [reflexivity | discriminate].
Qed.

Lemma items_of_empty_result key :
  key <> "body" ->
  py_get empty_result key (JArr []) = Ret (JArr [])
  /\ py_get (JObj [("items", JArr [])]) key (JArr []) = Ret (JArr []).
Proof.
  intros H. unfold empty_result, py_get; cbn [assoc_last].
  destruct (String.eqb key "body") eqn:B; [apply String.eqb_eq in B; contradiction |].
  destruct (String.eqb key "items"); split; reflexivity.
Qed.

(** A failed request makes the fetch return the empty list. *)
Lemma failed_fetch w tgt endpoint s e extra key tr :
  key <> "body" ->
  failed (data_server w (BASE_URL ++ endpoint) (request_payload s e extra) tgt) ->
  exists warning events,
    fetch_paginated_data w tgt endpoint s e extra key tr
      = (Ret (JArr []), (tr ++ events ++ [Printed warning])%list)
    /\ make_api_request w tgt endpoint (request_payload s e extra) tr
      = (Ret empty_result, (tr ++ events ++ [Printed warning])%list).
Proof.
  intros K F.
  destruct (failed_request w tgt endpoint _ tr F) as (warning & events & R & _).
  exists warning, events. split; [| exact R].
  unfold fetch_paginated_data, bind. cbv zeta. rewrite R.
  destruct (items_of_empty_result key K) as [E1 E2].
  unfold lift, ret. rewrite E1. cbn -[py_get empty_result].
  change (py_get empty_result "body" (JObj [])) with (Ret (JObj [("items", JArr [])])).
  cbn -[py_get]. rewrite E2. reflexivity.
Qed.

(** Whatever the server does, the request itself returns. *)
Lemma make_api_request_returns w tgt endpoint payload tr :
  exists result tr', make_api_request w tgt endpoint payload tr = (Ret result, tr').
Proof.
  rewrite make_api_request_run. cbv zeta.
  destruct (data_server w (BASE_URL ++ endpoint) payload tgt) as [r | e].
  - destruct (status_code r =? 200); [destruct (decoded r) |]; eexists _, _; reflexivity.
  - eexists _, _; reflexivity.
Qed.

(** C6.  [make_api_request] never raises.  When the request of a
    category does not succeed (a status other than 200, a timeout, any
    other exception of the transport), it prints a warning and returns
    the empty result structure, [fetch_paginated_data] returns the empty
    list from it without raising, and the table made of that list is the
    empty table, so the caller goes on with the other categories. *)
Theorem fetch_failure_is_empty w tgt endpoint s e extra key tr :
  (exists result tr',
     make_api_request w tgt endpoint (request_payload s e extra) tr = (Ret result, tr'))
  /\ (key <> "body" ->
      failed (data_server w (BASE_URL ++ endpoint) (request_payload s e extra) tgt) ->
      exists warning events,
        make_api_request w tgt endpoint (request_payload s e extra) tr
          = (Ret empty_result, (tr ++ events ++ [Printed warning])%list)
        /\ fetch_paginated_data w tgt endpoint s e extra key tr
          = (Ret (JArr []), (tr ++ events ++ [Printed warning])%list)
        /\ (forall prefix, items_to_dataframe w (JArr []) prefix = Ret empty_frame)
        /\ quantity_frame (JArr []) = ret empty_frame).
Proof.
  split; [apply make_api_request_returns |].
  intros K F.
  destruct (failed_fetch w tgt endpoint s e extra key tr K F) as (warning & events & R1 & R2).
  exists warning, events. repeat split; auto.
Qed.

Lemma fetch_failure_is_empty_witness :
  exists warning events,
    make_api_request (uniform_world 201 "TGT-1" timed_out) "TGT-1" "/v1/markets/dam/data/mcp"
      (request_payload "2024-01-01T00:00:00+03:00" "2024-03-31T23:00:00+03:00" None) []
      = (Ret empty_result, ([] ++ events ++ [Printed warning])%list)
    /\ fetch_paginated_data (uniform_world 201 "TGT-1" timed_out) "TGT-1"
         "/v1/markets/dam/data/mcp"
         "2024-01-01T00:00:00+03:00" "2024-03-31T23:00:00+03:00" None "items" []
      = (Ret (JArr []), ([] ++ events ++ [Printed warning])%list)
    /\ (forall prefix,
          items_to_dataframe (uniform_world 201 "TGT-1" timed_out) (JArr []) prefix
            = Ret empty_frame)
    /\ quantity_frame (JArr []) = ret empty_frame.
Proof.
  apply (proj2 (fetch_failure_is_empty (uniform_world 201 "TGT-1" timed_out) "TGT-1"
                  "/v1/markets/dam/data/mcp"
                  "2024-01-01T00:00:00+03:00" "2024-03-31T23:00:00+03:00" None "items" [])).
  - discriminate.
  - simpl. exact I.
Defined.

(** C7, as the code has it.  The pause of [REQUEST_DELAY] seconds comes
    right after a request that was answered, whatever the status, and is
    the only pause; a request that raised (timeout or other exception of
    the transport) is followed by the warning alone, without a pause. *)
Theorem pause_follows_answer w tgt endpoint payload tr :
  let posted := DataPost (BASE_URL ++ endpoint) payload tgt in
  match data_server w (BASE_URL ++ endpoint) payload tgt with
  | Answers r =>
      exists rest,
        snd (make_api_request w tgt endpoint payload tr)
          = (tr ++ [posted; Slept REQUEST_DELAY] ++ rest)%list
        /\ filter is_sleep rest = []
  | Throws e =>
      exists warning,
        snd (make_api_request w tgt endpoint payload tr)
          = (tr ++ [posted; Printed warning])%list
  end.
Proof.
  cbv zeta. rewrite make_api_request_run. cbv zeta.
  destruct (data_server w (BASE_URL ++ endpoint) payload tgt) as [r | e].
  - destruct (status_code r =? 200); [destruct (decoded r) |].
    + exists []. split; reflexivity.
    + eexists [_]. split; reflexivity.
    + eexists [_]. split; reflexivity.
  - eexists. reflexivity.
Qed.

(** C7 as stated fails: after a timeout, and after a refused connection,
    the trace of the request holds no pause at all. *)
Lemma no_pause_after_exception :
  filter is_sleep
    (snd (run (make_api_request (uniform_world 201 "TGT-1" timed_out) "TGT-1"
                 "/v1/markets/dam/data/mcp" []))) = []
  /\ filter is_sleep
    (snd (run (make_api_request (uniform_world 201 "TGT-1" refused) "TGT-1"
                 "/v1/markets/dam/data/mcp" []))) = []
  /\ ~ (forall w tgt endpoint payload,
          In (Slept REQUEST_DELAY)
             (snd (run (make_api_request w tgt endpoint payload)))).
Proof.
  split; [reflexivity | split; [reflexivity |]].
  intros H.
  specialize (H (uniform_world 201 "TGT-1" timed_out) "TGT-1" "/v1/markets/dam/data/mcp" []).
  cbn in H. repeat destruct H as [H | H]; try discriminate H; exact H.
Qed.

(** ** Authentication *)

Lemma get_tgt_token_run w u p tr :
  get_tgt_token w u p tr =
  match auth_server w (credentials u p) with
  | Answers r =>
      if status_code r =? 201
      then (Ret (strip (text r)),
            tr ++ [AuthPost (credentials u p); Printed "✓ TGT token başarıyla alındı."])
      else (Raise (login_error r), tr ++ [AuthPost (credentials u p)])
  | Throws e => (Raise e, tr ++ [AuthPost (credentials u p)])
  end%list.
Proof.
  unfold get_tgt_token, credentials, login_error, bind, emit, print, emit, ret, raise.
  cbv zeta.
  destruct (auth_server w _) as [r | e]; [| reflexivity].
  destruct (status_code r =? 201); [| reflexivity].
  now rewrite app_two.
Qed.

(** A refused login stops the constructor at the ticket request. *)
Lemma init_refused w u p qi tr r :
  auth_server w (credentials u p) = Answers r ->
  status_code r <> 201 ->
  exists events,
    init w u p qi tr = (Raise (login_error r), (tr ++ events)%list)
    /\ filter is_data_post events = [].
Proof.
  intros A S.
  assert (E : (status_code r =? 201) = false) by (apply Z.eqb_neq; exact S).
  unfold init, bind, log, emit. rewrite get_tgt_token_run, A, E.
  eexists. split.
  - rewrite <- !app_assoc. cbn [app]. reflexivity.
  - reflexivity.
Qed.

Lemma create_report_refused w u p q y tr r :
  auth_server w (credentials u p) = Answers r ->
  status_code r <> 201 ->
  exists events,
    create_report w u p q y tr = (Ret None, (tr ++ events)%list)
    /\ filter is_data_post events = [].
Proof.
  intros A S. unfold create_report.
  destruct (String.eqb u "" || String.eqb p "")%bool.
  - eexists. unfold bind, emit, ret. split; reflexivity.
  - unfold try_except, bind at 1, emit at 1.
    destruct (init_refused w u p (Some (q, y)) (tr ++ [Progress 0])%list r A S)
      as (events & I & D).
    unfold bind at 1. rewrite I.
    unfold bind, emit, ret.
    exists ([Progress 0] ++ events ++
            [Shown ("❌ Bir hata oluştu: " ++ exn_text (login_error r));
             Shown (exn_text (login_error r))])%list.
    split.
    + rewrite <- !app_assoc. reflexivity.
    + cbn [app filter is_data_post]. rewrite filter_app, D. reflexivity.
Qed.

(** C8.  [get_tgt_token] returns exactly when the ticket endpoint
    answers 201, and then returns the answer's body stripped of
    surrounding white space; on any other status it raises an error
    whose message carries the status code and the body.  With such a
    refusal the constructor raises, and the report run ends with no file
    offered and no request to any data endpoint in its trace. *)
Theorem authentication_gate w u p tr :
  (forall r, auth_server w (credentials u p) = Answers r -> status_code r = 201 ->
     fst (get_tgt_token w u p tr) = Ret (strip (text r)))
  /\ (forall r, auth_server w (credentials u p) = Answers r -> status_code r <> 201 ->
     fst (get_tgt_token w u p tr) = Raise (login_error r)
     /\ login_error r
        = Exn "Exception"
            ("Giriş Başarısız! Status: " ++ show_Z (status_code r) ++
             ", Mesaj: " ++ text r)
     /\ (forall qi, exists events,
           init w u p qi tr = (Raise (login_error r), (tr ++ events)%list)
           /\ filter is_data_post events = [])
     /\ (forall q y, exists events,
           create_report w u p q y tr = (Ret None, (tr ++ events)%list)
           /\ filter is_data_post events = []))
  /\ (forall token, fst (get_tgt_token w u p tr) = Ret token ->
     exists r, auth_server w (credentials u p) = Answers r /\ status_code r = 201).
Proof.
  split; [| split].
  - intros r A S. rewrite get_tgt_token_run, A, S. reflexivity.
  - intros r A S. split; [| split; [reflexivity | split]].
    + rewrite get_tgt_token_run, A.
      replace (status_code r =? 201) with false by (symmetry; apply Z.eqb_neq; exact S).
      reflexivity.
    + intros qi. apply init_refused; assumption.
    + intros q y. apply (create_report_refused w u p q y tr r); assumption.
  - intros token T. rewrite get_tgt_token_run in T.
    destruct (auth_server w (credentials u p)) as [r | e]; [| discriminate T].
    exists r. split; [reflexivity |].
    destruct (status_code r =? 201) eqn:E; [apply Z.eqb_eq; exact E | discriminate T].
Qed.

Lemma authentication_gate_witness :
  fst (get_tgt_token (uniform_world 201 " TGT-1 " server_error) "u" "p" []) = Ret "TGT-1"
  /\ fst (get_tgt_token (uniform_world 401 "Unauthorized" server_error) "u" "p" [])
     = Raise (Exn "Exception" "Giriş Başarısız! Status: 401, Mesaj: Unauthorized")
  /\ (exists events,
        create_report (uniform_world 401 "Unauthorized" server_error) "u" "p" 4 2024 []
          = (Ret None, events)
        /\ filter is_data_post events = [])
  /\ (exists r, auth_server (uniform_world 201 " TGT-1 " server_error) (credentials "u" "p")
                  = Answers r /\ status_code r = 201).
Proof.
  split; [| split; [| split]].
  - apply (proj1 (authentication_gate (uniform_world 201 " TGT-1 " server_error) "u" "p" [])
             created); reflexivity.
  - apply (proj1 (proj1 (proj2 (authentication_gate
             (uniform_world 401 "Unauthorized" server_error) "u" "p" [])) forbidden
             eq_refl ltac:(discriminate))).
  - apply (proj2 (proj2 (proj2 (proj1 (proj2 (authentication_gate
             (uniform_world 401 "Unauthorized" server_error) "u" "p" [])) forbidden
             eq_refl ltac:(discriminate)))) 4 2024).
  - apply (proj2 (proj2 (authentication_gate
             (uniform_world 201 " TGT-1 " server_error) "u" "p" [])) "TGT-1").
    reflexivity.
Defined.

(** ** A run without data *)

Section NoData.

Variable w : world.
Hypothesis nothing : fetches_nothing w.

Lemma falsy_items_frame items prefix :
  truthy items = false -> items_to_dataframe w items prefix = Ret empty_frame.
Proof. intros F. unfold items_to_dataframe. now rewrite F. Qed.

Lemma falsy_quantity_frame items :
  truthy items = false -> quantity_frame items = ret empty_frame.
Proof. intros F. unfold quantity_frame. now rewrite F. Qed.

(** One category: the request, then the empty table. *)
Lemma category_empty tgt endpoint s e prefix tr :
  exists tr',
    (items <- fetch_items w tgt endpoint s e ;;
     lift (items_to_dataframe w items prefix)) tr = (Ret empty_frame, tr').
Proof.
  destruct (nothing tgt endpoint s e tr) as (items & tr' & F & N).
  exists tr'. unfold bind. rewrite F. unfold lift.
  now rewrite falsy_items_frame.
Qed.

Lemma fetch_bpm_orders_empty tgt s e tr :
  exists tr', fetch_bpm_orders w tgt s e tr = (Ret (empty_frame, empty_frame), tr').
Proof.
  unfold fetch_bpm_orders, bind.
  destruct (nothing tgt "/v1/markets/bpm/data/order-summary-down" s e tr)
    as (i1 & tr1 & -> & N1).
  destruct (nothing tgt "/v1/markets/bpm/data/order-summary-up" s e tr1)
    as (i2 & tr2 & -> & N2).
  exists tr2. unfold lift, ret. now rewrite !falsy_items_frame.
Qed.

Lemma fetch_idm_data_empty tgt s e tr :
  exists tr', fetch_idm_data w tgt s e tr = (Ret (empty_frame, empty_frame), tr').
Proof.
  unfold fetch_idm_data, bind.
  destruct (nothing tgt "/v1/markets/idm/data/weighted-average-price" s e tr)
    as (i1 & tr1 & -> & N1).
  destruct (nothing tgt "/v1/markets/idm/data/matching-quantity" s e tr1)
    as (i2 & tr2 & -> & N2).
  exists tr2. unfold lift, ret.
  now rewrite falsy_items_frame, falsy_quantity_frame.
Qed.

Lemma fetch_ancillary_services_empty tgt s e tr :
  exists tr',
    fetch_ancillary_services w tgt s e tr
      = (Ret [("pfc_amount", empty_frame); ("pfp_price", empty_frame);
              ("sfc_amount", empty_frame); ("sfp_price", empty_frame)], tr').
Proof.
  unfold fetch_ancillary_services, bind, lift, ret.
  destruct (nothing tgt
    "/v1/markets/ancillary-services/data/primary-frequency-capacity-amount" s e tr)
    as (i1 & tr1 & -> & N1).
  rewrite (falsy_items_frame i1 "" N1).
  destruct (nothing tgt
    "/v1/markets/ancillary-services/data/primary-frequency-capacity-price" s e tr1)
    as (i2 & tr2 & -> & N2).
  rewrite (falsy_items_frame i2 "" N2).
  destruct (nothing tgt
    "/v1/markets/ancillary-services/data/secondary-frequency-capacity-amount" s e tr2)
    as (i3 & tr3 & -> & N3).
  rewrite (falsy_items_frame i3 "" N3).
  destruct (nothing tgt
    "/v1/markets/ancillary-services/data/secondary-frequency-capacity-price" s e tr3)
    as (i4 & tr4 & -> & N4).
  rewrite (falsy_items_frame i4 "" N4).
  exists tr4. reflexivity.
Qed.

(** Without data the merged table is the empty one. *)
Lemma download_data_empty self tr :
  exists tr', download_data w self tr = (Ret (set_df self empty_frame), tr').
Proof.
  unfold download_data. cbv zeta.
  unfold fetch_ptf_smf, fetch_smf, fetch_system_direction, fetch_bilateral_contracts,
    fetch_dam_clearing_quantity.
  unfold bind at 1. unfold log at 1, emit at 1.
  unfold bind at 1. unfold log at 1, emit at 1.
  unfold bind at 1.
  destruct (category_empty (tgt self) "/v1/markets/dam/data/mcp" (start_date self)
              (end_date self) "ptf_" ((tr ++ [Logged (String "010" "📥 Veriler çekiliyor...")])
                                        ++ [Logged "- PTF ve SMF..."])%list)
    as (t1 & ->).
  unfold bind at 1.
  destruct (category_empty (tgt self) "/v1/markets/bpm/data/system-marginal-price"
              (start_date self) (end_date self) "smf_" t1) as (t2 & ->).
  unfold bind at 1. unfold log at 1, emit at 1.
  unfold bind at 1.
  destruct (category_empty (tgt self) "/v1/markets/bpm/data/system-direction"
              (start_date self) (end_date self) "sysdir_"
              (t2 ++ [Logged "- Sistem Yönü..."])%list) as (t3 & ->).
  unfold bind at 1. unfold log at 1, emit at 1.
  unfold bind at 1.
  destruct (category_empty (tgt self)
              "/v1/markets/bilateral-contracts/data/bilateral-contracts-bid-quantity"
              (start_date self) (end_date self) "bilateral_"
              (t3 ++ [Logged "- İkili Anlaşmalar..."])%list) as (t4 & ->).
  unfold bind at 1. unfold log at 1, emit at 1.
  unfold bind at 1.
  destruct (category_empty (tgt self) "/v1/markets/dam/data/clearing-quantity"
              (start_date self) (end_date self) "dam_"
              (t4 ++ [Logged "- GÖP Eşleşme Miktarı..."])%list) as (t5 & ->).
  unfold bind at 1. unfold log at 1, emit at 1.
  unfold bind at 1.
  destruct (fetch_bpm_orders_empty (tgt self) (start_date self) (end_date self)
              (t5 ++ [Logged "- Dengeleme Güç Piyasası (YAL/YAT)..."])%list) as (t6 & ->).
  unfold bind at 1. unfold log at 1, emit at 1.
  unfold bind at 1.
  destruct (fetch_idm_data_empty (tgt self) (start_date self) (end_date self)
              (t6 ++ [Logged "- Gün İçi Piyasası..."])%list) as (t7 & ->).
  unfold bind at 1. unfold log at 1, emit at 1.
  unfold bind at 1.
  destruct (fetch_ancillary_services_empty (tgt self) (start_date self) (end_date self)
              (t7 ++ [Logged "- Yan Hizmetler..."])%list) as (t8 & ->).
  eexists. reflexivity.
Qed.

End NoData.

Lemma init_accepts w u p q y tr r :
  auth_server w (credentials u p) = Answers r ->
  status_code r = 201 ->
  1 <= q <= 4 -> 2015 <= y ->
  exists self tr', init w u p (Some (q, y)) tr = (Ret self, tr').
Proof.
  intros A S Q Y.
  unfold init, bind, log, emit. rewrite get_tgt_token_run, A, S. cbn [Z.eqb Pos.eqb].
  replace (y <? 2015) with false by (symmetry; apply Z.ltb_ge; exact Y).
  assert (q = 1 \/ q = 2 \/ q = 3 \/ q = 4) as [-> | [-> | [-> | ->]]] by lia;
    eexists _, _; reflexivity.
Qed.

(** The summary and the workbook of the empty table. *)
Lemma report_of_empty_table P self tr
    (k : list sheet -> M (option (string * list sheet))) (name : string) :
  (forall x tr0, exists tr1, k x tr0 = (Ret (Some (name, x)), tr1)) ->
  exists summary tr',
    (bcv <- format_data P (set_df self empty_frame) ;;
     emit (Progress 90) ;;
     excel_data <- get_excel_bytes bcv ;;
     k excel_data) tr
      = (Ret (Some (name, [summary; no_data_sheet])), tr')
    /\ sheet_name summary = "Özet"
    /\ header summary = ["Gösterge"; "Değer"]
    /\ map (fun row => nth 0 row NA) (rows summary) = map Text summary_labels
    /\ Forall zero_row (rows summary).
Proof.
  intros K.
  unfold bind at 1.
  assert (F : exists self' o tr1,
             format_data P (set_df self empty_frame) tr = (Ret self', tr1)
             /\ df self' = Some empty_frame
             /\ ozet self' = Some o
             /\ map (fun r => Text (fst r)) o = map Text summary_labels
             /\ Forall (fun r => exists v, snd r = Num v /\ (v == 0)%Q) o
             /\ List.length o = 16%nat).
  { destruct (zero_scaled P) as (z & Z1 & Z2).
    assert (C : forall code, coded P empty_frame code = Ret (Num z)).
    { intros code. unfold coded. cbn. exact Z1. }
    eexists _, _, _. split.
    { unfold format_data, indicators. cbn [df set_df]. rewrite !C. lazy. reflexivity. }
    split; [reflexivity |].
    split; [reflexivity |]. split; [reflexivity |]. split; [| reflexivity].
    repeat constructor; eexists; (split; [reflexivity | reflexivity || exact Z2]). }
  destruct F as (self' & o & tr1 & -> & D & O & L & Z & N).
  do 16 (destruct o as [| [? ?] o]; [discriminate N |]).
  destruct o; [| discriminate N].
  repeat match goal with H : Forall _ (_ :: _) |- _ => inversion H; clear H; subst end.
  repeat match goal with H : exists v, snd _ = Num v /\ _ |- _ =>
    destruct H as (? & ? & ?) end.
  cbn [snd] in *. subst.
  cbn [map fst] in L. injection L as -> -> -> -> -> -> -> -> -> -> -> -> -> -> -> ->.
  unfold bind at 1, emit at 1.
  unfold bind at 1.
  unfold get_excel_bytes, try_except, bind, log, emit, lift, ret. rewrite D, O. lazy.
  match goal with |- context [k ?x ?t] => destruct (K x t) as (tr2 & ->) end.
  eexists _, _. split; [reflexivity |].
  split; [reflexivity | split; [reflexivity |]].
  split; [reflexivity |].
  repeat constructor; eexists _, _; (split; [reflexivity | assumption]).
Qed.


Lemma server_error_fetches_nothing status body :
  fetches_nothing (uniform_world status body server_error).
Proof.
  intros tgt endpoint s e tr.
  destruct (failed_fetch (uniform_world status body server_error) tgt endpoint s e None
              "items" tr) as (warning & events & F & _).
  - discriminate.
  - simpl. discriminate.
  - eexists _, _. split; [exact F | reflexivity].
Qed.


(** ** Contract names as row keys *)

Lemma digit_of_char n : 0 <= n <= 9 -> digit (digit_char n) = Some n.
Proof.
  intros H. unfold digit, digit_char.
  rewrite nat_ascii_embedding by lia.
  replace (48 <=? 48 + Z.to_nat n)%nat with true by (symmetry; apply Nat.leb_le; lia).
  replace (48 + Z.to_nat n <=? 57)%nat with true by (symmetry; apply Nat.leb_le; lia).
  cbn [andb]. f_equal.
  replace (48 + Z.to_nat n - 48)%nat with (Z.to_nat n) by lia.
  apply Z2Nat.id. lia.
Qed.

Lemma two_then_one_long lo2 hi2 lo1 a b x y r :
  digit a = Some x -> digit b = Some y ->
  lo2 <= 10 * x + y <= hi2 ->
  exists rest, two_then_one lo2 hi2 lo1 (String a (String b r)) = (10 * x + y, r) :: rest.
Proof.
  intros A B R. unfold two_then_one. rewrite A, B.
  replace (lo2 <=? 10 * x + y) with true by (symmetry; apply Z.leb_le; lia).
  replace (10 * x + y <=? hi2) with true by (symmetry; apply Z.leb_le; lia).
  cbn [andb app]. eexists. reflexivity.
Qed.

(** Eight digits with a month, a day of that month and an hour are read
    by position. *)
Lemma strptime_eight_digits y1 y2 m1 m2 d1 d2 h1 h2 :
  0 <= y1 <= 9 -> 0 <= y2 <= 9 -> 0 <= m1 <= 9 -> 0 <= m2 <= 9 ->
  0 <= d1 <= 9 -> 0 <= d2 <= 9 -> 0 <= h1 <= 9 -> 0 <= h2 <= 9 ->
  1 <= 10 * m1 + m2 <= 12 ->
  1 <= 10 * d1 + d2 <= days_in_month (pivot_year (10 * y1 + y2)) (10 * m1 + m2) ->
  10 * h1 + h2 <= 23 ->
  forall a b,
    contract_time (Text (contract_name a b y1 y2 m1 m2 d1 d2 h1 h2))
      = Some (mkStamp (pivot_year (10 * y1 + y2)) (10 * m1 + m2) (10 * d1 + d2)
                (10 * h1 + h2) 0 0).
Proof.
  intros Y1 Y2 M1 M2 D1 D2 H1 H2 M D H a b.
  unfold contract_time, contract_name. cbn [drop_chars].
  unfold strptime_ymdH, matches_ymdH, match_y, match_m, match_d, match_H.
  rewrite (digit_of_char y1 Y1), (digit_of_char y2 Y2).
  cbn [flat_map fst snd].
  destruct (two_then_one_long 1 12 1 (digit_char m1) (digit_char m2) m1 m2
              (String (digit_char d1) (String (digit_char d2)
                (String (digit_char h1) (String (digit_char h2) EmptyString))))
              (digit_of_char m1 M1) (digit_of_char m2 M2) M) as (rm & ->).
  cbn [flat_map fst snd].
  assert (DM : days_in_month (pivot_year (10 * y1 + y2)) (10 * m1 + m2) <= 31).
  { unfold days_in_month.
    repeat match goal with |- context [if ?c then _ else _] => destruct c end; lia. }
  destruct (two_then_one_long 1 31 1 (digit_char d1) (digit_char d2) d1 d2
              (String (digit_char h1) (String (digit_char h2) EmptyString))
              (digit_of_char d1 D1) (digit_of_char d2 D2) ltac:(lia)) as (rd & ->).
  cbn [app flat_map fst snd].
  destruct (two_then_one_long 0 23 0 (digit_char h1) (digit_char h2) h1 h2 EmptyString
              (digit_of_char h1 H1) (digit_of_char h2 H2) ltac:(lia)) as (rh & ->).
  cbn [map app fst snd String.eqb negb].
  fold (pivot_year (10 * y1 + y2)).
  replace (10 * d1 + d2 <=? days_in_month (pivot_year (10 * y1 + y2)) (10 * m1 + m2))
    with true by (symmetry; apply Z.leb_le; lia).
  reflexivity.
Qed.

Lemma records_of_objects rs : records_of_list (map JObj rs) = Some rs.
Proof. induction rs as [| r rs IH]; cbn; [reflexivity | now rewrite IH]. Qed.

Lemma add_keys_keeps seen ks k : In k seen -> In k (add_keys seen ks).
Proof.
  revert seen. induction ks as [| x ks IH]; intros seen H; cbn; [exact H |].
  destruct (existsb (String.eqb x) seen); apply IH; [exact H |].
  apply in_or_app. now left.
Qed.

Lemma add_keys_adds seen ks k : In k ks -> In k (add_keys seen ks).
Proof.
  revert seen. induction ks as [| x ks IH]; intros seen H; [destruct H |].
  cbn. destruct H as [-> | H].
  - destruct (existsb (String.eqb k) seen) eqn:E.
    + apply add_keys_keeps. apply existsb_exists in E. destruct E as (z & Z1 & Z2).
      apply String.eqb_eq in Z2. now subst.
    + apply add_keys_keeps. apply in_or_app. right. now left.
  - destruct (existsb (String.eqb x) seen); now apply IH.
Qed.

Lemma fold_keys_keeps (rs : list record) seen k :
  In k seen ->
  In k (fold_left (fun seen (r : record) => add_keys seen (map fst r)) rs seen).
Proof.
  revert seen. induction rs as [| r rs IH]; intros seen H; cbn; [exact H |].
  apply IH. now apply add_keys_keeps.
Qed.

Lemma record_keys_has (rs : list record) r k :
  In r rs -> In k (map fst r) -> In k (record_keys rs).
Proof.
  unfold record_keys. generalize (@nil string) as seen.
  induction rs as [| x rs IH]; intros seen R K; [destruct R |].
  cbn. destruct R as [-> | R].
  - apply fold_keys_keeps. now apply add_keys_adds.
  - now apply IH.
Qed.

Lemma assoc_last_key {A : Type} k (l : list (string * A)) v :
  assoc_last k l = Some v -> In k (map fst l).
Proof.
  revert v. induction l as [| [k' v'] l IH]; intros v; cbn; [discriminate |].
  destruct (assoc_last k l) as [a |] eqn:E.
  - intros _. right. now apply (IH a).
  - destruct (String.eqb k k') eqn:K; [| discriminate].
    intros _. left. apply String.eqb_eq in K. now subst.
Qed.

Lemma get_column_of_keys (f : string -> list cell) keys k :
  In k keys -> get_column k (map (fun k => (k, f k)) keys) = f k.
Proof.
  induction keys as [| x keys IH]; intros H; [destruct H |].
  cbn. destruct (String.eqb k x) eqn:E.
  - apply String.eqb_eq in E. now subst.
  - destruct H as [-> | H]; [now rewrite String.eqb_refl in E | now apply IH].
Qed.

Lemma has_column_of_keys (rs : list record) k :
  In k (record_keys rs) -> has_column k (frame_of_records rs) = true.
Proof.
  intros H. unfold has_column, column_names, frame_of_records. cbn [columns].
  rewrite map_map. cbn [fst]. rewrite map_id.
  apply existsb_exists. exists k. split; [exact H | apply String.eqb_refl].
Qed.

(** Rows kept by a mask computed from the rows themselves. *)
Lemma keep_rows_filter {A B : Type} (p : A -> bool) (f : A -> B) (l : list A) :
  keep_rows (map p l) (map f l) = map f (filter p l).
Proof.
  induction l as [| x l IH]; [reflexivity |].
  cbn. destruct (p x); cbn; now rewrite IH.
Qed.

Lemma kept_labels (rs : list record) :
  keep_rows (map (fun r => not_nat (label_of_time (contract_hour r))) rs)
            (map (fun r => label_of_time (contract_hour r)) rs)
  = flat_map (fun r => match contract_hour r with
                       | Some t => [At t]
                       | None => []
                       end) rs.
Proof.
  induction rs as [| r rs IH]; [reflexivity |].
  cbn. destruct (contract_hour r); cbn; now rewrite IH.
Qed.

Lemma text_column_has_str (col : list cell) :
  col <> [] -> (forall c, In c col -> exists s, c = Text s) -> str_accessor_ok col = true.
Proof.
  intros N T. destruct col as [| c col]; [contradiction |].
  destruct (T c (or_introl eq_refl)) as (s & ->). reflexivity.
Qed.

(** C5.  The contract name ["PH23010110"] gives 2023-01-01 10:00:00 and
    ["XYshort"] gives no time stamp; any contract name whose characters
    after the first two are eight digits YYMMDDHH naming a month, a day
    of that month and an hour gives the time stamp with those fields;
    and the matching-quantity table built from records that all carry a
    textual [kontratAdi] is built without raising, its rows being the
    records whose name parses, in order, each keyed by the parsed time
    stamp, the others dropped. *)
Theorem contract_rows :
  contract_time (Text "PH23010110") = Some (mkStamp 2023 1 1 10 0 0)
  /\ contract_time (Text "XYshort") = None
  /\ (forall a b y1 y2 m1 m2 d1 d2 h1 h2,
        0 <= y1 <= 9 -> 0 <= y2 <= 9 -> 0 <= m1 <= 9 -> 0 <= m2 <= 9 ->
        0 <= d1 <= 9 -> 0 <= d2 <= 9 -> 0 <= h1 <= 9 -> 0 <= h2 <= 9 ->
        1 <= 10 * m1 + m2 <= 12 ->
        1 <= 10 * d1 + d2 <= days_in_month (pivot_year (10 * y1 + y2)) (10 * m1 + m2) ->
        10 * h1 + h2 <= 23 ->
        contract_time (Text (contract_name a b y1 y2 m1 m2 d1 d2 h1 h2))
          = Some (mkStamp (pivot_year (10 * y1 + y2)) (10 * m1 + m2) (10 * d1 + d2)
                    (10 * h1 + h2) 0 0))
  /\ (forall (rs : list record) tr,
        rs <> [] ->
        (forall r, In r rs -> exists s, assoc_last "kontratAdi" r = Some (JStr s)) ->
        exists d,
          quantity_frame (JArr (map JObj rs)) tr = (Ret d, tr)
          /\ index d = flat_map (fun r => match contract_hour r with
                                          | Some t => [At t]
                                          | None => []
                                          end) rs
          /\ columns d
             = map (fun k => ("idm_" ++ k, map (field k) (filter contract_parses rs)))
                 (filter (fun k => negb (String.eqb "date" k)) (record_keys rs))).
Proof.
  split; [reflexivity | split; [reflexivity | split]].
  - intros. now apply strptime_eight_digits.
  - intros rs tr N T.
    assert (K : In "kontratAdi" (record_keys rs)).
    { destruct rs as [| r rs]; [contradiction |].
      destruct (T r (or_introl eq_refl)) as (s & S).
      apply (record_keys_has (r :: rs) r); [now left |].
      now apply assoc_last_key in S. }
    assert (C : get_column "kontratAdi" (columns (frame_of_records rs))
                = map (field "kontratAdi") rs).
    { unfold frame_of_records. cbn [columns].
      now rewrite (get_column_of_keys (fun k => map (field k) rs)). }
    assert (S : str_accessor_ok (map (field "kontratAdi") rs) = true).
    { apply text_column_has_str.
      - destruct rs; [contradiction | discriminate].
      - intros c I. apply in_map_iff in I. destruct I as (r & <- & I).
        destruct (T r I) as (s & E). exists s. unfold field. now rewrite E. }
    unfold quantity_frame.
    replace (truthy (JArr (map JObj rs))) with true
      by (destruct rs; [contradiction | reflexivity]).
    unfold frame_of_items, records_of. rewrite records_of_objects.
    unfold bind, lift, ret, try_except.
    rewrite (has_column_of_keys rs "kontratAdi" K).
    unfold index_by_contract. rewrite C, S.
    eexists. split; [reflexivity | split].
    + cbn [rename_columns set_date_index index]. rewrite !map_map.
      apply kept_labels.
    + cbn [rename_columns set_date_index select_rows columns frame_of_records fst snd].
      rewrite !map_map. cbn [fst snd].
      change (fun x : record => not_nat (label_of_time (contract_time (field "kontratAdi" x))))
        with (fun r : record => not_nat (label_of_time (contract_hour r))).
      clear K C S. induction (record_keys rs) as [| k ks IH]; [reflexivity |].
      cbn [map filter fst]. destruct (String.eqb "date" k); cbn [negb map fst snd].
      * exact IH.
      * rewrite IH. f_equal. f_equal.
        rewrite (keep_rows_filter
                   (fun r => not_nat (label_of_time (contract_hour r))) (field k) rs).
        f_equal. apply filter_ext. intros r. unfold contract_parses.
        now destruct (contract_hour r).
Qed.

Lemma contract_rows_witness :
  contract_time (Text (contract_name "P" "H" 2 3 0 1 0 1 1 0))
    = Some (mkStamp (pivot_year (10 * 2 + 3)) (10 * 0 + 1) (10 * 0 + 1) (10 * 1 + 0) 0 0)
  /\ exists d,
       quantity_frame (JArr (map JObj sample_contracts)) [] = (Ret d, [])
       /\ index d = flat_map (fun r => match contract_hour r with
                                       | Some t => [At t]
                                       | None => []
                                       end) sample_contracts
       /\ columns d
          = map (fun k => ("idm_" ++ k, map (field k) (filter contract_parses sample_contracts)))
              (filter (fun k => negb (String.eqb "date" k)) (record_keys sample_contracts)).
Proof.
  destruct contract_rows as (_ & _ & E & F). split.
  - apply E; try lia. vm_compute. split; discriminate.
  - apply F.
    + discriminate.
    + intros r [<- | [<- | [<- | []]]]; eexists; reflexivity.
Defined.

(** ** Indicators *)

Lemma first_of_filter {A B : Type} (P : A -> bool) (l : list A) (f : A -> B) (z : B) :
  match filter P l with c :: _ => f c | [] => z end
  = match find P l with Some c => f c | None => z end.
Proof.
  induction l as [| x l IH]; [reflexivity |].
  cbn. now destruct (P x).
Qed.

Lemma find_none_iff {A : Type} (P : A -> bool) (l : list A) :
  (forall c, In c l -> P c = false) -> find P l = None.
Proof.
  induction l as [| x l IH]; intros H; [reflexivity |].
  cbn. rewrite (H x (or_introl eq_refl)). apply IH. intros c I. apply H. now right.
Qed.

Lemma located_exact L name r d :
  located L (String.eqb name) r d
  = if has_column name d then x <~ select name d ;; reduce L r x else Ret (Num 0).
Proof.
  unfold located, has_column. induction (column_names d) as [| c l IH]; [reflexivity |].
  cbn. destruct (String.eqb name c) eqn:E.
  - apply String.eqb_eq in E. now subst.
  - exact IH.
Qed.

Lemma not_located L test r d :
  (forall c, In c (column_names d) -> test c = false) -> located L test r d = Ret (Num 0).
Proof. intros H. unfold located. now rewrite find_none_iff. Qed.

(** The total of a coded instruction, by the first names found. *)
Lemma coded_as_found L d code :
  coded L d code
  = (t <~ taking L (coded_test "bpmD_" code) d (Num 0) ;;
     t <~ taking L (coded_test "bpmU_" code) d t ;;
     quotient L t (Num million)).
Proof.
  unfold coded, taking. cbv zeta.
  change (fun c : string => contains "bpmD_" c && contains (lower code) (lower c))
    with (coded_test "bpmD_" code).
  change (fun c : string => contains "bpmU_" c && contains (lower code) (lower c))
    with (coded_test "bpmU_" code).
  rewrite (first_of_filter (coded_test "bpmD_" code) (column_names d)
             (fun c => x <~ select c d ;; s <~ abs_sum L x ;; plus L (Num 0) s)
             (Ret (Num 0))).
  destruct (match find (coded_test "bpmD_" code) (column_names d) with
            | Some c => x <~ select c d ;; s <~ abs_sum L x ;; plus L (Num 0) s
            | None => Ret (Num 0)
            end) as [t | e]; [| reflexivity].
  cbn [and_then].
  now rewrite (first_of_filter (coded_test "bpmU_" code) (column_names d)
                 (fun c => x <~ select c d ;; s <~ abs_sum L x ;; plus L t s) (Ret t)).
Qed.

(** C2, as the code has it.  Every indicator is read from what the
    table gives under the first name, in column order, that passes the
    indicator's own test, and is 0 when no name passes; the sums, means
    and quotients are the library's.  The tests differ: the bilateral
    quantity wants the exact name [bilateral_quantity]; the day-ahead
    quantity wants [dam_] and [matched], both without regard to case;
    the clearing price, the marginal price, the intraday price and
    quantity, the coded and the delivered orders want their prefix in
    the case written and their keyword without regard to case; the four
    frequency indicators want their key alone, without regard to case.
    In particular, when the first name passing the day-ahead test is
    [dam_matchedBidQuantity] and no name passes the clearing-price
    test, the day-ahead indicator is the library's sum of what the table
    gives under that name, over 1e6, and the clearing price is 0. *)
Theorem indicator_columns (L : library) (d : DataFrame) :
  bilateral_quantity L d = located L (String.eqb "bilateral_quantity") ScaledSum d
  /\ dam_matchedBids L d = located L dam_test ScaledSum d
  /\ ptf L d = located L ptf_test Mean d
  /\ smf L d = located L smf_test Mean d
  /\ idm_wap L d = located L wap_test Mean d
  /\ idm_quant L d = located L quantity_test ScaledSum d
  /\ (forall code,
        coded L d code
        = (t <~ taking L (coded_test "bpmD_" code) d (Num 0) ;;
           t <~ taking L (coded_test "bpmU_" code) d t ;;
           quotient L t (Num million)))
  /\ (forall prefix,
        delivered L d prefix = located L (delivered_test prefix) ScaledAbsSum d)
  /\ (forall key, frequency L d key = located L (mentions key) Mean d)
  /\ (forall tr,
        find quantity_test (column_names d) = None \/ find wap_test (column_names d) = None ->
        idm_year_price L d tr = (Ret (Num 0), tr))
  /\ (forall test r,
        (forall c, In c (column_names d) -> test c = false) ->
        located L test r d = Ret (Num 0))
  /\ (forall x s v,
        find dam_test (column_names d) = Some "dam_matchedBidQuantity" ->
        select "dam_matchedBidQuantity" d = Ret x ->
        sum_of L x = Ret s ->
        quotient L s (Num million) = Ret v ->
        (forall c, In c (column_names d) -> ptf_test c = false) ->
        dam_matchedBids L d = Ret v /\ ptf L d = Ret (Num 0)).
Proof.
  assert (B : bilateral_quantity L d = located L (String.eqb "bilateral_quantity") ScaledSum d).
  { rewrite located_exact. reflexivity. }
  assert (D : dam_matchedBids L d = located L dam_test ScaledSum d).
  { unfold dam_matchedBids, dam_col, located.
    apply (first_of_filter dam_test (column_names d)
             (fun c => x <~ select c d ;; scaled_sum L x)). }
  assert (P : ptf L d = located L ptf_test Mean d).
  { unfold ptf, ptf_col, located.
    apply (first_of_filter ptf_test (column_names d)
             (fun c => x <~ select c d ;; mean_of L x)). }
  repeat split.
  - exact B.
  - exact D.
  - exact P.
  - unfold smf, smf_col, located.
    apply (first_of_filter smf_test (column_names d)
             (fun c => x <~ select c d ;; mean_of L x)).
  - unfold idm_wap, wap_col, located.
    apply (first_of_filter wap_test (column_names d)
             (fun c => x <~ select c d ;; mean_of L x)).
  - unfold idm_quant, idm_quant_col, located.
    apply (first_of_filter quantity_test (column_names d)
             (fun c => x <~ select c d ;; scaled_sum L x)).
  - intros code. apply coded_as_found.
  - intros prefix. unfold delivered, located.
    apply (first_of_filter (delivered_test prefix) (column_names d)
             (fun c => x <~ select c d ;; reduce L ScaledAbsSum x)).
  - intros key. unfold frequency, located.
    apply (first_of_filter (mentions key) (column_names d)
             (fun c => x <~ select c d ;; mean_of L x)).
  - intros tr H. unfold idm_year_price, idm_quant_col, wap_col.
    change (fun c : string => contains "idm_" c &&
              (contains "quantity" (lower c) || contains "clearing" (lower c)))
      with quantity_test.
    change (fun c : string => contains "idm_" c && contains "wap" (lower c)) with wap_test.
    destruct (filter quantity_test (column_names d)) as [| qc ?] eqn:Q; [reflexivity |].
    destruct (filter wap_test (column_names d)) as [| wc ?] eqn:W; [reflexivity |].
    exfalso. destruct H as [H | H].
    + pose proof (first_of_filter quantity_test (column_names d) (fun _ => true) false) as F.
      rewrite Q, H in F. discriminate F.
    + pose proof (first_of_filter wap_test (column_names d) (fun _ => true) false) as F.
      rewrite W, H in F. discriminate F.
  - intros test r. apply not_located.
  - rewrite D. unfold located. rewrite H, H0. cbn [and_then reduce]. unfold scaled_sum.
    rewrite H1. exact H2.
  - rewrite P. now apply not_located.
Qed.

Lemma indicator_columns_witness :
  idm_year_price schoolbook matched_bid_table [] = (Ret (Num 0), [])
  /\ located schoolbook ptf_test Mean matched_bid_table = Ret (Num 0)
  /\ dam_matchedBids schoolbook matched_bid_table
     = Ret (Num ((2000000 + (1000000 + 0)) / million)%Q)
  /\ ptf schoolbook matched_bid_table = Ret (Num 0).
Proof.
  pose proof (indicator_columns schoolbook matched_bid_table)
    as (_ & _ & _ & _ & _ & _ & _ & _ & _ & Y & N & D).
  split; [| split].
  - apply Y. left. reflexivity.
  - apply N. intros c [<- | [<- | []]]; reflexivity.
  - apply (D (Series "dam_matchedBidQuantity" [Num 2000000%Q; Num 1000000%Q])
             (Num (2000000 + (1000000 + 0))%Q)).
    + reflexivity.
    + reflexivity.
    + reflexivity.
    + reflexivity.
    + intros c [<- | [<- | []]]; reflexivity.
Defined.

(** C2 as stated fails on the letter case of the prefix and on the
    choice among several matching columns.  A column [PTF_price] passes
    the test worded by the specification but not the program's: for
    every library the clearing price is 0, and not the mean of that
    column, which is 10.  And with [dam_matchedOffers] ahead of
    [dam_matchedBidQuantity] the day-ahead indicator is, for every
    library, the scaled sum of the former: 1, where the latter gives
    2. *)
Lemma prefix_case_and_first_match :
  claimed_ptf_test "PTF_price" = true
  /\ (forall L, ptf L upper_case_table = Ret (Num 0))
  /\ (forall L, located L claimed_ptf_test Mean upper_case_table
                = mean_of L (Series "PTF_price" [Num 10%Q]))
  /\ (exists v, mean_of schoolbook (Series "PTF_price" [Num 10%Q]) = Ret (Num v)
                /\ (v == 10)%Q)
  /\ ~ (forall L d, ptf L d = located L claimed_ptf_test Mean d)
  /\ has_column "dam_matchedBidQuantity" two_matched_table = true
  /\ (forall L, dam_matchedBids L two_matched_table
                = scaled_sum L (Series "dam_matchedOffers" [Num 1000000%Q]))
  /\ dam_matchedBids schoolbook two_matched_table = Ret (Num ((1000000 + 0) / million)%Q)
  /\ scaled_sum schoolbook (Series "dam_matchedBidQuantity" [Num 2000000%Q])
     = Ret (Num ((2000000 + 0) / million)%Q).
Proof.
  split; [reflexivity |].
  split; [reflexivity |].
  split; [reflexivity |].
  split; [eexists; split; reflexivity |].
  split; [intros H; specialize (H schoolbook upper_case_table); discriminate H |].
  repeat split; reflexivity.
Qed.

(** ** The yearly weighted price *)

Lemma col_sum_numbers qs : col_sum (numbers qs) = Ret (total qs).
Proof.
  unfold numbers. induction qs as [| q qs IH]; cbn; [reflexivity | now rewrite IH].
Qed.

Lemma col_mul_numbers qs ps :
  col_mul (numbers qs) (numbers ps) = Ret (numbers (products qs ps)).
Proof.
  unfold numbers. revert ps.
  induction qs as [| q qs IH]; intros [| p ps]; cbn; try reflexivity.
  now rewrite IH.
Qed.

Lemma positive_not_le (x : Q) : (0 < x)%Q -> Qle_bool x 0 = false.
Proof.
  intros H. destruct (Qle_bool x 0) eqn:E; [| reflexivity].
  apply Qle_bool_iff in E. exfalso. exact (Qlt_not_le _ _ H E).
Qed.

Lemma not_positive_le (x : Q) : (x <= 0)%Q -> Qle_bool x 0 = true.
Proof. intros H. now apply Qle_bool_iff. Qed.

(** The guarded quotient, by the sign of a total that is a number. *)
Lemma weighted_price_cases L d qc wc x tot :
  select qc d = Ret x ->
  sum_of L x = Ret (Num tot) ->
  ((0 < tot)%Q ->
     weighted_price L d qc wc
     = (y <~ select wc d ;;
        products <~ times L x y ;;
        weighted_sum <~ sum_of L products ;;
        quotient L weighted_sum (Num tot)))
  /\ ((tot <= 0)%Q -> weighted_price L d qc wc = Ret (Num 0)).
Proof.
  intros X S. unfold weighted_price. rewrite X. cbn [and_then]. rewrite S. cbn [and_then].
  rewrite positive_number. cbn [and_then]. split; intros H.
  - now rewrite positive_not_le.
  - now rewrite not_positive_le.
Qed.

Lemma idm_year_price_found L d qc r1 wc r2 tr :
  idm_quant_col d = qc :: r1 -> wap_col d = wc :: r2 ->
  idm_year_price L d tr
  = match weighted_price L d qc wc with
    | Ret v => (Ret v, tr)
    | Raise e =>
        (Ret (Num 0),
         (tr ++ [Logged ("⚠ GİP Ağırlıklı Ortalama hesaplanamadı: " ++ exn_text e)])%list)
    end.
Proof.
  intros Q W. unfold idm_year_price. rewrite Q, W.
  unfold try_except, lift, bind, log, emit, ret.
  now destruct (weighted_price L d qc wc).
Qed.

Lemma price_table_columns qs ps :
  idm_quant_col (price_table qs ps) = ["idm_clearingQuantityAsk"]
  /\ wap_col (price_table qs ps) = ["idm_wap"]
  /\ select "idm_clearingQuantityAsk" (price_table qs ps)
     = Ret (Series "idm_clearingQuantityAsk" (numbers qs))
  /\ select "idm_wap" (price_table qs ps) = Ret (Series "idm_wap" (numbers ps)).
Proof. repeat split; reflexivity. Qed.

(** C3, as the code has it.  With a matched intraday quantity column and
    a weighted-average-price column, when the library's sum of the
    quantities is a number, the yearly weighted price is the library's
    sum of the products of quantity and price, row by row, divided by
    that sum of the quantities whenever it is strictly positive, and 0
    when it is zero.  For the quantities 2, 4 and the prices 10, 20,
    with a library that gives the sums 6 and 100, it is the library's
    quotient of 100 by 6; in exact arithmetic that is
    (2*10+4*20)/(2+4) = 50/3, which is 16.667 to three decimals. *)
Theorem yearly_weighted_price :
  (forall L d qc r1 wc r2 x y tot tr,
     idm_quant_col d = qc :: r1 -> wap_col d = wc :: r2 ->
     select qc d = Ret x -> select wc d = Ret y ->
     sum_of L x = Ret (Num tot) ->
     (forall prods ws v,
        (0 < tot)%Q ->
        times L x y = Ret prods -> sum_of L prods = Ret ws ->
        quotient L ws (Num tot) = Ret v ->
        idm_year_price L d tr = (Ret v, tr))
     /\ ((tot == 0)%Q -> idm_year_price L d tr = (Ret (Num 0), tr)))
  /\ (forall L prods v tr,
        sum_of L (Series "idm_clearingQuantityAsk" (numbers [2; 4])%Q) = Ret (Num 6%Q) ->
        times L (Series "idm_clearingQuantityAsk" (numbers [2; 4])%Q)
                (Series "idm_wap" (numbers [10; 20])%Q) = Ret prods ->
        sum_of L prods = Ret (Num 100%Q) ->
        quotient L (Num 100%Q) (Num 6%Q) = Ret v ->
        idm_year_price L (price_table [2; 4] [10; 20])%Q tr = (Ret v, tr))
  /\ (forall L qs ps z tr,
        sum_of L (Series "idm_clearingQuantityAsk" (numbers qs)) = Ret (Num z) ->
        (z == 0)%Q ->
        idm_year_price L (price_table qs ps) tr = (Ret (Num 0), tr))
  /\ (exists v,
        idm_year_price schoolbook (price_table [2; 4] [10; 20])%Q [] = (Ret (Num v), [])
        /\ (v == (2 * 10 + 4 * 20) / (2 + 4))%Q
        /\ (16.6665 <= v)%Q /\ (v < 16.6675)%Q).
Proof.
  assert (G : forall L d qc r1 wc r2 x y tot tr,
     idm_quant_col d = qc :: r1 -> wap_col d = wc :: r2 ->
     select qc d = Ret x -> select wc d = Ret y ->
     sum_of L x = Ret (Num tot) ->
     (forall prods ws v,
        (0 < tot)%Q ->
        times L x y = Ret prods -> sum_of L prods = Ret ws ->
        quotient L ws (Num tot) = Ret v ->
        idm_year_price L d tr = (Ret v, tr))
     /\ ((tot == 0)%Q -> idm_year_price L d tr = (Ret (Num 0), tr))).
  { intros L d qc r1 wc r2 x y tot tr Q W X Y S.
    rewrite (idm_year_price_found L d qc r1 wc r2 tr Q W).
    destruct (weighted_price_cases L d qc wc x tot X S) as [Hp Hz].
    split.
    - intros prods ws v H M P D. rewrite (Hp H), Y. cbn [and_then].
      rewrite M. cbn [and_then]. rewrite P. cbn [and_then]. now rewrite D.
    - intros H. rewrite Hz; [reflexivity |]. rewrite H. apply Qle_refl. }
  split; [exact G |]. split; [| split].
  - intros L prods v tr S M P D.
    destruct (price_table_columns [2; 4]%Q [10; 20]%Q) as (Q & W & CQ & CW).
    apply (proj1 (G L _ _ _ _ _ _ _ 6%Q tr Q W CQ CW S) prods (Num 100%Q) v);
      [reflexivity | exact M | exact P | exact D].
  - intros L qs ps z tr S Z.
    destruct (price_table_columns qs ps) as (Q & W & CQ & CW).
    exact (proj2 (G L _ _ _ _ _ _ _ z tr Q W CQ CW S) Z).
  - eexists. split; [reflexivity |]. split; [reflexivity |]. split; discriminate || reflexivity.
Qed.

Lemma yearly_weighted_price_witness :
  idm_year_price schoolbook (price_table [2; 4] [10; 20])%Q []
    = (Ret (Num ((2 * 10 + (4 * 20 + 0)) / (2 + (4 + 0)))%Q), [])
  /\ idm_year_price schoolbook (price_table [0; 0] [10; 20])%Q [] = (Ret (Num 0), []).
Proof.
  destruct yearly_weighted_price as (A & _ & C & _).
  split.
  - apply (proj1 (A schoolbook (price_table [2; 4] [10; 20])%Q "idm_clearingQuantityAsk" []
                    "idm_wap" [] _ _ (2 + (4 + 0))%Q []
                    eq_refl eq_refl eq_refl eq_refl eq_refl)
             (Series "idm_clearingQuantityAsk" (numbers [2 * 10; 4 * 20])%Q)
             (Num (2 * 10 + (4 * 20 + 0))%Q)); reflexivity.
  - apply (C schoolbook [0; 0]%Q [10; 20]%Q (0 + (0 + 0))%Q); reflexivity.
Defined.

(** C3 as stated fails on a negative total: for the quantity -2 at the
    price 10 the quotient is 10 and the indicator is 0, with every
    library that sums the one quantity to -2. *)
Lemma negative_total_is_not_the_quotient :
  idm_year_price schoolbook (price_table [-2] [10])%Q [] = (Ret (Num 0), [])
  /\ (total (products [-2] [10]) / total [-2] == 10)%Q
  /\ (forall L tr,
        sum_of L (Series "idm_clearingQuantityAsk" (numbers [-2])%Q) = Ret (Num (-2)%Q) ->
        idm_year_price L (price_table [-2] [10])%Q tr = (Ret (Num 0), tr))
  /\ ~ (forall qs ps,
          idm_year_price schoolbook (price_table qs ps) []
            = (Ret (Num (total (products qs ps) / total qs)%Q), [])).
Proof.
  split; [reflexivity | split; [reflexivity | split]].
  - intros L tr S.
    destruct (price_table_columns [-2]%Q [10]%Q) as (Q & W & CQ & CW).
    rewrite (idm_year_price_found L _ _ _ _ _ tr Q W).
    destruct (weighted_price_cases L _ "idm_clearingQuantityAsk" "idm_wap" _ (-2)%Q CQ S)
      as [_ Hz].
    rewrite Hz; [reflexivity | discriminate].
  - intros H. specialize (H [-2]%Q [10]%Q). discriminate H.
Qed.

(** C10.  The yearly weighted price never raises.  With both columns
    found and a library sum of the quantities that is a number, it is 0
    whenever that sum is zero or negative, and nothing is logged; the
    products, their sum and the quotient are computed only for a
    strictly positive sum, so a value other than 0 shows that the sum
    was positive. *)
Theorem weighted_price_guard (L : library) (d : DataFrame) (tr : list event) :
  (exists v tr', idm_year_price L d tr = (Ret v, tr'))
  /\ (forall qc r1 wc r2 x tot,
        idm_quant_col d = qc :: r1 -> wap_col d = wc :: r2 ->
        select qc d = Ret x -> sum_of L x = Ret (Num tot) ->
        ((tot <= 0)%Q ->
           weighted_price L d qc wc = Ret (Num 0)
           /\ idm_year_price L d tr = (Ret (Num 0), tr))
        /\ ((0 < tot)%Q ->
              weighted_price L d qc wc
              = (y <~ select wc d ;;
                 products <~ times L x y ;;
                 weighted_sum <~ sum_of L products ;;
                 quotient L weighted_sum (Num tot)))
        /\ (forall v tr', idm_year_price L d tr = (Ret v, tr') ->
                          v <> Num 0 -> (0 < tot)%Q)).
Proof.
  split.
  - unfold idm_year_price.
    destruct (idm_quant_col d) as [| qc r1]; [eexists _, _; reflexivity |].
    destruct (wap_col d) as [| wc r2]; [eexists _, _; reflexivity |].
    unfold try_except, lift, bind, log, emit, ret.
    destruct (weighted_price L d qc wc) as [v | e]; eexists _, _; reflexivity.
  - intros qc r1 wc r2 x tot Q W X S.
    destruct (weighted_price_cases L d qc wc x tot X S) as [Hp Hz].
    assert (Z : (tot <= 0)%Q ->
                weighted_price L d qc wc = Ret (Num 0)
                /\ idm_year_price L d tr = (Ret (Num 0), tr)).
    { intros H. split; [now apply Hz |].
      rewrite (idm_year_price_found L d qc r1 wc r2 tr Q W), (Hz H). reflexivity. }
    split; [exact Z |]. split; [exact Hp |].
    intros v tr' E N.
    destruct (Qlt_le_dec 0 tot) as [P | H]; [exact P |].
    exfalso. apply N. destruct (Z H) as [_ E0]. rewrite E0 in E. congruence.
Qed.

Lemma weighted_price_guard_witness :
  (weighted_price schoolbook (price_table [-2] [10])%Q "idm_clearingQuantityAsk" "idm_wap"
   = Ret (Num 0)
   /\ idm_year_price schoolbook (price_table [-2] [10])%Q [] = (Ret (Num 0), []))
  /\ (0 < 2 + (4 + 0))%Q.
Proof.
  destruct (weighted_price_guard schoolbook (price_table [-2] [10])%Q []) as (_ & G).
  destruct (weighted_price_guard schoolbook (price_table [2; 4] [10; 20])%Q []) as (_ & P).
  split.
  - apply (proj1 (G "idm_clearingQuantityAsk" [] "idm_wap" []
                    (Series "idm_clearingQuantityAsk" (numbers [-2])%Q) (-2 + 0)%Q
                    eq_refl eq_refl eq_refl eq_refl)).
    discriminate.
  - apply (proj2 (proj2 (P "idm_clearingQuantityAsk" [] "idm_wap" []
                           (Series "idm_clearingQuantityAsk" (numbers [2; 4])%Q)
                           (2 + (4 + 0))%Q eq_refl eq_refl eq_refl eq_refl))
             (Num ((2 * 10 + (4 * 20 + 0)) / (2 + (4 + 0)))%Q) []).
    + reflexivity.
    + discriminate.
Defined.

(** ** The merge of the category tables *)

Lemma stamp_eqb_eq a b : stamp_eqb a b = true <-> a = b.
Proof.
  destruct a as [y1 m1 d1 h1 n1 s1], b as [y2 m2 d2 h2 n2 s2].
  unfold stamp_eqb, stamp_fields. cbn [yr mo dy hr mi sc combine forallb fst snd].
  rewrite !andb_true_iff, !Z.eqb_eq. split.
  - intros (-> & -> & -> & -> & -> & -> & _). reflexivity.
  - intros E. injection E as -> -> -> -> -> ->. repeat split.
Qed.

Lemma label_eqb_eq a b : label_eqb a b = true <-> a = b.
Proof.
  destruct a as [m | s |], b as [n | t |]; cbn; split; intros H;
    try discriminate H; try reflexivity.
  - apply Nat.eqb_eq in H. now subst.
  - injection H as ->. apply Nat.eqb_refl.
  - apply stamp_eqb_eq in H. now subst.
  - injection H as ->. now apply stamp_eqb_eq.
Qed.

Lemma label_eqb_refl a : label_eqb a a = true.
Proof. now apply label_eqb_eq. Qed.

Lemma labels_eqb_refl idx : labels_eqb idx idx = true.
Proof. induction idx as [| l idx IH]; cbn; [reflexivity | now rewrite label_eqb_refl]. Qed.

Lemma mem_label_iff l idx : mem_label l idx = true <-> In l idx.
Proof.
  unfold mem_label. rewrite existsb_exists. split.
  - intros (x & I & E). apply label_eqb_eq in E. now subst.
  - intros I. exists l. split; [exact I | apply label_eqb_refl].
Qed.

Lemma remove_one_in l budget rest :
  remove_one l budget = Some rest -> In l budget /\ (forall x, In x rest -> In x budget).
Proof.
  revert rest. induction budget as [| b budget IH]; intros rest; cbn; [discriminate |].
  destruct (label_eqb l b) eqn:E.
  - intros [= <-]. apply label_eqb_eq in E. subst. split; [now left | intros x; now right].
  - destruct (remove_one l budget) as [r |]; [| discriminate].
    intros [= <-]. destruct (IH r eq_refl) as [I S]. split; [now right |].
    intros x [-> | X]; [now left | right; now apply S].
Qed.

Lemma surplus_in budget r l : In l (surplus budget r) -> In l r.
Proof.
  revert budget. induction r as [| x r IH]; intros budget; cbn; [tauto |].
  destruct (remove_one x budget).
  - intros H. right. now apply IH in H.
  - intros [-> | H]; [now left | right; now apply IH in H].
Qed.

Lemma surplus_covers a budget r l :
  (forall x, In x budget -> In x a) -> In l r -> In l a \/ In l (surplus budget r).
Proof.
  revert budget. induction r as [| x r IH]; intros budget S I; [destruct I |].
  cbn. destruct (remove_one x budget) as [rest |] eqn:E.
  - destruct (remove_one_in x budget rest E) as [X R].
    destruct I as [-> | I]; [left; now apply S |].
    apply IH; [| exact I]. intros y Y. apply S. now apply R.
  - destruct I as [-> | I]; [right; now left |].
    destruct (IH budget S I) as [H | H]; [now left | right; now right].
Qed.

Lemma union_labels_in a b l : In l (union_labels a b) <-> In l a \/ In l b.
Proof.
  unfold union_labels. rewrite in_app_iff. split.
  - intros [H | H]; [now left | right; now apply surplus_in in H].
  - intros [H | H]; [now left |].
    destruct (surplus_covers a a b l (fun x X => X) H); [now left | now right].
Qed.

(** The combined index holds the labels of the frames and no other. *)
Lemma combined_index_in idxs l :
  In l (combined_index idxs) <-> exists idx, In idx idxs /\ In l idx.
Proof.
  destruct idxs as [| i r]; cbn.
  - split; [tauto | intros (x & [] & _)].
  - revert i. induction r as [| x r IH]; intros i; cbn.
    + split.
      * intros H. exists i. split; [now left | exact H].
      * intros (x & [<- | []] & H). exact H.
    + rewrite IH. split.
      * intros (idx & [E | I] & H).
        -- subst idx. apply union_labels_in in H. destruct H as [H | H].
           ++ exists i. split; [now left | exact H].
           ++ exists x. split; [right; now left | exact H].
        -- exists idx. split; [right; now right | exact H].
      * intros (idx & [E | [E | I]] & H).
        -- subst idx. exists (union_labels i x). split; [now left |].
           apply union_labels_in. now left.
        -- subst idx. exists (union_labels i x). split; [now left |].
           apply union_labels_in. now right.
        -- exists idx. split; [now right | exact H].
Qed.

(** What the removal of repeated labels keeps: the first row of every
    label not seen before, once. *)
Lemma kept_rows_first seen idx col l v :
  In (l, v) (keep_rows (map negb (duplicated_from seen idx)) (labelled idx col)) ->
  ~ In l seen /\ first_cell l (labelled idx col) = Some v.
Proof.
  unfold labelled, first_cell. revert seen col.
  induction idx as [| x idx IH]; intros seen [| c col]; cbn; try tauto.
  destruct (mem_label x seen) eqn:M; cbn [negb].
  - intros H. destruct (IH (x :: seen) col H) as [N F].
    split; [intros S; apply N; now right |].
    destruct (label_eqb l x) eqn:E; [| exact F].
    apply label_eqb_eq in E. subst. exfalso. apply N. now left.
  - intros [[= -> ->] | H].
    + split.
      * intros S. apply mem_label_iff in S. congruence.
      * now rewrite label_eqb_refl.
    + destruct (IH (x :: seen) col H) as [N F].
      split; [intros S; apply N; now right |].
      destruct (label_eqb l x) eqn:E; [| exact F].
      apply label_eqb_eq in E. subst. exfalso. apply N. now left.
Qed.

Lemma kept_labels_once seen idx :
  let kept := keep_rows (map negb (duplicated_from seen idx)) idx in
  NoDup kept /\ forall l, In l kept <-> In l idx /\ ~ In l seen.
Proof.
  cbv zeta. revert seen. induction idx as [| x idx IH]; intros seen; cbn.
  - split; [constructor | tauto].
  - destruct (IH (x :: seen)) as [N K].
    destruct (mem_label x seen) eqn:M; cbn [negb].
    + split; [exact N |]. intros l. rewrite K. apply mem_label_iff in M. split.
      * intros [I S]. split; [now right | intros H; apply S; now right].
      * intros [[-> | I] S]; [contradiction |].
        split; [exact I |]. intros [-> | H]; contradiction.
    + assert (X : ~ In x seen) by (intros H; apply mem_label_iff in H; congruence).
      split.
      * constructor; [| exact N]. rewrite K. intros [_ H]. apply H. now left.
      * intros l. cbn [In]. rewrite K. split.
        -- intros [<- | [I S]]; [split; [now left | exact X] |].
           split; [now right | intros H; apply S; now right].
        -- intros [[-> | I] S]; [now left |].
           destruct (label_eqb_eq x l) as [_ D].
           destruct (label_eqb x l) eqn:E.
           ++ left. now apply label_eqb_eq.
           ++ right. split; [exact I |]. intros [-> | H]; [| contradiction].
              rewrite label_eqb_refl in E. discriminate E.
Qed.

Lemma keep_rows_labelled mask idx col :
  labelled (keep_rows mask idx) (keep_rows mask col) = keep_rows mask (labelled idx col).
Proof.
  unfold labelled. revert idx col.
  induction mask as [| b mask IH]; intros [| l idx] [| c col]; cbn; try reflexivity.
  - destruct b; [reflexivity |]. now destruct (keep_rows mask idx).
  - destruct b; cbn; now rewrite IH.
Qed.

Lemma reindex_names target df : map fst (reindex target df) = column_names df.
Proof.
  unfold reindex, column_names. destruct (labels_eqb (index df) target); [reflexivity |].
  now rewrite map_map.
Qed.

Lemma concat_names dfs c :
  concat_columns dfs = Ret c -> column_names c = flat_map column_names dfs.
Proof.
  unfold concat_columns. destruct (forallb _ dfs); [| discriminate].
  intros [= <-]. unfold column_names at 1. cbn [columns].
  generalize (combined_index (map index dfs)) as target. intros target.
  induction dfs as [| df dfs IH]; [reflexivity |].
  cbn [flat_map]. now rewrite map_app, reindex_names, IH.
Qed.

Lemma concat_index dfs c :
  concat_columns dfs = Ret c -> index c = combined_index (map index dfs).
Proof.
  unfold concat_columns. destruct (forallb _ dfs); [| discriminate].
  now intros [= <-].
Qed.

(** Empty tables alone give no merged table. *)
Lemma merge_nothing dfs :
  (forall df, In df dfs -> df_empty df = true) -> merge_frames dfs = Ret None.
Proof.
  intros H. unfold merge_frames.
  replace (filter (fun df => negb (df_empty df)) dfs) with (@nil DataFrame); [reflexivity |].
  symmetry. induction dfs as [| df dfs IH]; [reflexivity |].
  cbn. rewrite (H df (or_introl eq_refl)). cbn. apply IH. intros x X. apply H. now right.
Qed.

(** When the library accepts the tables, the merged table has each label
    of the non-empty tables once and no other label, the columns of the
    non-empty tables and no other column, and for a label that was
    repeated the cells of its first row. *)
Lemma merge_result dfs d :
  merge_frames dfs = Ret (Some d) ->
  let valid := filter (fun df => negb (df_empty df)) dfs in
  NoDup (index d)
  /\ (forall l, In l (index d) <-> exists df, In df valid /\ In l (index df))
  /\ column_names d = flat_map column_names valid
  /\ exists c,
       concat_columns valid = Ret c
       /\ d = drop_duplicated c
       /\ forall name col l v,
            In (name, col) (columns c) ->
            In (l, v) (labelled (index d)
                         (keep_rows (map negb (duplicated (index c))) col)) ->
            first_cell l (labelled (index c) col) = Some v.
Proof.
  cbv zeta. unfold merge_frames.
  destruct (filter (fun df => negb (df_empty df)) dfs) as [| v0 valid] eqn:V;
    [discriminate |].
  destruct (concat_columns (v0 :: valid)) as [c | e] eqn:C; [| discriminate].
  intros [= <-].
  destruct (kept_labels_once [] (index c)) as [N K].
  split; [exact N |]. split; [| split].
  - intros l. cbn [drop_duplicated select_rows index]. unfold duplicated.
    rewrite K, (concat_index _ _ C), combined_index_in. split.
    + intros [(idx & I & L) _]. apply in_map_iff in I. destruct I as (df & <- & I).
      now exists df.
    + intros (df & I & L). split; [| tauto].
      exists (index df). split; [now apply in_map | exact L].
  - unfold drop_duplicated, select_rows, column_names at 1. cbn [columns].
    rewrite map_map. cbn [fst]. exact (concat_names _ _ C).
  - exists c. split; [reflexivity | split; [reflexivity |]].
    intros name col l v _ H.
    cbn [drop_duplicated select_rows index] in H.
    rewrite keep_rows_labelled in H.
    now apply (kept_rows_first [] (index c) col l v).
Qed.

(** Tables whose own labels are all distinct are always accepted. *)
Lemma merge_of_unique dfs v0 valid :
  filter (fun df => negb (df_empty df)) dfs = v0 :: valid ->
  (forall df, In df (v0 :: valid) -> is_unique (index df) = true) ->
  exists d, merge_frames dfs = Ret (Some d).
Proof.
  intros V U. unfold merge_frames. rewrite V. unfold concat_columns.
  replace (forallb _ (v0 :: valid)) with true; [eexists; reflexivity |].
  symmetry. apply forallb_forall. intros df I. rewrite (U df I). apply orb_true_r.
Qed.

(** A single table is accepted whatever its labels, and loses the later
    rows of a repeated label. *)
Lemma merge_of_one df :
  df_empty df = false -> merge_frames [df] = Ret (Some (drop_duplicated df)).
Proof.
  intros E. unfold merge_frames. cbn [filter]. rewrite E. cbn [negb].
  unfold concat_columns. cbn [map combined_index fold_left forallb].
  rewrite labels_eqb_refl. cbn [orb andb flat_map common_name forallb].
  unfold reindex. rewrite labels_eqb_refl, app_nil_r. now destruct df.
Qed.

(** C1 at an input that breaks it.  When the clearing prices list
    midnight twice and the marginal prices list midnight and one
    o'clock, the column-wise concatenation refuses the tables, so the
    repeated rows are never collapsed: the merge raises, and the report
    run ends with the library's error and no file. *)
Theorem repeated_timestamp_aborts_merge :
  items_to_dataframe repeated_world repeated_items "ptf_" = Ret repeated_frame
  /\ items_to_dataframe repeated_world hourly_items "smf_" = Ret hourly_frame
  /\ merge_frames [repeated_frame; hourly_frame]
     = Raise (Exn "InvalidIndexError"
                "Reindexing only valid with uniquely valued Index objects")
  /\ fst (run (create_report repeated_world "u" "p" 1 2024)) = Ret None
  /\ In (Shown "Reindexing only valid with uniquely valued Index objects")
        (snd (run (create_report repeated_world "u" "p" 1 2024))).
Proof.
  split; [reflexivity |]. split; [reflexivity |]. split; [reflexivity |].
  split; [vm_compute; reflexivity |].
  apply in_rev. vm_compute. left. reflexivity.
Qed.


(** * Further properties of the program *)

(** ** The default quarter *)

(** X1.  With the clock in a month 1..12, [get_quarter] gives the
    quarter just before the current one: a quarter 1..4 that
    [quarter_to_dates] accepts, whose number in the sequence of quarters
    is one less than the current quarter's, and whose last hour is
    already past. *)
Theorem previous_quarter_is_past (w : world) :
  1 <= mo (now w) <= 12 ->
  1 <= fst (get_quarter w) <= 4
  /\ 4 * snd (get_quarter w) + fst (get_quarter w) + 1
     = 4 * yr (now w) + (mo (now w) + 2) / 3
  /\ quarter_to_dates (get_quarter w)
     = Ret (iso_plus3 (year_start (snd (get_quarter w))),
            iso_plus3 (quarter_end (fst (get_quarter w)) (snd (get_quarter w))))
  /\ stamp_leb (now w) (quarter_end (fst (get_quarter w)) (snd (get_quarter w))) = false.
Proof.
  intros M. unfold get_quarter.
  destruct (now w) as [Y m D h n s]. cbn [mo yr] in *.
  assert (C : m = 1 \/ m = 2 \/ m = 3 \/ (4 <= m <= 6) \/ (7 <= m <= 9) \/ (10 <= m <= 12))
    by lia.
  assert (Q : (m + 2) / 3 = 1 /\ m <= 3 \/ (m + 2) / 3 = 2 /\ 4 <= m <= 6
              \/ (m + 2) / 3 = 3 /\ 7 <= m <= 9 \/ (m + 2) / 3 = 4 /\ 10 <= m).
  { destruct C as [-> | [-> | [-> | [C | [C | C]]]]]; try (left; split; [reflexivity | lia]).
    - right; left. split; [| exact C]. symmetry. apply Z.div_unique with (r := m + 2 - 6); lia.
    - right; right; left. split; [| exact C]. symmetry. apply Z.div_unique with (r := m + 2 - 9); lia.
    - right; right; right. split; [| lia]. symmetry. apply Z.div_unique with (r := m + 2 - 12); lia. }
  clear C.
  destruct Q as [[-> L] | [[-> L] | [[-> L] | [-> L]]]]; cbn [Z.eqb Pos.eqb fst snd Z.sub];
    (split; [lia |]); (split; [lia |]); (split; [reflexivity |]);
    unfold stamp_leb, quarter_end, stamp_fields; cbn [lex_leb yr mo dy hr mi sc].
  - replace (Y <? Y - 1) with false by (symmetry; apply Z.ltb_ge; lia).
    replace (Y =? Y - 1) with false by (symmetry; apply Z.eqb_neq; lia).
    reflexivity.
  - rewrite Z.ltb_irrefl, Z.eqb_refl. cbn [orb andb].
    replace (m <? 3 * (2 - 1)) with false by (symmetry; apply Z.ltb_ge; lia).
    replace (m =? 3 * (2 - 1)) with false by (symmetry; apply Z.eqb_neq; lia).
    reflexivity.
  - rewrite Z.ltb_irrefl, Z.eqb_refl. cbn [orb andb].
    replace (m <? 3 * (3 - 1)) with false by (symmetry; apply Z.ltb_ge; lia).
    replace (m =? 3 * (3 - 1)) with false by (symmetry; apply Z.eqb_neq; lia).
    reflexivity.
  - rewrite Z.ltb_irrefl, Z.eqb_refl. cbn [orb andb].
    replace (m <? 3 * (4 - 1)) with false by (symmetry; apply Z.ltb_ge; lia).
    replace (m =? 3 * (4 - 1)) with false by (symmetry; apply Z.eqb_neq; lia).
    reflexivity.
Qed.

Lemma previous_quarter_is_past_witness :
  1 <= fst (get_quarter (uniform_world 201 "TGT-1" server_error)) <= 4
  /\ 4 * snd (get_quarter (uniform_world 201 "TGT-1" server_error))
       + fst (get_quarter (uniform_world 201 "TGT-1" server_error)) + 1
     = 4 * 2024 + (5 + 2) / 3
  /\ quarter_to_dates (get_quarter (uniform_world 201 "TGT-1" server_error))
     = Ret (iso_plus3 (year_start 2024), iso_plus3 (quarter_end 1 2024))
  /\ stamp_leb sample_now (quarter_end 1 2024) = false.
Proof.
  apply (previous_quarter_is_past (uniform_world 201 "TGT-1" server_error)).
  simpl. lia.
Defined.

(** ** What the contract-name parser accepts *)

Lemma digit_range c x : digit c = Some x -> 0 <= x <= 9.
Proof.
  unfold digit.
  destruct ((48 <=? nat_of_ascii c)%nat && (nat_of_ascii c <=? 57)%nat)%bool eqn:E;
    [| discriminate].
  apply andb_true_iff in E. destruct E as [L U].
  apply Nat.leb_le in L. apply Nat.leb_le in U.
  intros [= <-]. lia.
Qed.

(** Every way a directive of one or two digits matches: the value it
    reads and the number of characters it takes. *)
Lemma two_then_one_spec lo2 hi2 lo1 s v r :
  In (v, r) (two_then_one lo2 hi2 lo1 s) ->
  (lo2 <= v <= hi2 /\ String.length s = S (S (String.length r)))
  \/ (lo1 <= v <= 9 /\ String.length s = S (String.length r)).
Proof.
  unfold two_then_one. intros H. apply in_app_or in H. destruct H as [H | H].
  - left. destruct s as [| a [| b t]]; try destruct H.
    destruct (digit a) as [x |] eqn:A; [| destruct H].
    destruct (digit b) as [y |] eqn:B; [| destruct H].
    destruct ((lo2 <=? 10 * x + y) && (10 * x + y <=? hi2)) eqn:E; [| destruct H].
    destruct H as [H | []]; apply pair_equal_spec in H; destruct H as [<- <-].
    apply andb_true_iff in E. destruct E as [L U].
    apply Z.leb_le in L. apply Z.leb_le in U. split; [lia | reflexivity].
  - right. destruct s as [| a t]; [destruct H |].
    destruct (digit a) as [x |] eqn:A; [| destruct H].
    destruct (lo1 <=? x) eqn:E; [| destruct H].
    destruct H as [H | []]; apply pair_equal_spec in H; destruct H as [<- <-].
    apply Z.leb_le in E. pose proof (digit_range a x A). split; [lia | reflexivity].
Qed.

Lemma match_y_spec s v r :
  In (v, r) (match_y s) -> 0 <= v <= 99 /\ String.length s = S (S (String.length r)).
Proof.
  unfold match_y. destruct s as [| a [| b t]]; try (intros []).
  destruct (digit a) as [x |] eqn:A; [| intros []].
  destruct (digit b) as [y |] eqn:B; [| intros []].
  intros [H | []]; apply pair_equal_spec in H; destruct H as [<- <-].
  pose proof (digit_range a x A). pose proof (digit_range b y B).
  split; [lia | reflexivity].
Qed.

Lemma match_d_spec s v r :
  In (v, r) (match_d s) ->
  1 <= v <= 31
  /\ (String.length s = S (S (String.length r)) \/ String.length s = S (String.length r)).
Proof.
  unfold match_d. intros H. apply in_app_or in H. destruct H as [H | H].
  - apply two_then_one_spec in H. destruct H as [[V L] | [V L]]; (split; [lia | tauto]).
  - destruct s as [| a [| b t]]; try (now destruct H).
    + destruct a as [[] [] [] [] [] [] [] []]; now destruct H.
    + destruct a as [[] [] [] [] [] [] [] []]; try (now destruct H).
      destruct (digit b) as [y |] eqn:B; [| now destruct H].
      destruct (1 <=? y) eqn:E; [| now destruct H].
      destruct H as [H | []]; apply pair_equal_spec in H; destruct H as [<- <-].
      apply Z.leb_le in E. pose proof (digit_range b y B). split; [lia | now left].
Qed.

(** A match of the whole format: the fields it reads and how much of
    the text it takes. *)
Lemma matches_ymdH_spec s y m d h rest :
  In (y, m, d, h, rest) (matches_ymdH s) ->
  0 <= y <= 99 /\ 1 <= m <= 12 /\ 1 <= d <= 31 /\ 0 <= h <= 23
  /\ (String.length rest + 5 <= String.length s <= String.length rest + 8)%nat.
Proof.
  unfold matches_ymdH. intros H.
  apply in_flat_map in H. destruct H as ([vy ry] & Hy & H).
  apply in_flat_map in H. destruct H as ([vm rm] & Hm & H).
  apply in_flat_map in H. destruct H as ([vd rd] & Hd & H).
  apply in_map_iff in H. destruct H as ([vh rh] & E & Hh).
  cbn [fst snd] in *. injection E as <- <- <- <- <-.
  apply match_y_spec in Hy. apply match_d_spec in Hd.
  apply two_then_one_spec in Hm. apply two_then_one_spec in Hh.
  repeat split; try lia.
Qed.

Lemma strptime_ymdH_spec s t :
  strptime_ymdH s = Some t ->
  1969 <= yr t <= 2068 /\ 1 <= mo t <= 12 /\ 1 <= dy t <= days_in_month (yr t) (mo t)
  /\ 0 <= hr t <= 23 /\ mi t = 0 /\ sc t = 0
  /\ (5 <= String.length s <= 8)%nat.
Proof.
  unfold strptime_ymdH.
  destruct (matches_ymdH s) as [| [[[[y m] d] h] rest] l] eqn:E; [discriminate |].
  assert (I : In (y, m, d, h, rest) (matches_ymdH s)) by (rewrite E; now left).
  apply matches_ymdH_spec in I. destruct I as (Y & M & D & H & L).
  destruct (String.eqb rest "") eqn:R; cbn [negb]; [| discriminate].
  apply String.eqb_eq in R. subst rest. cbn [String.length] in L.
  destruct (y <=? 68) eqn:P;
    [apply Z.leb_le in P | apply Z.leb_gt in P];
    (destruct (d <=? days_in_month _ m) eqn:V; [| discriminate]);
    apply Z.leb_le in V; intros E0;
    match type of E0 with Some ?x = Some _ => assert (E1 : x = t) by congruence end;
    subst t; cbn [yr mo dy hr mi sc]; repeat split; lia.
Qed.

Lemma drop_chars_length n s :
  String.length (drop_chars n s) = (String.length s - n)%nat.
Proof.
  revert s. induction n as [| n IH]; intros s; cbn; [lia |].
  destruct s as [| c s]; [reflexivity |]. cbn. apply IH.
Qed.

(** X2.  A time stamp read from a contract name is a real hour: a year
    from 1969 to 2068, a month 1..12, a day that month has, an hour
    0..23, on the hour. *)
Theorem contract_hour_is_valid (c : cell) (t : stamp) :
  contract_time c = Some t ->
  1969 <= yr t <= 2068 /\ 1 <= mo t <= 12 /\ 1 <= dy t <= days_in_month (yr t) (mo t)
  /\ 0 <= hr t <= 23 /\ mi t = 0 /\ sc t = 0.
Proof.
  destruct c as [| q | b | s | j]; cbn [contract_time]; try discriminate.
  intros H. apply strptime_ymdH_spec in H. tauto.
Qed.

Lemma contract_hour_is_valid_witness :
  1969 <= 2023 <= 2068 /\ 1 <= 1 <= 12 /\ 1 <= 1 <= days_in_month 2023 1
  /\ 0 <= 10 <= 23 /\ 0 = 0 /\ 0 = 0.
Proof.
  apply (contract_hour_is_valid (Text "PH23010110") (mkStamp 2023 1 1 10 0 0)).
  reflexivity.
Defined.

(** X3.  Only names of seven to ten characters can parse: two leading
    characters and five to eight more.  A shorter name, a longer one
    (a block contract such as [PB23010110-04]), and a value that is not
    text give no time stamp, so their rows are dropped. *)
Theorem contract_name_length (c : cell) :
  (forall s, c = Text s -> (String.length s < 7 \/ 10 < String.length s)%nat ->
             contract_time c = None)
  /\ ((forall s, c <> Text s) -> contract_time c = None)
  /\ (forall t, contract_time c = Some t ->
        exists s, c = Text s /\ (7 <= String.length s <= 10)%nat).
Proof.
  assert (W : forall s t, contract_time (Text s) = Some t ->
                          (7 <= String.length s <= 10)%nat).
  { intros s t H. cbn [contract_time] in H. apply strptime_ymdH_spec in H.
    destruct H as (_ & _ & _ & _ & _ & _ & L). rewrite drop_chars_length in L. lia. }
  split; [| split].
  - intros s -> L. destruct (contract_time (Text s)) as [t |] eqn:E; [| reflexivity].
    apply W in E. lia.
  - intros N. destruct c; try reflexivity. now destruct (N s).
  - intros t H. destruct c as [| q | b | s | j]; try discriminate H.
    exists s. split; [reflexivity | now apply W in H].
Qed.

Lemma contract_name_length_witness :
  contract_time (Text "PB23010110-04") = None
  /\ contract_time (Num 5) = None
  /\ exists s, Text "PH23010110" = Text s /\ (7 <= String.length s <= 10)%nat.
Proof.
  split; [| split].
  - apply (proj1 (contract_name_length (Text "PB23010110-04")) "PB23010110-04" eq_refl).
    right. cbn. lia.
  - apply (proj1 (proj2 (contract_name_length (Num 5)))). intros s. discriminate.
  - apply (proj2 (proj2 (contract_name_length (Text "PH23010110")))
             (mkStamp 2023 1 1 10 0 0)).
    reflexivity.
Defined.

(** ** One request, and what is read from its answer *)

(** X4.  A call of [make_api_request] sends exactly one request, to the
    endpoint under [BASE_URL] with the given payload and ticket; it
    never sends a second one, never logs in again, and pauses at most
    once, for the fixed delay. *)
Theorem one_request_per_call w tgt endpoint payload tr :
  exists new,
    snd (make_api_request w tgt endpoint payload tr) = (tr ++ new)%list
    /\ posts new = [DataPost (BASE_URL ++ endpoint) payload tgt]
    /\ (List.length (filter is_sleep new) <= 1)%nat
    /\ Forall request_event new.
Proof.
  rewrite make_api_request_run. cbv zeta.
  destruct (data_server w (BASE_URL ++ endpoint) payload tgt) as [r | e].
  - destruct (status_code r =? 200); [destruct (decoded r) |];
      eexists; (split; [reflexivity |]); cbn;
      (split; [reflexivity |]); (split; [lia |]); repeat constructor.
  - eexists. split; [reflexivity |]. cbn. split; [reflexivity |]. split; [lia |].
    repeat constructor.
Qed.

(** The fetch after the request: the lookup of the items in the result. *)
Lemma fetch_after_request w tgt endpoint s e extra key tr result tr1 :
  make_api_request w tgt endpoint (request_payload s e extra) tr = (Ret result, tr1) ->
  fetch_paginated_data w tgt endpoint s e extra key tr
  = match py_get result key (JArr []) with
    | Raise x => (Raise x, tr1)
    | Ret top =>
        let found :=
          if negb (truthy top) then
            match py_get result "body" (JObj []) with
            | Raise x => Raise x
            | Ret body => py_get body key (JArr [])
            end
          else Ret top in
        match found with
        | Raise x => (Raise x, tr1)
        | Ret items =>
            if truthy items then
              match py_len items with
              | Raise x => (Raise x, tr1)
              | Ret n =>
                  (Ret items,
                   (tr1 ++ [Printed ("  ✓ " ++ show_nat n ++ " kayıt çekildi (" ++
                                     last_segment endpoint ++ ")")])%list)
              end
            else (Ret items, tr1)
        end
    end.
Proof.
  intros R. unfold fetch_paginated_data, bind. cbv zeta. rewrite R.
  unfold lift, ret, print, emit.
  destruct (py_get result key (JArr [])) as [top | x]; [| reflexivity].
  destruct (truthy top) eqn:T; cbn [negb].
  - rewrite T. destruct (py_len top); reflexivity.
  - destruct (py_get result "body" (JObj [])) as [body | x]; [| reflexivity].
    destruct (py_get body key (JArr [])) as [items | x]; [| reflexivity].
    destruct (truthy items) eqn:U; [| reflexivity].
    destruct (py_len items); reflexivity.
Qed.

Lemma request_answered w tgt endpoint payload tr r j :
  data_server w (BASE_URL ++ endpoint) payload tgt = Answers r ->
  status_code r = 200 -> decoded r = Some j ->
  make_api_request w tgt endpoint payload tr
  = (Ret j, (tr ++ [DataPost (BASE_URL ++ endpoint) payload tgt; Slept REQUEST_DELAY])%list).
Proof.
  intros A S D. rewrite make_api_request_run. cbv zeta. now rewrite A, S, D.
Qed.

(** X5.  From an answer 200 carrying a JSON object, the fetch returns
    the non-empty list under the items key and ignores [body]; when
    that list is missing, empty or null it returns the list under the
    same key of the [body] object, or the empty list when there is no
    [body] or the [body] has no such key. *)
Theorem item_extraction w tgt endpoint s e extra key tr r fields :
  data_server w (BASE_URL ++ endpoint) (request_payload s e extra) tgt = Answers r ->
  status_code r = 200 -> decoded r = Some (JObj fields) ->
  (forall x l, assoc_last key fields = Some (JArr (x :: l)) ->
     fst (fetch_paginated_data w tgt endpoint s e extra key tr) = Ret (JArr (x :: l)))
  /\ (assoc_last key fields = None \/ assoc_last key fields = Some (JArr [])
      \/ assoc_last key fields = Some JNull ->
      (forall body l, assoc_last "body" fields = Some (JObj body) ->
         assoc_last key body = Some (JArr l) ->
         fst (fetch_paginated_data w tgt endpoint s e extra key tr) = Ret (JArr l))
      /\ (forall body, assoc_last "body" fields = Some (JObj body) ->
         assoc_last key body = None ->
         fst (fetch_paginated_data w tgt endpoint s e extra key tr) = Ret (JArr []))
      /\ (assoc_last "body" fields = None ->
         fst (fetch_paginated_data w tgt endpoint s e extra key tr) = Ret (JArr []))).
Proof.
  intros A S D.
  pose proof (request_answered w tgt endpoint _ tr r _ A S D) as R.
  rewrite (fetch_after_request w tgt endpoint s e extra key tr _ _ R).
  cbv zeta. cbn [py_get]. split.
  - intros x l T. rewrite T. reflexivity.
  - intros T.
    assert (F : match assoc_last key fields with
                | Some v => truthy v = false
                | None => True
                end).
    { destruct T as [-> | [-> | ->]]; [exact I | reflexivity | reflexivity]. }
    split; [| split].
    + intros body l B K.
      destruct (assoc_last key fields) as [v |]; [rewrite F |]; cbn [truthy negb];
        rewrite B; cbn [py_get]; rewrite K; destruct l; reflexivity.
    + intros body B K.
      destruct (assoc_last key fields) as [v |]; [rewrite F |]; cbn [truthy negb];
        rewrite B; cbn [py_get]; rewrite K; reflexivity.
    + intros B.
      destruct (assoc_last key fields) as [v |]; [rewrite F |]; cbn [truthy negb];
        rewrite B; reflexivity.
Qed.

Lemma item_extraction_witness :
  fst (fetch_paginated_data (json_world (JObj [("items", JArr [JNum 1])])) "T" "/x"
         "a" "b" None "items" []) = Ret (JArr [JNum 1])
  /\ fst (fetch_paginated_data
            (json_world (JObj [("body", JObj [("items", JArr [JNum 2])])])) "T" "/x"
            "a" "b" None "items" []) = Ret (JArr [JNum 2])
  /\ fst (fetch_paginated_data
            (json_world (JObj [("items", JNull); ("body", JObj [("total", JNum 0)])])) "T" "/x"
            "a" "b" None "items" []) = Ret (JArr [])
  /\ fst (fetch_paginated_data (json_world (JObj [("items", JArr [])])) "T" "/x"
            "a" "b" None "items" []) = Ret (JArr []).
Proof.
  split; [| split; [| split]].
  - apply (proj1 (item_extraction (json_world (JObj [("items", JArr [JNum 1])])) "T" "/x"
                    "a" "b" None "items" [] _ _ eq_refl eq_refl eq_refl)).
    reflexivity.
  - apply (proj1 (proj2 (item_extraction
                    (json_world (JObj [("body", JObj [("items", JArr [JNum 2])])]))
                    "T" "/x" "a" "b" None "items" [] _ _ eq_refl eq_refl eq_refl)
                    (or_introl eq_refl))
             [("items", JArr [JNum 2])]); reflexivity.
  - apply (proj1 (proj2 (proj2 (item_extraction
                    (json_world (JObj [("items", JNull); ("body", JObj [("total", JNum 0)])]))
                    "T" "/x" "a" "b" None "items" [] _ _ eq_refl eq_refl eq_refl)
                    (or_intror (or_intror eq_refl))))
             [("total", JNum 0)]); reflexivity.
  - apply (proj2 (proj2 (proj2 (item_extraction
                    (json_world (JObj [("items", JArr [])]))
                    "T" "/x" "a" "b" None "items" [] _ _ eq_refl eq_refl eq_refl)
                    (or_intror (or_introl eq_refl))))).
    reflexivity.
Defined.

(** X6.  The fetch is not safe against every answer 200: when the
    decoded JSON is not an object, and when it is an object without a
    usable items list whose [body] is not an object (a null, say), the
    lookup raises [AttributeError] after the request and its pause, and
    nothing catches it. *)
Theorem fetch_raises_on_odd_answer w tgt endpoint s e extra key tr r j :
  data_server w (BASE_URL ++ endpoint) (request_payload s e extra) tgt = Answers r ->
  status_code r = 200 -> decoded r = Some j ->
  let after :=
    (tr ++ [DataPost (BASE_URL ++ endpoint) (request_payload s e extra) tgt;
            Slept REQUEST_DELAY])%list in
  (is_object j = false ->
     fetch_paginated_data w tgt endpoint s e extra key tr
     = (Raise (Exn "AttributeError" "object has no attribute 'get'"), after))
  /\ (forall fields body,
        j = JObj fields -> assoc_last key fields = None ->
        assoc_last "body" fields = Some body -> is_object body = false ->
        fetch_paginated_data w tgt endpoint s e extra key tr
        = (Raise (Exn "AttributeError" "object has no attribute 'get'"), after)).
Proof.
  intros A S D. cbv zeta.
  pose proof (request_answered w tgt endpoint _ tr r _ A S D) as R.
  rewrite (fetch_after_request w tgt endpoint s e extra key tr _ _ R). split.
  - intros O. destruct j; try discriminate O; reflexivity.
  - intros fields body -> K B O. cbn [py_get]. rewrite K. cbn [truthy negb]. rewrite B.
    destruct body; try discriminate O; reflexivity.
Qed.

Lemma fetch_raises_on_odd_answer_witness :
  fetch_paginated_data (json_world (JArr [])) "T" "/x" "a" "b" None "items" []
  = (Raise (Exn "AttributeError" "object has no attribute 'get'"),
     [DataPost (BASE_URL ++ "/x") (request_payload "a" "b" None) "T"; Slept REQUEST_DELAY])
  /\ fetch_paginated_data (json_world (JObj [("body", JNull)])) "T" "/x" "a" "b" None "items" []
  = (Raise (Exn "AttributeError" "object has no attribute 'get'"),
     [DataPost (BASE_URL ++ "/x") (request_payload "a" "b" None) "T"; Slept REQUEST_DELAY]).
Proof.
  split.
  - apply (proj1 (fetch_raises_on_odd_answer (json_world (JArr [])) "T" "/x" "a" "b" None
                    "items" [] _ _ eq_refl eq_refl eq_refl)).
    reflexivity.
  - apply (proj2 (fetch_raises_on_odd_answer (json_world (JObj [("body", JNull)])) "T" "/x"
                    "a" "b" None "items" [] _ _ eq_refl eq_refl eq_refl)
             [("body", JNull)] JNull); reflexivity.
Defined.

(** ** The requests of a download *)

Lemma posts_app a b : posts (a ++ b) = (posts a ++ posts b)%list.
Proof. apply filter_app. Qed.

Lemma sends_ret {A : Type} (a : A) : sends [] (ret a).
Proof.
  intros tr. exists []. cbn. rewrite app_nil_r.
  split; [reflexivity |]. split; [now exists [] | reflexivity].
Qed.

Lemma sends_raise {A : Type} (e : exn) : sends [] (@raise A e).
Proof.
  intros tr. exists []. cbn. rewrite app_nil_r.
  split; [reflexivity |]. split; [now exists [] | reflexivity].
Qed.

Lemma sends_lift {A : Type} (o : outcome A) : sends [] (lift o).
Proof.
  intros tr. exists []. cbn. rewrite app_nil_r.
  split; [reflexivity |]. split; [now exists [] | reflexivity].
Qed.

Lemma sends_emit e : is_data_post e = false -> sends [] (emit e).
Proof.
  intros N tr. exists [e]. cbn. rewrite N.
  split; [reflexivity |]. split; [now exists [] | reflexivity].
Qed.

Lemma sends_bind {A B : Type} (l1 l2 : list event) (c : M A) (k : A -> M B) :
  sends l1 c -> (forall a, sends l2 (k a)) -> sends (l1 ++ l2) (bind c k).
Proof.
  intros C K tr. unfold bind.
  destruct (C tr) as (n1 & S1 & (r1 & P1) & R1).
  destruct (c tr) as [[a | e] t1] eqn:E; cbn [fst snd] in *.
  - specialize (R1 a eq_refl). subst t1.
    destruct (K a (tr ++ n1)%list) as (n2 & S2 & (r2 & P2) & R2).
    exists (n1 ++ n2)%list. rewrite S2, app_assoc, posts_app, R1.
    split; [reflexivity |]. split.
    + exists r2. rewrite P2 at 1. now rewrite app_assoc.
    + intros b Hb. now rewrite (R2 b Hb).
  - exists n1. split; [exact S1 |]. split.
    + exists (r1 ++ l2)%list. rewrite P1 at 1. now rewrite app_assoc.
    + discriminate.
Qed.

Lemma sends_try {A : Type} (c : M A) (h : exn -> M A) :
  sends [] c -> (forall e, sends [] (h e)) -> sends [] (try_except c h).
Proof.
  intros C H tr. unfold try_except.
  destruct (C tr) as (n1 & S1 & (r1 & P1) & _).
  symmetry in P1. apply app_eq_nil in P1. destruct P1 as [P1 _].
  destruct (c tr) as [[a | e] t1] eqn:E; cbn [fst snd] in *.
  - exists n1. rewrite P1. split; [exact S1 |]. split; [now exists [] | reflexivity].
  - subst t1. destruct (H e (tr ++ n1)%list) as (n2 & S2 & (r2 & P2) & _).
    symmetry in P2. apply app_eq_nil in P2. destruct P2 as [P2 _].
    exists (n1 ++ n2)%list. rewrite S2, app_assoc, posts_app, P1, P2.
    split; [reflexivity |]. split; [now exists [] | reflexivity].
Qed.

Lemma sends_bind_eq {A B : Type} (l l1 l2 : list event) (c : M A) (k : A -> M B) :
  sends l1 c -> (forall a, sends l2 (k a)) -> l = (l1 ++ l2)%list -> sends l (bind c k).
Proof. intros C K ->. now apply sends_bind. Qed.

Lemma request_events w tgt endpoint payload tr :
  exists new,
    snd (make_api_request w tgt endpoint payload tr) = (tr ++ new)%list
    /\ posts new = [DataPost (BASE_URL ++ endpoint) payload tgt]
    /\ Forall request_event new.
Proof.
  rewrite make_api_request_run. cbv zeta.
  destruct (data_server w (BASE_URL ++ endpoint) payload tgt) as [r | e].
  - destruct (status_code r =? 200); [destruct (decoded r) |];
      eexists; (split; [reflexivity |]); (split; [reflexivity |]); repeat constructor.
  - eexists. split; [reflexivity |]. split; [reflexivity |]. repeat constructor.
Qed.

Lemma sends_request w tgt endpoint payload :
  sends [DataPost (BASE_URL ++ endpoint) payload tgt]
        (make_api_request w tgt endpoint payload).
Proof.
  intros tr. destruct (request_events w tgt endpoint payload tr) as (new & S & P & _).
  exists new. rewrite P. split; [exact S |]. split; [now exists [] | reflexivity].
Qed.

(** Steps through a computation that sends no request. *)
Ltac sends_none :=
  cbv zeta;
  lazymatch goal with
  | |- sends _ (ret _) => apply sends_ret
  | |- sends _ (raise _) => apply sends_raise
  | |- sends _ (lift _) => apply sends_lift
  | |- sends _ (print _) => apply sends_emit; reflexivity
  | |- sends _ (log _) => apply sends_emit; reflexivity
  | |- sends _ (emit _) => apply sends_emit; reflexivity
  | |- sends _ (bind _ _) =>
      eapply sends_bind_eq; [sends_none | intros; sends_none | reflexivity]
  | |- sends _ (try_except _ _) => apply sends_try; [sends_none | intros; sends_none]
  | |- sends _ (make_api_request _ _ _ _) => apply sends_request
  | |- sends _ (if ?b then _ else _) => destruct b; sends_none
  | |- sends _ (match ?x with _ => _ end) => destruct x; sends_none
  end.

Lemma sends_fetch w tgt endpoint s e :
  sends [category_request tgt s e endpoint] (fetch_items w tgt endpoint s e).
Proof.
  unfold fetch_items, fetch_paginated_data, category_request. cbv zeta.
  change (request_payload s e None) with [("startDate", s); ("endDate", e)].
  eapply sends_bind_eq; [apply sends_request | intros result | reflexivity].
  sends_none.
Qed.

Lemma sends_quantity_frame items : sends [] (quantity_frame items).
Proof. unfold quantity_frame. sends_none. Qed.

(** Steps through the fetchers of [download_data]. *)
Ltac sends_all :=
  cbv zeta;
  lazymatch goal with
  | |- sends _ (fetch_items _ _ _ _ _) => apply sends_fetch
  | |- sends _ (quantity_frame _) => apply sends_quantity_frame
  | |- sends _ (bind _ _) =>
      eapply sends_bind_eq; [sends_all | intros; sends_all | reflexivity]
  | |- sends _ (if ?b then _ else _) => destruct b; sends_all
  | |- sends _ (match ?x with _ => _ end) => destruct x; sends_all
  | |- _ => sends_none
  end.

Lemma sends_download w self :
  sends (category_requests (tgt self) (start_date self) (end_date self))
        (download_data w self).
Proof.
  unfold download_data, fetch_ptf_smf, fetch_smf, fetch_system_direction,
    fetch_bilateral_contracts, fetch_dam_clearing_quantity, fetch_bpm_orders,
    fetch_idm_data, fetch_ancillary_services.
  sends_all.
Qed.

Lemma appends_ret {A : Type} G (a : A) : appends G (ret a).
Proof. intros tr. exists []. cbn. now rewrite app_nil_r. Qed.

Lemma appends_raise {A : Type} G (e : exn) : appends G (@raise A e).
Proof. intros tr. exists []. cbn. now rewrite app_nil_r. Qed.

Lemma appends_lift {A : Type} G (o : outcome A) : appends G (lift o).
Proof. intros tr. exists []. cbn. now rewrite app_nil_r. Qed.

Lemma appends_emit (G : event -> Prop) e : G e -> appends G (emit e).
Proof. intros H tr. exists [e]. split; [reflexivity | now constructor]. Qed.

Lemma appends_bind {A B : Type} G (c : M A) (k : A -> M B) :
  appends G c -> (forall a, appends G (k a)) -> appends G (bind c k).
Proof.
  intros C K tr. unfold bind. destruct (C tr) as (n1 & S1 & F1).
  destruct (c tr) as [[a | e] t1]; cbn [snd] in S1; subst t1.
  - destruct (K a (tr ++ n1)%list) as (n2 & S2 & F2).
    exists (n1 ++ n2)%list. rewrite S2, app_assoc. split; [reflexivity |].
    apply Forall_app. now split.
  - now exists n1.
Qed.

Lemma appends_try {A : Type} G (c : M A) (h : exn -> M A) :
  appends G c -> (forall e, appends G (h e)) -> appends G (try_except c h).
Proof.
  intros C H tr. unfold try_except. destruct (C tr) as (n1 & S1 & F1).
  destruct (c tr) as [[a | e] t1]; cbn [snd] in S1; subst t1.
  - now exists n1.
  - destruct (H e (tr ++ n1)%list) as (n2 & S2 & F2).
    exists (n1 ++ n2)%list. rewrite S2, app_assoc. split; [reflexivity |].
    apply Forall_app. now split.
Qed.

Lemma appends_request w tgt endpoint payload :
  appends request_event (make_api_request w tgt endpoint payload).
Proof.
  intros tr. destruct (request_events w tgt endpoint payload tr) as (new & S & _ & F).
  now exists new.
Qed.

(** Steps through a computation whose events all satisfy the predicate. *)
Ltac appends_all :=
  cbv zeta;
  lazymatch goal with
  | |- appends _ (ret _) => apply appends_ret
  | |- appends _ (raise _) => apply appends_raise
  | |- appends _ (lift _) => apply appends_lift
  | |- appends _ (print _) => apply appends_emit; exact I
  | |- appends _ (log _) => apply appends_emit; exact I
  | |- appends _ (emit _) => apply appends_emit; exact I
  | |- appends _ (bind _ _) => apply appends_bind; [appends_all | intros; appends_all]
  | |- appends _ (try_except _ _) => apply appends_try; [appends_all | intros; appends_all]
  | |- appends _ (make_api_request _ _ _ _) => apply appends_request
  | |- appends _ (if ?b then _ else _) => destruct b; appends_all
  | |- appends _ (match ?x with _ => _ end) => destruct x; appends_all
  end.

Lemma appends_download w self : appends request_event (download_data w self).
Proof.
  unfold download_data, fetch_ptf_smf, fetch_smf, fetch_system_direction,
    fetch_bilateral_contracts, fetch_dam_clearing_quantity, fetch_bpm_orders,
    fetch_idm_data, fetch_ancillary_services, fetch_items, fetch_paginated_data,
    quantity_frame.
  appends_all.
Qed.

(** X7.  Whatever the platform answers, [download_data] asks the
    thirteen category endpoints in one fixed order, each once, each with
    the ticket and the date range of the report; if it raises on the
    way it has asked the first few of them only.  It never logs in
    again, and every pause it makes is the fixed delay. *)
Theorem download_data_requests w self tr :
  exists new,
    snd (download_data w self tr) = (tr ++ new)%list
    /\ (exists rest,
          category_requests (tgt self) (start_date self) (end_date self)
          = (posts new ++ rest)%list)
    /\ (forall self', fst (download_data w self tr) = Ret self' ->
          posts new = category_requests (tgt self) (start_date self) (end_date self))
    /\ Forall request_event new.
Proof.
  destruct (sends_download w self tr) as (new & S & P & R).
  destruct (appends_download w self tr) as (new' & S' & F).
  assert (new' = new) by (apply (app_inv_head tr); congruence). subst new'.
  exists new. repeat split; assumption.
Qed.

(** ** The constructor *)

(** What the constructor does, by the answer to the login. *)
Lemma init_run w u p qi tr :
  init w u p qi tr =
  match auth_server w (credentials u p) with
  | Throws e => (Raise e, (tr ++ login_events u p)%list)
  | Answers r =>
      if status_code r =? 201 then
        let logged_in :=
          (tr ++ login_events u p ++ [Printed "✓ TGT token başarıyla alındı."])%list in
        let chosen :=
          match qi with
          | None => Ret (get_quarter w)
          | Some x =>
              if quarter_accepted x then Ret x
              else Raise (Exn "ValueError"
                            "Tarihleri kontrol ediniz. Çeyrek 1-4, yıl >= 2015 olmalı.")
          end in
        match chosen with
        | Raise e => (Raise e, logged_in)
        | Ret x =>
            match quarter_to_dates x with
            | Raise e => (Raise e, logged_in)
            | Ret dates =>
                (Ret (mkReport u p (strip (text r)) x (fst dates) (snd dates)
                        None None None),
                 (logged_in ++
                  [Logged ("📅 Dönem: " ++ show_Z (snd x) ++ " Q" ++ show_Z (fst x) ++ " (" ++
                           take_chars 10 (fst dates) ++ " - " ++
                           take_chars 10 (snd dates) ++ ")")])%list)
            end
        end
      else (Raise (login_error r), (tr ++ login_events u p)%list)
  end.
Proof.
  unfold init, bind, log, emit. rewrite get_tgt_token_run. unfold login_events.
  cbv zeta.
  destruct (auth_server w (credentials u p)) as [r | e];
    [| now rewrite <- ?app_assoc].
  destruct (status_code r =? 201); [| now rewrite <- ?app_assoc].
  destruct qi as [[q y] |].
  - unfold quarter_accepted. cbn [fst snd].
    destruct ((q =? 1) || (q =? 2) || (q =? 3) || (q =? 4)); cbn [negb orb andb].
    + destruct (y <? 2015); cbn [negb]; [now rewrite <- ?app_assoc |].
      unfold ret, lift. destruct (quarter_to_dates (q, y));
        now rewrite <- ?app_assoc.
    + unfold raise. now rewrite <- ?app_assoc.
  - unfold ret, lift. destruct (quarter_to_dates (get_quarter w));
      now rewrite <- ?app_assoc.
Qed.

Lemma quarter_accepted_iff q y :
  quarter_accepted (q, y) = true <-> 1 <= q <= 4 /\ 2015 <= y.
Proof.
  unfold quarter_accepted. cbn [fst snd].
  rewrite andb_true_iff, !orb_true_iff, negb_true_iff, !Z.eqb_eq, Z.ltb_ge. lia.
Qed.

(** X8.  The constructor checks an explicit quarter only after it has
    logged in: with a quarter outside 1..4 or a year before 2015 and a
    platform that grants the ticket, it raises [ValueError], the login
    request is in the trace, and no data request is. *)
Theorem quarter_checked_after_login w u p q y tr r :
  auth_server w (credentials u p) = Answers r ->
  status_code r = 201 ->
  ~ (1 <= q <= 4 /\ 2015 <= y) ->
  exists new,
    init w u p (Some (q, y)) tr
    = (Raise (Exn "ValueError" "Tarihleri kontrol ediniz. Çeyrek 1-4, yıl >= 2015 olmalı."),
       (tr ++ new)%list)
    /\ In (AuthPost (credentials u p)) new
    /\ posts new = [].
Proof.
  intros A S N. rewrite init_run, A, S. cbn [Z.eqb Pos.eqb]. cbv zeta.
  destruct (quarter_accepted (q, y)) eqn:Q; [apply quarter_accepted_iff in Q; contradiction |].
  eexists. split; [reflexivity |]. split; [| reflexivity].
  apply in_or_app. left. unfold login_events. cbn. tauto.
Qed.

Lemma quarter_checked_after_login_witness :
  exists new,
    init (uniform_world 201 " TGT-1 " server_error) "u" "p" (Some (5, 2024)) []
    = (Raise (Exn "ValueError" "Tarihleri kontrol ediniz. Çeyrek 1-4, yıl >= 2015 olmalı."),
       ([] ++ new)%list)
    /\ In (AuthPost (credentials "u" "p")) new
    /\ posts new = [].
Proof.
  apply (quarter_checked_after_login (uniform_world 201 " TGT-1 " server_error) "u" "p"
           5 2024 [] created); [reflexivity | reflexivity | lia].
Defined.

(** X9.  A report object that the constructor returns holds the ticket
    granted by a 201 answer, stripped; the name and password given; the
    date range [quarter_to_dates] derives from its quarter; no table and
    no summary yet.  Its quarter is the explicit one, which then lies in
    1..4 with a year from 2015 on, or the quarter before the clock's. *)
Theorem constructed_report w u p qi tr self tr' :
  init w u p qi tr = (Ret self, tr') ->
  (exists r, auth_server w (credentials u p) = Answers r /\ status_code r = 201
             /\ tgt self = strip (text r))
  /\ username self = u /\ password self = p
  /\ quarter_to_dates (quarter_info self) = Ret (start_date self, end_date self)
  /\ df self = None /\ ozet self = None /\ final_result self = None
  /\ match qi with
     | Some (q, y) => quarter_info self = (q, y) /\ 1 <= q <= 4 /\ 2015 <= y
     | None => quarter_info self = get_quarter w
     end.
Proof.
  rewrite init_run.
  destruct (auth_server w (credentials u p)) as [r | e]; [| discriminate].
  destruct (status_code r =? 201) eqn:S; [| discriminate].
  apply Z.eqb_eq in S. cbv zeta.
  destruct qi as [[q y] |].
  - destruct (quarter_accepted (q, y)) eqn:Q; [| discriminate].
    apply quarter_accepted_iff in Q.
    destruct (quarter_to_dates (q, y)) as [[s e] |] eqn:D; [| discriminate].
    intros E. assert (E1 : mkReport u p (strip (text r)) (q, y) s e None None None = self)
      by (cbn [fst snd] in E; congruence).
    subst self.
    cbn [tgt username password quarter_info start_date end_date df ozet final_result].
    split; [exists r; auto |]. rewrite D. tauto.
  - destruct (quarter_to_dates (get_quarter w)) as [[s e] |] eqn:D; [| discriminate].
    intros E. assert (E1 : mkReport u p (strip (text r)) (get_quarter w) s e None None None
                           = self) by (cbn [fst snd] in E; congruence).
    subst self.
    cbn [tgt username password quarter_info start_date end_date df ozet final_result].
    split; [exists r; auto |]. rewrite D. tauto.
Qed.

Lemma constructed_report_witness :
  (exists r, auth_server (uniform_world 201 " TGT-1 " server_error) (credentials "u" "p")
             = Answers r /\ status_code r = 201 /\ "TGT-1" = strip (text r))
  /\ "u" = "u" /\ "p" = "p"
  /\ quarter_to_dates (4, 2024)
     = Ret ("2024-01-01T00:00:00+03:00", "2024-12-31T23:00:00+03:00")
  /\ @None DataFrame = None /\ @None (list (string * cell)) = None
  /\ @None (list (string * cell)) = None
  /\ (4, 2024) = (4, 2024) /\ 1 <= 4 <= 4 /\ 2015 <= 2024.
Proof.
  exact (constructed_report (uniform_world 201 " TGT-1 " server_error) "u" "p"
           (Some (4, 2024)) []
           (mkReport "u" "p" "TGT-1" (4, 2024) "2024-01-01T00:00:00+03:00"
              "2024-12-31T23:00:00+03:00" None None None)
           _ eq_refl).
Defined.

Lemma get_quarter_range w :
  1 <= mo (now w) <= 12 -> 1 <= fst (get_quarter w) <= 4.
Proof.
  intros M. unfold get_quarter.
  assert (K : 1 <= (mo (now w) + 2) / 3 < 5).
  { split; [apply Z.div_le_lower_bound; lia | apply Z.div_lt_upper_bound; lia]. }
  destruct ((mo (now w) + 2) / 3 =? 1) eqn:E; cbn [fst]; [lia |].
  apply Z.eqb_neq in E. lia.
Qed.

Lemma previous_quarter_dates w :
  1 <= mo (now w) <= 12 -> exists s e, quarter_to_dates (get_quarter w) = Ret (s, e).
Proof.
  intros M. pose proof (get_quarter_range w M) as R.
  destruct (get_quarter w) as [q y]. cbn [fst] in R.
  assert (q = 1 \/ q = 2 \/ q = 3 \/ q = 4) as [-> | [-> | [-> | ->]]] by lia;
    eexists _, _; reflexivity.
Qed.

(** X10.  Without an explicit quarter the constructor needs only the
    ticket: with the clock in a month 1..12 it returns a report for the
    quarter before the clock's, whatever the year, also for a year
    before 2015, which it would refuse as an explicit one. *)
Theorem default_quarter_is_accepted w u p tr r :
  auth_server w (credentials u p) = Answers r ->
  status_code r = 201 ->
  1 <= mo (now w) <= 12 ->
  exists self tr',
    init w u p None tr = (Ret self, tr')
    /\ quarter_info self = get_quarter w
    /\ tgt self = strip (text r)
    /\ (snd (get_quarter w) < 2015 ->
        exists new,
          init w u p (Some (get_quarter w)) tr
          = (Raise (Exn "ValueError"
                      "Tarihleri kontrol ediniz. Çeyrek 1-4, yıl >= 2015 olmalı."),
             (tr ++ new)%list)).
Proof.
  intros A S M. rewrite !init_run, A, S. cbn [Z.eqb Pos.eqb]. cbv zeta.
  destruct (previous_quarter_dates w M) as (s & e & D). rewrite D.
  eexists _, _. split; [reflexivity |]. split; [reflexivity |]. split; [reflexivity |].
  intros Y. destruct (get_quarter w) as [q y] eqn:G. cbn [snd] in Y.
  destruct (quarter_accepted (q, y)) eqn:Q; [apply quarter_accepted_iff in Q; lia |].
  eexists. reflexivity.
Qed.

Lemma default_quarter_is_accepted_witness :
  exists self tr',
    init early_world "u" "p" None [] = (Ret self, tr')
    /\ quarter_info self = get_quarter early_world
    /\ tgt self = strip (text created)
    /\ (snd (get_quarter early_world) < 2015 ->
        exists new,
          init early_world "u" "p" (Some (get_quarter early_world)) []
          = (Raise (Exn "ValueError"
                      "Tarihleri kontrol ediniz. Çeyrek 1-4, yıl >= 2015 olmalı."),
             ([] ++ new)%list)).
Proof.
  apply (default_quarter_is_accepted early_world "u" "p" [] created);
    [reflexivity | reflexivity | simpl; lia].
Defined.

(** ** The run behind the button *)

Lemma bind_returns {A B : Type} (c : M A) (k : A -> M B) tr b tr' :
  bind c k tr = (Ret b, tr') ->
  exists a t, c tr = (Ret a, t) /\ k a t = (Ret b, tr').
Proof.
  unfold bind. destruct (c tr) as [[a | e] t]; [| discriminate].
  intros H. now exists a, t.
Qed.

Lemma sends_init w u p qi : sends [] (init w u p qi).
Proof. unfold init, get_tgt_token. sends_none. Qed.

Lemma sends_format_data L self : sends [] (format_data L self).
Proof. unfold format_data, indicators, idm_year_price. sends_none. Qed.

Lemma sends_get_excel_bytes self : sends [] (get_excel_bytes self).
Proof. unfold get_excel_bytes. sends_none. Qed.

Lemma appends_format_data L self : appends request_event (format_data L self).
Proof. unfold format_data, indicators, idm_year_price. appends_all. Qed.

Lemma appends_get_excel_bytes self : appends request_event (get_excel_bytes self).
Proof. unfold get_excel_bytes. appends_all. Qed.

Lemma no_login_among (new : list event) :
  Forall request_event new -> filter is_auth_post new = [].
Proof.
  induction 1 as [| e l H _ IH]; [reflexivity |].
  cbn. destruct e; cbn; try exact IH. destruct H.
Qed.

Lemma create_report_steps w u p q y :
  create_report w u p q y
  = if String.eqb u "" || String.eqb p "" then
      emit (Shown "Lütfen kullanıcı adı ve şifre giriniz!") ;; ret None
    else
      try_except
        (emit (Progress 0) ;;
         bcv <- init w u p (Some (q, y)) ;;
         after_login w q y bcv)
        (fun e =>
           emit (Shown ("❌ Bir hata oluştu: " ++ exn_text e)) ;;
           emit (Shown (exn_text e)) ;;
           ret None).
Proof. reflexivity. Qed.

Lemma after_login_events w q y self tr :
  exists new,
    snd (after_login w q y self tr) = (tr ++ new)%list
    /\ (exists rest,
          category_requests (tgt self) (start_date self) (end_date self)
          = (posts new ++ rest)%list)
    /\ filter is_auth_post new = []
    /\ (forall a, fst (after_login w q y self tr) = Ret a ->
          posts new = category_requests (tgt self) (start_date self) (end_date self)
          /\ exists sheets before,
               a = Some (show_Z y ++ "-Q" ++ show_Z q ++ "-Data.xlsx", sheets)
               /\ new = (before ++ success_events)%list).
Proof.
  assert (S : sends (category_requests (tgt self) (start_date self) (end_date self))
                    (after_login w q y self)).
  { unfold after_login.
    eapply sends_bind_eq; [sends_none | intros _ | reflexivity].
    eapply sends_bind_eq; [apply sends_download | intros bcv1 | reflexivity].
    eapply sends_bind_eq; [sends_none | intros _ | reflexivity].
    eapply sends_bind_eq; [apply sends_format_data | intros bcv2 | reflexivity].
    eapply sends_bind_eq; [sends_none | intros _ | reflexivity].
    eapply sends_bind_eq; [apply sends_get_excel_bytes | intros x | reflexivity].
    sends_none. }
  assert (G : appends request_event (after_login w q y self)).
  { unfold after_login.
    apply appends_bind; [appends_all | intros _].
    apply appends_bind; [apply appends_download | intros bcv1].
    apply appends_bind; [appends_all | intros _].
    apply appends_bind; [apply appends_format_data | intros bcv2].
    apply appends_bind; [appends_all | intros _].
    apply appends_bind; [apply appends_get_excel_bytes | intros x].
    appends_all. }
  destruct (S tr) as (new & E & P & R). destruct (G tr) as (new' & E' & F).
  assert (new' = new) by (apply (app_inv_head tr); congruence). subst new'.
  exists new. split; [exact E |]. split; [exact P |].
  split; [now apply no_login_among |].
  intros a H. split; [now apply (R a) |].
  destruct (after_login w q y self tr) as [o t] eqn:K. cbn [fst snd] in *. subst o t.
  unfold after_login in K.
  apply bind_returns in K. destruct K as (? & t1 & K1 & K).
  apply bind_returns in K. destruct K as (bcv1 & t2 & K2 & K).
  apply bind_returns in K. destruct K as (? & t3 & K3 & K).
  apply bind_returns in K. destruct K as (bcv2 & t4 & K4 & K).
  apply bind_returns in K. destruct K as (? & t5 & K5 & K).
  apply bind_returns in K. destruct K as (sheets & t6 & K6 & K).
  unfold bind, emit, ret in K. rewrite app_two in K.
  unfold emit in K1, K3, K5.
  destruct (appends_download w self t1) as (n2 & E2 & _). rewrite K2 in E2.
  destruct (appends_format_data (lib w) bcv1 t3) as (n4 & E4 & _). rewrite K4 in E4.
  destruct (appends_get_excel_bytes bcv2 t5) as (n6 & E6 & _). rewrite K6 in E6.
  cbn [snd] in E2, E4, E6.
  assert (T1 : t1 = (tr ++ [Progress 20])%list) by congruence.
  assert (T3 : t3 = (t2 ++ [Progress 70])%list) by congruence.
  assert (T5 : t5 = (t4 ++ [Progress 90])%list) by congruence.
  exists sheets, ([Progress 20] ++ n2 ++ [Progress 70] ++ n4 ++ [Progress 90] ++ n6)%list.
  split; [congruence |].
  apply (app_inv_head tr).
  assert (T : (tr ++ new)%list = (t6 ++ success_events)%list)
    by (unfold success_events; congruence).
  rewrite T, E6, T5, E4, T3, E2, T1. now rewrite <- !app_assoc.
Qed.

(** The constructor logs in once and asks no data. *)
Lemma init_events w u p qi tr :
  exists n,
    snd (init w u p qi tr) = (tr ++ n)%list
    /\ filter is_auth_post n = [AuthPost (credentials u p)]
    /\ posts n = [].
Proof.
  rewrite init_run.
  destruct (auth_server w (credentials u p)) as [r | e];
    [| eexists; split; [reflexivity | split; reflexivity]].
  destruct (status_code r =? 201);
    [| eexists; split; [reflexivity | split; reflexivity]].
  cbv zeta.
  destruct (match qi with
            | Some x => if quarter_accepted x then Ret x else Raise _
            | None => Ret (get_quarter w)
            end) as [x | e];
    [| eexists; split; [reflexivity | split; reflexivity]].
  destruct (quarter_to_dates x) as [d | e];
    [| eexists; split; [reflexivity | split; reflexivity]].
  eexists. split; [cbn [snd]; rewrite <- app_assoc; reflexivity | split; reflexivity].
Qed.

Lemma init_returned w u p q y tr self tr' :
  init w u p (Some (q, y)) tr = (Ret self, tr') ->
  1 <= q <= 4 /\ 2015 <= y
  /\ exists r s e,
       auth_server w (credentials u p) = Answers r /\ status_code r = 201
       /\ quarter_to_dates (q, y) = Ret (s, e)
       /\ tgt self = strip (text r) /\ start_date self = s /\ end_date self = e.
Proof.
  rewrite init_run.
  destruct (auth_server w (credentials u p)) as [r | e]; [| discriminate].
  destruct (status_code r =? 201) eqn:S; [| discriminate].
  apply Z.eqb_eq in S. cbv zeta.
  destruct (quarter_accepted (q, y)) eqn:Q; [| discriminate].
  apply quarter_accepted_iff in Q.
  destruct (quarter_to_dates (q, y)) as [[s e] |] eqn:D; [| discriminate].
  intros E. assert (E1 : mkReport u p (strip (text r)) (q, y) s e None None None = self)
    by (cbn [fst snd] in E; congruence).
  subst self. split; [tauto |]. split; [tauto |].
  exists r, s, e. cbn [tgt start_date end_date]. tauto.
Qed.

(** X11.  The run behind the button never raises: it returns a file or
    nothing, having logged in at most once.  Without a name or a
    password it only shows a message.  When it returns nothing, the
    last thing it did was to show a message.  When it returns a file,
    the name and password were given, the quarter was in 1..4 and the
    year from 2015 on, the login was answered 201, the thirteen
    category requests were sent in order with the stripped ticket and
    the date range of the quarter, and the run ended with the progress
    at 100 and the success message. *)
Theorem report_run w u p q y tr :
  exists r new,
    create_report w u p q y tr = (Ret r, (tr ++ new)%list)
    /\ (List.length (filter is_auth_post new) <= 1)%nat
    /\ (u = "" \/ p = "" ->
        r = None /\ new = [Shown "Lütfen kullanıcı adı ve şifre giriniz!"])
    /\ (r = None -> exists before msg, new = (before ++ [Shown msg])%list)
    /\ (forall name sheets, r = Some (name, sheets) ->
          name = show_Z y ++ "-Q" ++ show_Z q ++ "-Data.xlsx"
          /\ u <> "" /\ p <> "" /\ 1 <= q <= 4 /\ 2015 <= y
          /\ exists resp s e before,
               auth_server w (credentials u p) = Answers resp
               /\ status_code resp = 201
               /\ quarter_to_dates (q, y) = Ret (s, e)
               /\ filter is_auth_post new = [AuthPost (credentials u p)]
               /\ posts new = category_requests (strip (text resp)) s e
               /\ new = (before ++ success_events)%list).
Proof.
  rewrite create_report_steps.
  destruct (String.eqb u "") eqn:U.
  { apply String.eqb_eq in U. subst u. cbn [orb]. unfold bind, emit, ret.
    eexists _, _. split; [reflexivity |]. split; [cbn; lia |].
    split; [intros _; split; reflexivity |].
    split; [intros _; exists [], "Lütfen kullanıcı adı ve şifre giriniz!"; reflexivity
           | discriminate]. }
  destruct (String.eqb p "") eqn:P.
  { apply String.eqb_eq in P. subst p. cbn [orb]. unfold bind, emit, ret.
    eexists _, _. split; [reflexivity |]. split; [cbn; lia |].
    split; [intros _; split; reflexivity |].
    split; [intros _; exists [], "Lütfen kullanıcı adı ve şifre giriniz!"; reflexivity
           | discriminate]. }
  apply String.eqb_neq in U. apply String.eqb_neq in P. cbn [orb].
  unfold try_except. unfold bind at 1, emit at 1. unfold bind at 1.
  destruct (init_events w u p (Some (q, y)) (tr ++ [Progress 0])%list) as (n1 & E1 & A1 & P1).
  destruct (init w u p (Some (q, y)) (tr ++ [Progress 0])%list) as [[self | x] t1] eqn:I;
    cbn [snd] in E1; subst t1.
  - destruct (init_returned _ _ _ _ _ _ _ _ I) as (Q & Y & resp & s & e & A & S & D & T & Ds & De).
    destruct (after_login_events w q y self ((tr ++ [Progress 0]) ++ n1)%list)
      as (n2 & E2 & _ & A2 & R2).
    destruct (after_login w q y self ((tr ++ [Progress 0]) ++ n1)%list) as [[a | x] t2] eqn:K;
      cbn [fst snd] in *; subst t2.
    + destruct (R2 a eq_refl) as (P2 & sheets & before & -> & N2).
      exists (Some (show_Z y ++ "-Q" ++ show_Z q ++ "-Data.xlsx", sheets)),
             ([Progress 0] ++ n1 ++ n2)%list.
      split; [now rewrite <- !app_assoc |].
      split; [cbn [app filter is_auth_post]; rewrite filter_app, A1, A2; cbn; lia |].
      split; [intros [-> | ->]; contradiction |].
      split; [discriminate |].
      intros name sheets' E. injection E as <- <-.
      repeat (split; [tauto || reflexivity |]).
      exists resp, s, e, ([Progress 0] ++ n1 ++ before)%list.
      split; [exact A |]. split; [exact S |]. split; [exact D |].
      split; [cbn [app filter is_auth_post]; now rewrite filter_app, A1, A2 |].
      split.
      * cbn [app]. unfold posts in *. cbn [filter is_data_post].
        rewrite filter_app, P1, P2, T, Ds, De. reflexivity.
      * rewrite N2. now rewrite <- !app_assoc.
    + unfold bind, emit, ret.
      exists None, ([Progress 0] ++ n1 ++ n2 ++
                    [Shown ("❌ Bir hata oluştu: " ++ exn_text x); Shown (exn_text x)])%list.
      split; [now rewrite <- !app_assoc |].
      split; [cbn [app filter is_auth_post]; rewrite !filter_app, A1, A2; cbn; lia |].
      split; [intros [-> | ->]; contradiction |].
      split; [| discriminate].
      intros _. exists ([Progress 0] ++ n1 ++ n2 ++
                        [Shown ("❌ Bir hata oluştu: " ++ exn_text x)])%list, (exn_text x).
      now rewrite <- !app_assoc.
  - unfold bind, emit, ret.
    exists None, ([Progress 0] ++ n1 ++
                  [Shown ("❌ Bir hata oluştu: " ++ exn_text x); Shown (exn_text x)])%list.
    split; [now rewrite <- !app_assoc |].
    split; [cbn [app filter is_auth_post]; rewrite !filter_app, A1; cbn; lia |].
    split; [intros [-> | ->]; contradiction |].
    split; [| discriminate].
    intros _. exists ([Progress 0] ++ n1 ++
                      [Shown ("❌ Bir hata oluştu: " ++ exn_text x)])%list, (exn_text x).
    now rewrite <- !app_assoc.
Qed.

Lemma report_run_witness :
  exists r new,
    create_report (uniform_world 201 " TGT-1 " server_error) "u" "p" 4 2024 []
    = (Ret r, ([] ++ new)%list)
    /\ (List.length (filter is_auth_post new) <= 1)%nat
    /\ ("u" = "" \/ "p" = "" ->
        r = None /\ new = [Shown "Lütfen kullanıcı adı ve şifre giriniz!"])
    /\ (r = None -> exists before msg, new = (before ++ [Shown msg])%list)
    /\ (forall name sheets, r = Some (name, sheets) ->
          name = show_Z 2024 ++ "-Q" ++ show_Z 4 ++ "-Data.xlsx"
          /\ "u" <> "" /\ "p" <> "" /\ 1 <= 4 <= 4 /\ 2015 <= 2024
          /\ exists resp s e before,
               auth_server (uniform_world 201 " TGT-1 " server_error) (credentials "u" "p")
               = Answers resp
               /\ status_code resp = 201
               /\ quarter_to_dates (4, 2024) = Ret (s, e)
               /\ filter is_auth_post new = [AuthPost (credentials "u" "p")]
               /\ posts new = category_requests (strip (text resp)) s e
               /\ new = (before ++ success_events)%list).
Proof.
  exact (report_run (uniform_world 201 " TGT-1 " server_error) "u" "p" 4 2024 []).
Defined.

(** ** The table of a category *)

Lemma all_some_length {A : Type} (l : list (option A)) r :
  all_some l = Some r -> List.length r = List.length l.
Proof.
  revert r. induction l as [| [a |] l IH]; intros r; cbn; try discriminate.
  - now intros [= <-].
  - destruct (all_some l) as [r' |]; [| discriminate].
    intros [= <-]. cbn. now rewrite (IH r').
Qed.

Lemma filter_keyed {B : Type} (P : string -> bool) (f : string -> B) keys :
  filter (fun p => P (fst p)) (map (fun k => (k, f k)) keys)
  = map (fun k => (k, f k)) (filter P keys).
Proof.
  induction keys as [| k keys IH]; [reflexivity |].
  cbn. destruct (P k); cbn; now rewrite IH.
Qed.

Lemma filter_absent (name : string) keys :
  existsb (String.eqb name) keys = false ->
  filter (fun k => negb (String.eqb name k)) keys = keys.
Proof.
  induction keys as [| k keys IH]; [reflexivity |].
  cbn. destruct (String.eqb name k); cbn; [discriminate |].
  intros H. now rewrite IH.
Qed.

Lemma in_keys_exists (name : string) keys :
  existsb (String.eqb name) keys = true <-> In name keys.
Proof.
  rewrite existsb_exists. split.
  - intros (k & I & E). apply String.eqb_eq in E. now subst.
  - intros I. exists name. split; [exact I | apply String.eqb_refl].
Qed.

Lemma filter_both {A : Type} (P Q : A -> bool) (l : list A) :
  filter P (filter Q l) = filter (fun x => P x && Q x) l.
Proof.
  induction l as [| x l IH]; [reflexivity |].
  cbn. destruct (Q x); cbn; [destruct (P x); cbn; now rewrite IH |].
  rewrite andb_false_r. exact IH.
Qed.

(** The last two steps of [items_to_dataframe]: drop [hour], add the
    prefix. *)
Lemma hour_and_prefix (rs : list record) prefix idx nm ks :
  (let df := mkFrame idx nm (map (fun k => (k, map (field k) rs)) ks) in
   let df := if has_column "hour" df then drop_column "hour" df else df in
   if negb (String.eqb prefix "") then rename_columns (fun c => prefix ++ c) df else df)
  = mkFrame idx nm
      (map (fun k => (prefix ++ k, map (field k) rs))
         (filter (fun k => negb (String.eqb "hour" k)) ks)).
Proof.
  cbv zeta. unfold has_column, column_names. cbn [columns]. rewrite map_map. cbn [fst].
  rewrite map_id.
  assert (H : (if existsb (String.eqb "hour") ks
               then drop_column "hour"
                      (mkFrame idx nm (map (fun k => (k, map (field k) rs)) ks))
               else mkFrame idx nm (map (fun k => (k, map (field k) rs)) ks))
              = mkFrame idx nm
                  (map (fun k => (k, map (field k) rs))
                     (filter (fun k => negb (String.eqb "hour" k)) ks))).
  { destruct (existsb (String.eqb "hour") ks) eqn:E.
    - unfold drop_column. cbn [index index_name columns]. f_equal.
      apply (filter_keyed (fun k => negb (String.eqb "hour" k))).
    - now rewrite filter_absent. }
  rewrite H. destruct (String.eqb prefix "") eqn:P; cbn [negb].
  - apply String.eqb_eq in P. subst prefix. reflexivity.
  - unfold rename_columns. cbn [index index_name columns]. f_equal.
    now rewrite map_map.
Qed.

(** The table [items_to_dataframe] makes of a non-empty list of
    records, in full. *)
Lemma items_to_dataframe_records w (rs : list record) prefix :
  rs <> [] ->
  items_to_dataframe w (JArr (map JObj rs)) prefix
  = if existsb (String.eqb "date") (record_keys rs) then
      match all_some (map (to_datetime w) (map (field "date") rs)) with
      | Some labels =>
          Ret (mkFrame labels (Some "date")
                 (map (fun k => (prefix ++ k, map (field k) rs))
                    (filter value_key (record_keys rs))))
      | None => Raise (Exn "ValueError" "to_datetime")
      end
    else Ret (mkFrame (map Pos (seq 0 (List.length rs))) None
                (map (fun k => (prefix ++ k, map (field k) rs))
                   (filter value_key (record_keys rs)))).
Proof.
  intros N. unfold items_to_dataframe.
  replace (truthy (JArr (map JObj rs))) with true
    by (destruct rs; [contradiction | reflexivity]).
  cbn [negb]. unfold frame_of_items, records_of. rewrite records_of_objects.
  cbv zeta. unfold has_column at 1, column_names, frame_of_records. cbn [columns].
  rewrite map_map. cbn [fst]. rewrite map_id.
  destruct (existsb (String.eqb "date") (record_keys rs)) eqn:D.
  - rewrite get_column_of_keys with (f := fun k => map (field k) rs)
      by (now apply in_keys_exists).
    destruct (all_some (map (to_datetime w) (map (field "date") rs))) as [labels |];
      [| reflexivity].
    unfold set_date_index. cbn [columns].
    rewrite (filter_keyed (fun k => negb (String.eqb "date" k))).
    f_equal.
    rewrite (hour_and_prefix rs prefix labels (Some "date")).
    f_equal. f_equal. apply filter_both.
  - f_equal. rewrite (hour_and_prefix rs prefix). f_equal. f_equal.
    apply filter_ext_in. intros k I. unfold value_key.
    destruct (String.eqb "date" k) eqn:E; [| now rewrite andb_true_r].
    apply String.eqb_eq in E. subst k. apply in_keys_exists in I. congruence.
Qed.

Lemma all_some_map {A : Type} (l : list (option A)) r :
  all_some l = Some r -> l = map Some r.
Proof.
  revert r. induction l as [| [a |] l IH]; intros r; cbn; try discriminate.
  - now intros [= <-].
  - destruct (all_some l) as [r' |]; [| discriminate].
    intros [= <-]. cbn. now rewrite (IH r').
Qed.

Lemma all_some_none {A : Type} (l : list (option A)) :
  In None l -> all_some l = None.
Proof.
  induction l as [| [a |] l IH]; intros H; [destruct H | | reflexivity].
  destruct H as [H | H]; [discriminate |]. cbn. now rewrite IH.
Qed.

Lemma keyed_columns_rectangular (rs : list record) idx nm (g : string -> string) ks :
  List.length idx = List.length rs ->
  rectangular (mkFrame idx nm (map (fun k => (g k, map (field k) rs)) ks)).
Proof.
  intros L. unfold rectangular. cbn [columns index]. apply Forall_forall.
  intros [n c] I. apply in_map_iff in I. destruct I as (k & E & _).
  injection E as <- <-. cbn [snd]. now rewrite length_map.
Qed.

(** X12.  From a non-empty list of records [items_to_dataframe] makes a
    table with one row per record and one column per field other than
    [hour] and [date], named by the prefix and the field and holding the
    records' values in order, NaN where a record lacks the field.  With
    a [date] field the rows are labelled by the converted dates and the
    index is called [date]; without one they are labelled 0, 1, 2, ...
    A date that cannot be converted makes the function raise.  A falsy
    item list gives the empty table. *)
Theorem category_table w (rs : list record) prefix :
  rs <> [] ->
  (forall df,
     items_to_dataframe w (JArr (map JObj rs)) prefix = Ret df ->
     columns df = map (fun k => (prefix ++ k, map (field k) rs))
                    (filter value_key (record_keys rs))
     /\ List.length (index df) = List.length rs
     /\ rectangular df
     /\ (In "date" (record_keys rs) ->
         index_name df = Some "date"
         /\ map Some (index df) = map (fun r => to_datetime w (field "date" r)) rs)
     /\ (~ In "date" (record_keys rs) ->
         index df = map Pos (seq 0 (List.length rs))))
  /\ (In "date" (record_keys rs) ->
      (exists r, In r rs /\ to_datetime w (field "date" r) = None) ->
      items_to_dataframe w (JArr (map JObj rs)) prefix
      = Raise (Exn "ValueError" "to_datetime"))
  /\ (forall items, truthy items = false ->
      items_to_dataframe w items prefix = Ret empty_frame).
Proof.
  intros N. rewrite (items_to_dataframe_records w rs prefix N).
  split; [| split].
  - intros df.
    destruct (existsb (String.eqb "date") (record_keys rs)) eqn:D.
    + apply in_keys_exists in D.
      destruct (all_some (map (to_datetime w) (map (field "date") rs))) as [labels |] eqn:A;
        [| discriminate].
      intros [= <-]. cbn [columns index index_name].
      assert (L : List.length labels = List.length rs).
      { apply all_some_length in A. now rewrite A, !length_map. }
      split; [reflexivity |]. split; [exact L |].
      split; [now apply keyed_columns_rectangular |].
      split; [| contradiction].
      intros _. split; [reflexivity |].
      apply all_some_map in A. now rewrite <- A, map_map.
    + assert (ND : ~ In "date" (record_keys rs)).
      { intros I. apply in_keys_exists in I. congruence. }
      intros [= <-]. cbn [columns index index_name].
      split; [reflexivity |]. split; [now rewrite length_map, length_seq |].
      split; [apply keyed_columns_rectangular; now rewrite length_map, length_seq |].
      split; [contradiction | reflexivity].
  - intros D (r & I & F). apply in_keys_exists in D. rewrite D.
    rewrite all_some_none; [reflexivity |].
    rewrite map_map. apply in_map_iff. exists r. now split.
  - intros items F. unfold items_to_dataframe. now rewrite F.
Qed.

Lemma category_table_witness :
  (columns (mkFrame [At midnight; At one_o_clock] (Some "date")
              [("ptf_price", [Num 10%Q; Num 20%Q])])
   = map (fun k => ("ptf_" ++ k, map (field k) sample_prices))
       (filter value_key (record_keys sample_prices))
   /\ List.length [At midnight; At one_o_clock] = List.length sample_prices)
  /\ items_to_dataframe (uniform_world 201 "T" server_error)
       (JArr (map JObj [[("date", JStr "yesterday")]])) "ptf_"
     = Raise (Exn "ValueError" "to_datetime")
  /\ items_to_dataframe (uniform_world 201 "T" server_error) (JArr []) "ptf_"
     = Ret empty_frame.
Proof.
  split; [| split].
  - pose proof (proj1 (category_table (uniform_world 201 "T" server_error) sample_prices
                         "ptf_" ltac:(discriminate))
                  (mkFrame [At midnight; At one_o_clock] (Some "date")
                     [("ptf_price", [Num 10%Q; Num 20%Q])]) eq_refl) as H.
    split; [exact (proj1 H) | exact (proj1 (proj2 H))].
  - apply (proj1 (proj2 (category_table (uniform_world 201 "T" server_error)
                           [[("date", JStr "yesterday")]] "ptf_" ltac:(discriminate)))).
    + left. reflexivity.
    + eexists. split; [left; reflexivity | reflexivity].
  - apply (proj2 (proj2 (category_table (uniform_world 201 "T" server_error)
                           sample_prices "ptf_" ltac:(discriminate)))).
    reflexivity.
Defined.

(** ** The matching-quantity table on awkward contract names *)

Lemma add_keys_from seen ks k :
  In k (add_keys seen ks) -> In k seen \/ In k ks.
Proof.
  revert seen. induction ks as [| x ks IH]; intros seen H; [now left |].
  cbn in H. destruct (existsb (String.eqb x) seen).
  - destruct (IH seen H) as [I | I]; [now left | right; now right].
  - destruct (IH _ H) as [I | I]; [| right; now right].
    apply in_app_or in I. destruct I as [I | [-> | []]]; [now left | right; now left].
Qed.

Lemma record_keys_from (rs : list record) k :
  In k (record_keys rs) -> exists r, In r rs /\ In k (map fst r).
Proof.
  unfold record_keys.
  assert (G : forall seen,
             In k (fold_left (fun seen (r : record) => add_keys seen (map fst r)) rs seen) ->
             In k seen \/ exists r, In r rs /\ In k (map fst r)).
  { induction rs as [| x rs IH]; intros seen H; [now left |].
    cbn in H. destruct (IH _ H) as [I | (r & I & K)].
    - destruct (add_keys_from _ _ _ I) as [J | J]; [now left |].
      right. exists x. split; [now left | exact J].
    - right. exists r. split; [now right | exact K]. }
  intros H. destruct (G [] H) as [[] | E]. exact E.
Qed.

Lemma assoc_last_absent {A : Type} k (l : list (string * A)) :
  assoc_last k l = None -> ~ In k (map fst l).
Proof.
  induction l as [| [k' v] l IH]; cbn; [tauto |].
  destruct (assoc_last k l); [discriminate |].
  destruct (String.eqb k k') eqn:E; [discriminate |].
  intros _ [-> | I]; [now rewrite String.eqb_refl in E | now apply IH].
Qed.

(** The matching-quantity table of a non-empty record list, in full. *)
Lemma quantity_frame_records (rs : list record) tr :
  rs <> [] ->
  quantity_frame (JArr (map JObj rs)) tr
  = if existsb (String.eqb "kontratAdi") (record_keys rs) then
      match index_by_contract (frame_of_records rs) with
      | Ret d => (Ret (rename_columns (fun c => "idm_" ++ c) d), tr)
      | Raise e =>
          (Ret (unindexed_quantities rs),
           (tr ++ [Printed ("  ! GİP Tarih ayrıştırma hatası: " ++ exn_text e)])%list)
      end
    else (Ret (unindexed_quantities rs), tr).
Proof.
  intros N. unfold quantity_frame.
  replace (truthy (JArr (map JObj rs))) with true
    by (destruct rs; [contradiction | reflexivity]).
  unfold frame_of_items, records_of. rewrite records_of_objects.
  unfold bind, lift, ret, try_except, print, emit.
  unfold has_column, column_names. unfold frame_of_records at 1. cbn [columns].
  rewrite map_map. cbn [fst]. rewrite map_id.
  assert (U : rename_columns (fun c => "idm_" ++ c) (frame_of_records rs)
              = unindexed_quantities rs).
  { unfold rename_columns, frame_of_records, unindexed_quantities.
    cbn [index index_name columns]. now rewrite map_map. }
  destruct (existsb (String.eqb "kontratAdi") (record_keys rs)).
  - destruct (index_by_contract (frame_of_records rs)); [reflexivity |].
    now rewrite U.
  - now rewrite U.
Qed.

Lemma keep_none {A : Type} (mask : list bool) (l : list A) :
  (forall b, In b mask -> b = false) -> keep_rows mask l = [].
Proof.
  revert l. induction mask as [| b mask IH]; intros l H; [reflexivity |].
  destruct l as [| x l]; [reflexivity |].
  cbn. rewrite (H b (or_introl eq_refl)). apply IH. intros c I. apply H. now right.
Qed.

(** X13.  When no record carries a [kontratAdi] field the
    matching-quantity table keeps every record under positional labels
    and every field, [hour] and [date] among them, under the [idm_]
    prefix.  When the [kontratAdi] values are all numbers the [.str]
    accessor fails, the failure is printed and the same positional
    table is kept.  When they are all text and none parses, the table
    has no row left, counts as empty and takes no part in the merge. *)
Theorem quantity_table_edges (rs : list record) tr :
  rs <> [] ->
  ((forall r, In r rs -> assoc_last "kontratAdi" r = None) ->
     quantity_frame (JArr (map JObj rs)) tr = (Ret (unindexed_quantities rs), tr))
  /\ ((forall r, In r rs -> exists q, assoc_last "kontratAdi" r = Some (JNum q)) ->
     quantity_frame (JArr (map JObj rs)) tr
     = (Ret (unindexed_quantities rs), (tr ++ [accessor_warning])%list))
  /\ ((forall r, In r rs -> exists s, assoc_last "kontratAdi" r = Some (JStr s)
                                      /\ contract_time (Text s) = None) ->
     exists d,
       quantity_frame (JArr (map JObj rs)) tr = (Ret d, tr)
       /\ index d = [] /\ df_empty d = true
       /\ forall dfs, merge_frames (d :: dfs) = merge_frames dfs).
Proof.
  intros N. rewrite (quantity_frame_records rs tr N). split; [| split].
  - intros A.
    destruct (existsb (String.eqb "kontratAdi") (record_keys rs)) eqn:K; [| reflexivity].
    exfalso. apply in_keys_exists in K. apply record_keys_from in K.
    destruct K as (r & I & J). exact (assoc_last_absent _ _ (A r I) J).
  - intros A.
    assert (K : In "kontratAdi" (record_keys rs)).
    { destruct rs as [| r rs]; [contradiction |].
      destruct (A r (or_introl eq_refl)) as (q & S).
      apply (record_keys_has (r :: rs) r); [now left | now apply assoc_last_key in S]. }
    apply in_keys_exists in K. rewrite K.
    unfold index_by_contract, frame_of_records. cbn [columns].
    rewrite (get_column_of_keys (fun k => map (field k) rs))
      by (now apply in_keys_exists).
    assert (S : str_accessor_ok (map (field "kontratAdi") rs) = false).
    { unfold str_accessor_ok.
      assert (P : filter (fun c => negb (is_na c)) (map (field "kontratAdi") rs)
                  = map (field "kontratAdi") rs).
      { apply forallb_filter_id. apply forallb_forall. intros c I.
        apply in_map_iff in I. destruct I as (r & <- & I).
        destruct (A r I) as (q & E). unfold field. now rewrite E. }
      rewrite P.
      assert (F : forallb is_num (map (field "kontratAdi") rs) = true).
      { apply forallb_forall. intros c I. apply in_map_iff in I.
        destruct I as (r & <- & I). destruct (A r I) as (q & E).
        unfold field. now rewrite E. }
      rewrite F. destruct rs; [contradiction | reflexivity]. }
    rewrite S. reflexivity.
  - intros A.
    assert (K : In "kontratAdi" (record_keys rs)).
    { destruct rs as [| r rs]; [contradiction |].
      destruct (A r (or_introl eq_refl)) as (s & S & _).
      apply (record_keys_has (r :: rs) r); [now left | now apply assoc_last_key in S]. }
    apply in_keys_exists in K. rewrite K.
    unfold index_by_contract, frame_of_records. cbn [columns].
    rewrite (get_column_of_keys (fun k => map (field k) rs))
      by (now apply in_keys_exists).
    rewrite text_column_has_str.
    + eexists. split; [reflexivity |].
      assert (E : keep_rows
                    (map not_nat
                       (map (fun c => label_of_time (contract_time c))
                          (map (field "kontratAdi") rs)))
                    (map (fun c => label_of_time (contract_time c))
                       (map (field "kontratAdi") rs)) = []).
      { apply keep_none. intros b I. rewrite !map_map in I. apply in_map_iff in I.
        destruct I as (r & <- & I). destruct (A r I) as (s & S & T).
        unfold field. rewrite S. cbn [cell_of_json]. now rewrite T. }
      cbn [rename_columns set_date_index index]. rewrite E.
      split; [reflexivity |]. split; [reflexivity |].
      intros dfs. unfold merge_frames. cbn [filter df_empty index negb]. reflexivity.
    + destruct rs; [contradiction | discriminate].
    + intros c I. apply in_map_iff in I. destruct I as (r & <- & I).
      destruct (A r I) as (s & S & _). exists s. unfold field. now rewrite S.
Qed.

Lemma quantity_table_edges_witness :
  quantity_frame (JArr (map JObj sample_unnamed)) []
  = (Ret (unindexed_quantities sample_unnamed), [])
  /\ quantity_frame (JArr (map JObj sample_numbered)) []
     = (Ret (unindexed_quantities sample_numbered), ([] ++ [accessor_warning])%list)
  /\ exists d,
       quantity_frame (JArr (map JObj sample_blocks)) [] = (Ret d, [])
       /\ index d = [] /\ df_empty d = true
       /\ forall dfs, merge_frames (d :: dfs) = merge_frames dfs.
Proof.
  split; [| split].
  - apply (proj1 (quantity_table_edges sample_unnamed [] ltac:(discriminate))).
    intros r [<- | [<- | []]]; reflexivity.
  - apply (proj1 (proj2 (quantity_table_edges sample_numbered [] ltac:(discriminate)))).
    intros r [<- | []]. eexists. reflexivity.
  - apply (proj2 (proj2 (quantity_table_edges sample_blocks [] ltac:(discriminate)))).
    intros r [<- | [<- | []]]; eexists; split; reflexivity.
Defined.

(** ** The cells of the merged table *)

Lemma labels_eqb_eq a b : labels_eqb a b = true -> a = b.
Proof.
  revert b. induction a as [| x a IH]; intros [| y b]; cbn; try discriminate.
  - reflexivity.
  - intros H. apply andb_true_iff in H. destruct H as [E L].
    apply label_eqb_eq in E. subst. now rewrite (IH b L).
Qed.

Lemma position_in l idx : In l idx -> exists i, position l idx = Some i.
Proof.
  induction idx as [| x idx IH]; intros H; [destruct H |].
  cbn. destruct (label_eqb l x) eqn:E; [now exists O |].
  destruct H as [-> | H]; [now rewrite label_eqb_refl in E |].
  destruct (IH H) as (i & ->). now exists (S i).
Qed.

Lemma position_nth l idx i : position l idx = Some i -> nth_error idx i = Some l.
Proof.
  revert i. induction idx as [| x idx IH]; intros i; cbn; [discriminate |].
  destruct (label_eqb l x) eqn:E.
  - intros [= <-]. apply label_eqb_eq in E. now subst.
  - destruct (position l idx) as [n |]; [| discriminate].
    intros [= <-]. cbn. now apply IH.
Qed.

(** Laying a column out on other labels keeps the cell of each label. *)
Lemma cell_at_reindexed idx target col l :
  In l target ->
  cell_at target (reindex_column idx target col) l = cell_at idx col l.
Proof.
  intros I. unfold cell_at at 1. destruct (position_in l target I) as (j & P).
  rewrite P. apply position_nth in P. unfold reindex_column.
  rewrite (nth_error_nth _ _ NA
             (map_nth_error (fun l0 => match position l0 idx with
                                       | Some i => nth i col NA
                                       | None => NA
                                       end) j target P)).
  reflexivity.
Qed.

(** Dropping the later rows of repeated labels keeps the cell of the
    first row of each label. *)
Lemma cell_at_kept seen idx col l :
  ~ In l seen ->
  cell_at (keep_rows (map negb (duplicated_from seen idx)) idx)
          (keep_rows (map negb (duplicated_from seen idx)) col) l
  = cell_at idx col l.
Proof.
  revert seen col. induction idx as [| x idx IH]; intros seen col N.
  - reflexivity.
  - destruct col as [| c col].
    + assert (E : forall (i : list label), cell_at i [] l = NA).
      { intros i. unfold cell_at. destruct (position l i) as [[| n] |]; reflexivity. }
      replace (keep_rows (map negb (duplicated_from seen (x :: idx))) (@nil cell))
        with (@nil cell) by reflexivity.
      now rewrite !E.
    + cbn [duplicated_from map keep_rows].
      assert (T : cell_at (x :: idx) (c :: col) l
                  = if label_eqb l x then c else cell_at idx col l).
      { unfold cell_at. cbn [position]. destruct (label_eqb l x); [reflexivity |].
        destruct (position l idx); reflexivity. }
      destruct (mem_label x seen) eqn:M; cbn [negb].
      * rewrite T. destruct (label_eqb l x) eqn:E.
        -- apply label_eqb_eq in E. subst x. apply mem_label_iff in M. contradiction.
        -- apply IH. intros [-> | S]; [now rewrite label_eqb_refl in E | contradiction].
      * rewrite T.
        assert (T' : forall i' c', cell_at (x :: i') (c :: c') l
                                   = if label_eqb l x then c else cell_at i' c' l).
        { intros i' c'. unfold cell_at. cbn [position].
          destruct (label_eqb l x); [reflexivity |].
          destruct (position l i'); reflexivity. }
        rewrite T'. destruct (label_eqb l x) eqn:E; [reflexivity |].
        apply IH. intros [-> | S]; [now rewrite label_eqb_refl in E | contradiction].
Qed.

Lemma reindex_has target f name col :
  In (name, col) (columns f) ->
  exists col',
    In (name, col') (reindex target f)
    /\ forall l, In l target -> cell_at target col' l = cell_at (index f) col l.
Proof.
  intros I. unfold reindex. destruct (labels_eqb (index f) target) eqn:E.
  - apply labels_eqb_eq in E. exists col. split; [exact I |]. intros l _. now rewrite E.
  - exists (reindex_column (index f) target col). split.
    + apply in_map_iff. now exists (name, col).
    + intros l L. now apply cell_at_reindexed.
Qed.

(** X14.  Whenever the merge gives a table, the labels of that table
    are distinct and are exactly the labels of the non-empty tables;
    its column names are theirs, table after table; and every column of
    a non-empty table is found in it with, at each label, the cell that
    table has in its first row of that label, or NaN when the table has
    no such row. *)
Theorem merged_cells dfs d :
  merge_frames dfs = Ret (Some d) ->
  let valid := filter (fun df => negb (df_empty df)) dfs in
  NoDup (index d)
  /\ (forall l, In l (index d) <-> exists f, In f valid /\ In l (index f))
  /\ column_names d = flat_map column_names valid
  /\ forall f name col,
       In f valid -> In (name, col) (columns f) ->
       exists col',
         In (name, col') (columns d)
         /\ forall l, In l (index d) -> cell_at (index d) col' l = cell_at (index f) col l.
Proof.
  intros H. cbv zeta.
  destruct (merge_result dfs d H) as (N & I & C & c & CC & -> & _).
  split; [exact N |]. split; [exact I |]. split; [exact C |].
  intros f name col F K.
  pose proof CC as CC'. unfold concat_columns in CC'.
  destruct (forallb _ _); [| discriminate]. injection CC' as <-.
  set (target := combined_index (map index (filter (fun df => negb (df_empty df)) dfs))) in *.
  destruct (reindex_has target f name col K) as (col1 & I1 & E1).
  exists (keep_rows (map negb (duplicated target)) col1). split.
  - cbn [drop_duplicated select_rows columns index].
    apply in_map_iff. exists (name, col1). split; [reflexivity |].
    apply in_flat_map. now exists f.
  - intros l L. cbn [drop_duplicated select_rows index] in *.
    unfold duplicated. rewrite cell_at_kept by tauto.
    apply E1. destruct (kept_labels_once [] target) as [_ T]. now apply T in L.
Qed.

Lemma merged_cells_witness :
  merge_frames sample_tables = Ret (Some sample_merged)
  /\ NoDup (index sample_merged)
  /\ column_names sample_merged = ["smf_systemMarginalPrice"; "dam_matchedBids"]
  /\ exists col',
       In ("dam_matchedBids", col') (columns sample_merged)
       /\ cell_at (index sample_merged) col' (At midnight) = NA
       /\ cell_at (index sample_merged) col' (At one_o_clock) = Num 5%Q.
Proof.
  assert (M : merge_frames sample_tables = Ret (Some sample_merged)) by reflexivity.
  destruct (merged_cells sample_tables sample_merged M) as (N & _ & C & K).
  split; [exact M |]. split; [exact N |]. split; [exact C |].
  destruct (K late_frame "dam_matchedBids" [Num 5%Q]) as (col' & I & E).
  - right. now left.
  - now left.
  - exists col'. split; [exact I |].
    split; (rewrite E; [reflexivity | cbn; tauto]).
Defined.

Lemma forallb_fails {A} (f : A -> bool) l :
  forallb f l = false -> exists x, In x l /\ f x = false.
Proof.
  induction l as [| a l IH]; cbn; [discriminate |].
  destruct (f a) eqn:E; cbn.
  - intros H. destruct (IH H) as (x & I & F). exists x. split; [now right | exact F].
  - intros _. exists a. split; [now left | exact E].
Qed.

Lemma surplus_of_itself l : surplus l l = [].
Proof.
  induction l as [| x l IH]; [reflexivity |].
  cbn. now rewrite label_eqb_refl.
Qed.

(** Tables that all carry the same labels are combined on those labels. *)
Lemma combined_of_equals (l : list label) idxs :
  (forall i, In i idxs -> i = l) -> fold_left union_labels idxs l = l.
Proof.
  induction idxs as [| i idxs IH]; intros H; [reflexivity |].
  cbn [fold_left]. rewrite (H i (or_introl eq_refl)).
  unfold union_labels at 2. rewrite surplus_of_itself, app_nil_r.
  apply IH. intros j J. apply H. now right.
Qed.

(** X15.  The merge gives no table exactly when every table is empty;
    it gives a table whenever the labels of each non-empty table are
    distinct; and when it raises, the exception is the library's
    [InvalidIndexError], some non-empty table has a repeated label, and
    another non-empty table does not carry the same labels in the same
    order.  The statement takes no side on the order in which the
    library arranges the combined labels. *)
Theorem merge_outcome dfs :
  let valid := filter (fun df => negb (df_empty df)) dfs in
  (merge_frames dfs = Ret None <-> valid = [])
  /\ (valid <> [] ->
      (forall df, In df valid -> is_unique (index df) = true) ->
      exists d, merge_frames dfs = Ret (Some d))
  /\ forall e,
       merge_frames dfs = Raise e ->
       e = Exn "InvalidIndexError"
             "Reindexing only valid with uniquely valued Index objects"
       /\ exists df other,
            In df valid /\ In other valid
            /\ is_unique (index df) = false
            /\ index other <> index df.
Proof.
  cbv zeta. unfold merge_frames.
  destruct (filter (fun df => negb (df_empty df)) dfs) as [| v0 valid] eqn:V.
  - split; [tauto |]. split; [congruence | discriminate].
  - unfold concat_columns.
    destruct (forallb _ (v0 :: valid)) eqn:F.
    + split; [split; discriminate |]. split; [eexists; reflexivity | discriminate].
    + split; [split; discriminate |]. split.
      * intros _ U. exfalso.
        assert (T : forallb (fun df => labels_eqb (index df)
                                         (combined_index (map index (v0 :: valid)))
                                       || is_unique (index df)) (v0 :: valid) = true).
        { apply forallb_forall. intros df I. rewrite (U df I). apply orb_true_r. }
        congruence.
      * intros e [= <-]. split; [reflexivity |].
        destruct (forallb_fails _ _ F) as (df & I & B).
        apply orb_false_iff in B. destruct B as [N U].
        destruct (forallb (fun o => labels_eqb (index o) (index df)) (v0 :: valid)) eqn:S.
        -- exfalso. rewrite forallb_forall in S.
           assert (E : forall o, In o (v0 :: valid) -> index o = index df).
           { intros o O. apply labels_eqb_eq. now apply S. }
           assert (C : combined_index (map index (v0 :: valid)) = index df).
           { cbn [map combined_index]. rewrite (E v0 (or_introl eq_refl)).
             apply combined_of_equals. intros i J. apply in_map_iff in J.
             destruct J as (o & <- & O). apply E. now right. }
           rewrite C, labels_eqb_refl in N. discriminate N.
        -- destruct (forallb_fails _ _ S) as (other & O & D).
           exists df, other. split; [exact I |]. split; [exact O |]. split; [exact U |].
           intros E. rewrite E, labels_eqb_refl in D. discriminate D.
Qed.

Lemma merge_outcome_witness :
  merge_frames [repeated_frame; hourly_frame]
  = Raise (Exn "InvalidIndexError"
             "Reindexing only valid with uniquely valued Index objects")
  /\ exists df other,
       In df [repeated_frame; hourly_frame] /\ In other [repeated_frame; hourly_frame]
       /\ is_unique (index df) = false
       /\ index other <> index df.
Proof.
  split; [reflexivity |].
  destruct (proj2 (proj2 (merge_outcome [repeated_frame; hourly_frame])) _ eq_refl)
    as (_ & df & other & H).
  exists df, other. exact H.
Defined.

(** ** The column names of the stored table *)

Lemma yields_ret {A} (P : A -> Prop) a : P a -> yields P (ret a).
Proof. intros H tr b tr' [= <- _]. exact H. Qed.

Lemma yields_lift {A} (P : A -> Prop) (o : outcome A) :
  (forall a, o = Ret a -> P a) -> yields P (lift o).
Proof. intros H tr b tr' E. unfold lift in E. apply H. congruence. Qed.

Lemma yields_bind {A B} (P : A -> Prop) (Q : B -> Prop) (c : M A) (k : A -> M B) :
  yields P c -> (forall a, P a -> yields Q (k a)) -> yields Q (bind c k).
Proof.
  intros C K tr b tr' E. apply bind_returns in E. destruct E as (a & t & E1 & E2).
  exact (K a (C tr a t E1) t b tr' E2).
Qed.

Lemma yields_then {A B} (Q : B -> Prop) (c : M A) (k : A -> M B) :
  (forall a, yields Q (k a)) -> yields Q (bind c k).
Proof.
  intros K. apply (yields_bind (fun _ => True)); [now intros tr a tr' _ | intros a _; apply K].
Qed.

Lemma yields_try {A} (P : A -> Prop) (c : M A) h :
  yields P c -> (forall e, yields P (h e)) -> yields P (try_except c h).
Proof.
  intros C H tr a tr' E. unfold try_except in E.
  destruct (c tr) as [[x | e] t] eqn:R.
  - injection E as <- <-. exact (C tr x t R).
  - exact (H e t a tr' E).
Qed.

Lemma prefix_nothing c : String.prefix "" c = true.
Proof. now destruct c. Qed.

Lemma prefix_app p c : String.prefix p (p ++ c) = true.
Proof.
  induction p as [| a p IH]; cbn; [apply prefix_nothing |].
  destruct (ascii_dec a a) as [_ | N]; [exact IH | contradiction].
Qed.

Lemma prefixed_rename p d : prefixed p (rename_columns (fun c => p ++ c) d).
Proof.
  unfold prefixed, column_names, rename_columns. cbn [columns]. rewrite map_map. cbn [fst].
  apply Forall_forall. intros c I. apply in_map_iff in I. destruct I as (x & <- & _).
  apply prefix_app.
Qed.

Lemma prefixed_empty p : prefixed p empty_frame.
Proof. constructor. Qed.

(** The columns of a category table carry the prefix of the category. *)
Lemma items_prefixed w items p d :
  items_to_dataframe w items p = Ret d -> prefixed p d.
Proof.
  unfold items_to_dataframe. destruct (negb (truthy items)).
  - intros [= <-]. apply prefixed_empty.
  - destruct (frame_of_items items) as [f |]; [| discriminate].
    match goal with
    | |- match ?x with _ => _ end = _ -> _ => destruct x as [g |]; [| discriminate]
    end.
    destruct (negb (String.eqb p "")) eqn:E; intros [= <-].
    + apply prefixed_rename.
    + apply negb_false_iff, String.eqb_eq in E. subst p.
      apply Forall_forall. intros c _. apply prefix_nothing.
Qed.

Lemma yields_category w t ep s e p :
  yields (prefixed p)
    (items <- fetch_items w t ep s e ;; lift (items_to_dataframe w items p)).
Proof.
  apply yields_then. intros items. apply yields_lift. intros d. apply items_prefixed.
Qed.

Lemma yields_quantity_frame items : yields (prefixed "idm_") (quantity_frame items).
Proof.
  unfold quantity_frame. destruct (truthy items).
  - apply yields_then. intros f. apply yields_then. intros g.
    apply yields_ret. apply (prefixed_rename "idm_").
  - apply yields_ret. apply prefixed_empty.
Qed.

Lemma prefixed_known p d :
  In p table_prefixes -> prefixed p d ->
  forall c, In c (column_names d) ->
            exists q, In q table_prefixes /\ String.prefix q c = true.
Proof.
  intros I P c C. exists p. split; [exact I |].
  unfold prefixed in P. rewrite Forall_forall in P. now apply P.
Qed.

(** X16.  Whenever [download_data] returns, the report holds a table,
    and the name of each of its columns starts with the prefix of one of
    the categories. *)
Theorem stored_columns_prefixed w self tr self' tr' :
  download_data w self tr = (Ret self', tr') ->
  exists d,
    df self' = Some d
    /\ forall c, In c (column_names d) ->
                 exists p, In p table_prefixes /\ String.prefix p c = true.
Proof.
  revert tr self' tr'. change (yields (fun self' => exists d,
    df self' = Some d
    /\ forall c, In c (column_names d) ->
                 exists p, In p table_prefixes /\ String.prefix p c = true)
    (download_data w self)).
  unfold download_data. cbv zeta.
  do 2 (apply yields_then; intros _).
  apply (yields_bind (prefixed "ptf_")); [apply yields_category | intros d1 P1].
  apply (yields_bind (prefixed "smf_")); [apply yields_category | intros d2 P2].
  apply yields_then; intros _.
  apply (yields_bind (prefixed "sysdir_")); [apply yields_category | intros d3 P3].
  apply yields_then; intros _.
  apply (yields_bind (prefixed "bilateral_")); [apply yields_category | intros d4 P4].
  apply yields_then; intros _.
  apply (yields_bind (prefixed "dam_")); [apply yields_category | intros d5 P5].
  apply yields_then; intros _.
  apply (yields_bind (fun b => prefixed "bpmD_" (fst b) /\ prefixed "bpmU_" (snd b))).
  { unfold fetch_bpm_orders. do 2 (apply yields_then; intros ?).
    apply (yields_bind (prefixed "bpmD_"));
      [apply yields_lift; intros d; apply items_prefixed | intros dd PD].
    apply (yields_bind (prefixed "bpmU_"));
      [apply yields_lift; intros d; apply items_prefixed | intros du PU].
    apply yields_ret. now split. }
  intros bpm [P6 P7].
  apply yields_then; intros _.
  apply (yields_bind (fun b => prefixed "idm_" (fst b) /\ prefixed "idm_" (snd b))).
  { unfold fetch_idm_data. do 2 (apply yields_then; intros ?).
    apply (yields_bind (prefixed "idm_"));
      [apply yields_lift; intros d; apply items_prefixed | intros dp PP].
    apply (yields_bind (prefixed "idm_")); [apply yields_quantity_frame | intros dq PQ].
    apply yields_ret. now split. }
  intros idm [P8 P9].
  apply yields_then; intros _.
  apply (yields_bind (fun l => exists a b c d,
           l = [("pfc_amount", a); ("pfp_price", b); ("sfc_amount", c); ("sfp_price", d)])).
  { unfold fetch_ancillary_services. do 8 (apply yields_then; intros ?).
    apply yields_ret. now eexists _, _, _, _. }
  intros anc (a1 & a2 & a3 & a4 & ->).
  apply (yields_bind (fun m => match m with
           | Some d => forall c, In c (column_names d) ->
                                 exists p, In p table_prefixes /\ String.prefix p c = true
           | None => True
           end)).
  - apply yields_lift. intros [d |] E; [| exact I].
    destruct (merge_result _ _ E) as (_ & _ & C & _).
    intros c K. rewrite C in K. apply in_flat_map in K. destruct K as (f & F & K).
    apply filter_In in F. destruct F as [F _]. cbn [app map fst snd] in F.
    repeat (destruct F as [<- | F]);
      [ eapply prefixed_known; [| exact P1 | exact K]
      | eapply prefixed_known; [| exact P2 | exact K]
      | eapply prefixed_known; [| exact P3 | exact K]
      | eapply prefixed_known; [| exact P4 | exact K]
      | eapply prefixed_known; [| exact P5 | exact K]
      | eapply prefixed_known; [| exact P6 | exact K]
      | eapply prefixed_known; [| exact P7 | exact K]
      | eapply prefixed_known; [| exact P8 | exact K]
      | eapply prefixed_known; [| exact P9 | exact K]
      | eapply prefixed_known; [| exact (prefixed_rename "pfc_amount_" a1) | exact K]
      | eapply prefixed_known; [| exact (prefixed_rename "pfp_price_" a2) | exact K]
      | eapply prefixed_known; [| exact (prefixed_rename "sfc_amount_" a3) | exact K]
      | eapply prefixed_known; [| exact (prefixed_rename "sfp_price_" a4) | exact K]
      | destruct F ]; cbn; tauto.
  - intros [d |] H.
    + apply yields_then; intros _. apply yields_ret. exists d. split; [reflexivity | exact H].
    + apply yields_then; intros _. apply yields_ret. exists empty_frame.
      split; [reflexivity | intros c []].
Qed.

Lemma stored_columns_prefixed_witness :
  exists self',
    fst (download_data hourly_world sample_report []) = Ret self'
    /\ exists d,
         df self' = Some d
         /\ forall c, In c (column_names d) ->
                      exists p, In p table_prefixes /\ String.prefix p c = true.
Proof.
  destruct (download_data hourly_world sample_report []) as [[s | e] t] eqn:E.
  - exists s. split; [reflexivity |].
    exact (stored_columns_prefixed hourly_world sample_report [] s t E).
  - vm_compute in E. discriminate.
Defined.

(** ** The summary of [format_data] *)

Lemma indicators_keys L d :
  yields (fun r => map fst r = result_keys
                   /\ forall label key, In (label, key) summary_rows ->
                        exists v, In (key, v) r /\ result_get r key = v)
    (indicators L d).
Proof.
  unfold indicators. do 16 (apply yields_then; intros ?). apply yields_ret.
  split; [reflexivity |].
  intros label key H. unfold summary_rows in H.
  repeat (destruct H as [H | H];
          [apply pair_equal_spec in H; destruct H as [_ <-];
           eexists; split; [| reflexivity]; cbn; tauto |]).
  destruct H.
Qed.

(** X18.  Whenever [format_data] returns, the table of the report is
    untouched, the summary has the sixteen rows in their fixed order,
    the results carry the sixteen keys, and each row shows the value
    stored under its key: the default of [fresult.get] is never used. *)
Theorem summary_of_format_data L self tr self' tr' :
  format_data L self tr = (Ret self', tr') ->
  df self' = df self
  /\ exists o r,
       ozet self' = Some o /\ final_result self' = Some r
       /\ map fst o = summary_labels
       /\ map fst r = result_keys
       /\ forall label key, In (label, key) summary_rows ->
            exists v, In (key, v) r /\ In (label, v) o.
Proof.
  unfold format_data. intros H.
  apply bind_returns in H. destruct H as ([] & t0 & _ & H).
  destruct (df self) as [d |] eqn:D; [| discriminate].
  apply bind_returns in H. destruct H as (r & t1 & R & H).
  apply bind_returns in H. destruct H as ([] & t2 & _ & H).
  unfold ret in H.
  match type of H with
  | (Ret ?x, _) = _ => assert (S : self' = x) by congruence
  end.
  subst self'. clear H. cbn [df ozet final_result set_summary].
  split; [exact D |].
  destruct (indicators_keys L d _ _ _ R) as [K V].
  eexists _, r. split; [reflexivity |]. split; [reflexivity |].
  split; [now rewrite map_map |]. split; [exact K |].
  intros label key I. destruct (V label key I) as (v & J & G).
  exists v. split; [exact J |].
  apply in_map_iff. exists (label, key). split; [cbn [fst snd]; now rewrite G | exact I].
Qed.

Lemma summary_of_format_data_witness :
  exists self',
    fst (format_data schoolbook (set_df sample_report sample_orders) []) = Ret self'
    /\ df self' = Some sample_orders
    /\ exists o r,
         ozet self' = Some o /\ final_result self' = Some r
         /\ map fst o = summary_labels
         /\ map fst r = result_keys
         /\ forall label key, In (label, key) summary_rows ->
              exists v, In (key, v) r /\ In (label, v) o.
Proof.
  destruct (format_data schoolbook (set_df sample_report sample_orders) [])
    as [[s | e] t] eqn:E.
  - exists s. split; [reflexivity |].
    exact (summary_of_format_data schoolbook (set_df sample_report sample_orders) [] s t E).
  - vm_compute in E. discriminate.
Defined.

(** ** The lines [format_data] logs *)

Lemma lift_then {A B : Type} (o : outcome A) (k : A -> M B) t :
  bind (lift o) k t = match o with Ret a => k a t | Raise e => (Raise e, t) end.
Proof. unfold bind, lift. now destruct o. Qed.

(** The yearly price returns and logs nothing or the one warning. *)
Lemma idm_year_price_lines L d t :
  exists v warned,
    idm_year_price L d t = (Ret v, (t ++ warned)%list)
    /\ (warned = [] \/ exists e, warned = [price_warning e]).
Proof.
  unfold idm_year_price, price_warning.
  destruct (idm_quant_col d) as [| qc r1];
    [exists (Num 0), []; rewrite app_nil_r; split; [reflexivity | now left] |].
  destruct (wap_col d) as [| wc r2];
    [exists (Num 0), []; rewrite app_nil_r; split; [reflexivity | now left] |].
  unfold try_except, lift, bind, log, emit, ret.
  destruct (weighted_price L d qc wc) as [v | e].
  - exists v, []. rewrite app_nil_r. split; [reflexivity | now left].
  - eexists (Num 0), _. split; [reflexivity |]. right. now exists e.
Qed.

Ltac stops_early :=
  exists []; rewrite app_nil_r; split; [now left | right; eexists; reflexivity].

Ltac stops_late := right; eexists; reflexivity.

Lemma indicators_lines L d t :
  exists warned,
    (warned = [] \/ exists e, warned = [price_warning e])
    /\ ((exists r, indicators L d t = (Ret r, (t ++ warned)%list))
        \/ exists e, indicators L d t = (Raise e, (t ++ warned)%list)).
Proof.
  destruct (idm_year_price_lines L d t) as (v & warned & Y & W).
  unfold indicators. cbv beta iota delta [bind lift ret].
  destruct (bilateral_quantity L d) as [v1 |]; [| stops_early].
  destruct (dam_matchedBids L d) as [v2 |]; [| stops_early].
  destruct (ptf L d) as [v3 |]; [| stops_early].
  destruct (smf L d) as [v4 |]; [| stops_early].
  destruct (idm_wap L d) as [v5 |]; [| stops_early].
  destruct (idm_quant L d) as [v6 |]; [| stops_early].
  exists warned. split; [exact W |]. rewrite Y.
  destruct (coded L d "ZeroCoded") as [v8 |]; [| stops_late].
  destruct (coded L d "OneCoded") as [v9 |]; [| stops_late].
  destruct (coded L d "TwoCoded") as [v10 |]; [| stops_late].
  destruct (delivered L d "bpmD_") as [v11 |]; [| stops_late].
  destruct (delivered L d "bpmU_") as [v12 |]; [| stops_late].
  destruct (frequency L d "pfc_amount") as [v13 |]; [| stops_late].
  destruct (frequency L d "pfp_price") as [v14 |]; [| stops_late].
  destruct (frequency L d "sfc_amount") as [v15 |]; [| stops_late].
  destruct (frequency L d "sfp_price") as [v16 |]; [| stops_late].
  left. eexists. reflexivity.
Qed.

(** X19.  Called before [download_data] has stored a table,
    [format_data] logs its first line and raises [AttributeError].  On
    a table it logs its first line, then at most one warning, that of
    the yearly weighted price with the text of the exception caught,
    and then, only if it returns, its last line; when it raises, it
    logs nothing after the exception. *)
Theorem format_data_lines L self tr :
  (df self = None ->
   format_data L self tr
   = (Raise (Exn "AttributeError" "'NoneType' object has no attribute 'columns'"),
      tr ++ [format_start])%list)
  /\ forall d, df self = Some d ->
       exists warned,
         (warned = [] \/ exists e, warned = [price_warning e])
         /\ ((exists self',
                format_data L self tr
                = (Ret self', (tr ++ [format_start] ++ warned ++ [format_done])%list))
             \/ exists e,
                  format_data L self tr = (Raise e, (tr ++ [format_start] ++ warned)%list)).
Proof.
  unfold format_data, format_start, format_done. split.
  - intros ->. reflexivity.
  - intros d ->. unfold log at 1. unfold bind at 1, emit.
    destruct (indicators_lines L d (tr ++ [Logged (String "010" "📊 Veriler analiz ediliyor...")]))
      as (warned & W & [(r & R) | (e & R)]); exists warned; (split; [exact W |]).
    + left. eexists. unfold bind at 1. rewrite R. unfold bind, log, emit, ret.
      rewrite <- !app_assoc. reflexivity.
    + right. exists e. unfold log at 1. unfold bind at 1, emit. unfold bind at 1.
      rewrite R. rewrite <- !app_assoc. reflexivity.
Qed.

Lemma format_data_lines_witness :
  exists warned,
    (warned = [] \/ exists e, warned = [price_warning e])
    /\ ((exists self',
           format_data schoolbook nested_report []
           = (Ret self', ([] ++ [format_start] ++ warned ++ [format_done])%list))
        \/ exists e,
             format_data schoolbook nested_report []
             = (Raise e, ([] ++ [format_start] ++ warned)%list)).
Proof.
  exact (proj2 (format_data_lines schoolbook nested_report []) _ eq_refl).
Defined.

(** ** The workbook *)

Lemma checked_texts (l : list string) hs :
  all_ret (map check_string l) = Ret hs -> hs = map (first_chars 32767) l.
Proof.
  revert hs. induction l as [| s l IH]; intros hs; cbn [map all_ret].
  - now intros [= <-].
  - unfold check_string at 1. destruct (has_illegal _); [discriminate |].
    cbn [and_then]. destruct (all_ret (map check_string l)) as [r |]; [| discriminate].
    cbn [and_then]. intros [= <-]. now rewrite (IH r eq_refl).
Qed.

Lemma written_cells (col : list cell) body :
  all_ret (map write_cell col) = Ret body -> body = map written col.
Proof.
  revert body. induction col as [| c col IH]; intros body; cbn [map all_ret].
  - now intros [= <-].
  - destruct (write_cell c) as [c' |] eqn:C; [| discriminate].
    cbn [and_then]. destruct (all_ret (map write_cell col)) as [r |]; [| discriminate].
    cbn [and_then]. intros [= <-]. rewrite (IH r eq_refl). f_equal.
    destruct c as [| q | b | s | j]; cbn in C; try now injection C as <-.
    unfold check_string in C. destruct (has_illegal _); [discriminate |].
    cbn in C. now injection C as <-.
Qed.

Lemma written_columns (cols : list (list cell)) body :
  all_ret (map (fun col => all_ret (map write_cell col)) cols) = Ret body ->
  body = map (map written) cols.
Proof.
  revert body. induction cols as [| col cols IH]; intros body; cbn [map all_ret].
  - now intros [= <-].
  - destruct (all_ret (map write_cell col)) as [b |] eqn:B; [| discriminate].
    cbn [and_then].
    destruct (all_ret (map (fun col0 => all_ret (map write_cell col0)) cols)) as [r |];
      [| discriminate].
    cbn [and_then]. intros [= <-].
    now rewrite (written_cells col b B), (IH r eq_refl).
Qed.

(** A sheet that the writer returns holds the names cut to size and the
    cells as written. *)
Lemma to_excel_returns name n cols s :
  to_excel name n cols = Ret s ->
  s = mkSheet name (map (fun p => first_chars 32767 (fst p)) cols)
        (rows_of n (map (fun p => map written (snd p)) cols)) [].
Proof.
  unfold to_excel. destruct (_ || _)%bool; [discriminate |].
  destruct (all_ret (map (fun p => check_string (fst p)) cols)) as [hs |] eqn:H;
    [| discriminate].
  cbn [and_then].
  destruct (all_ret (map (fun p => all_ret (map write_cell (snd p))) cols)) as [body |] eqn:B;
    [| discriminate].
  cbn [and_then]. intros [= <-]. f_equal.
  - rewrite <- (map_map fst check_string) in H.
    rewrite (checked_texts _ _ H). now rewrite map_map.
  - rewrite <- (map_map snd (fun col => all_ret (map write_cell col))) in B.
    rewrite (written_columns _ _ B). now rewrite map_map.
Qed.

Ltac run_steps :=
  cbv beta iota delta [bind try_except log emit lift ret raise];
  rewrite <- ?app_assoc; cbn [app].



Lemma rows_of_length n cols : List.length (rows_of n cols) = n.
Proof. unfold rows_of. now rewrite length_map, length_seq. Qed.

Lemma rows_of_nth n cols i :
  (i < n)%nat -> nth_error (rows_of n cols) i = Some (map (fun c => nth i c NA) cols).
Proof.
  intros H. unfold rows_of.
  apply (map_nth_error (fun j => map (fun c => nth j c NA) cols) i (seq 0 n)).
  rewrite nth_error_nth' with (d := O) by now rewrite length_seq.
  now rewrite seq_nth.
Qed.

Lemma stamps_as_text ts :
  index_cells (map At ts) = map (fun t => Text (show_stamp t)) ts.
Proof.
  unfold index_cells.
  replace (forallb (fun l => negb (is_pos l)) (map At ts)) with true.
  - now rewrite map_map.
  - symmetry. apply forallb_forall. intros l I. apply in_map_iff in I.
    now destruct I as (t & <- & _).
Qed.

Lemma written_nth i col : nth i (map written col) NA = written (nth i col NA).
Proof. now rewrite <- (map_nth written). Qed.

(** The sheets of a report that holds a table with rows and columns. *)
Lemma workbook_detail self d tr sheets tr' :
  df self = Some d -> df_empty d = false ->
  get_excel_bytes self tr = (Ret sheets, tr') ->
  exists before,
    sheets
    = (before
       ++ [mkSheet "Detay" (map (fun p => first_chars 32767 (fst p)) (detail_columns d))
             (rows_of (List.length (index d))
                (map (fun p => map written (snd p)) (detail_columns d))) []])%list.
Proof.
  intros D E. unfold get_excel_bytes. rewrite D, E. cbn [negb].
  assert (S : forall a b : list sheet, Ret a = Ret b -> b = a) by (intros a b K; congruence).
  destruct (to_excel "Detay" (List.length (index d)) (detail_columns d)) as [s |] eqn:T.
  - apply to_excel_returns in T. subst s.
    destruct (ozet self) as [o |];
      [destruct (to_excel "Özet" (List.length o)
                   [("Gösterge", map (fun r => Text (fst r)) o); ("Değer", map snd o)]) |];
      run_steps; intros H; try discriminate;
      apply pair_equal_spec in H; destruct H as [H _]; apply S in H; rewrite H;
      first [now exists [] | eexists [_]; reflexivity].
  - destruct (ozet self) as [o |];
      [destruct (to_excel "Özet" (List.length o)
                   [("Gösterge", map (fun r => Text (fst r)) o); ("Değer", map snd o)]) |];
      run_steps; intros H; discriminate.
Qed.

(** X21.  For a table with rows and columns that holds no nested
    value, and whose index column gets a name that no column has and
    that is not renamed, the last sheet of a returned workbook is
    [Detay].  Its header is the name of the index, or [index] when it
    has none, then the column names with the five renamings, each cut
    at 32767 characters.  It has one row per label, row [i] holding the
    index cell and then cell [i] of every column, a text cut at 32767
    characters and every other cell as it is.  An index of time stamps
    is written as text, [YYYY-MM-DD HH:MM:SS]. *)
Theorem detail_sheet_rows self d tr sheets tr' :
  df self = Some d -> df_empty d = false ->
  (forall name col j, In (name, col) (columns d) -> ~ In (Other j) col) ->
  let name := match index_name d with Some n => n | None => "index" end in
  has_column name d = false -> renamed name = name ->
  get_excel_bytes self tr = (Ret sheets, tr') ->
  exists before s,
    sheets = (before ++ [s])%list
    /\ sheet_name s = "Detay"
    /\ header s = map (first_chars 32767) (name :: map renamed (column_names d))
    /\ List.length (rows s) = List.length (index d)
    /\ (forall i, (i < List.length (index d))%nat ->
          nth_error (rows s) i
          = Some (map written (nth i (index_cells (index d)) NA
                               :: map (fun p => nth i (snd p) NA) (columns d))))
    /\ forall ts, index d = map At ts ->
         index_cells (index d) = map (fun t => Text (show_stamp t)) ts.
Proof.
  intros D E _ name _ _ H.
  destruct (workbook_detail self d tr sheets tr' D E H) as (before & ->).
  eexists before, _. split; [reflexivity |]. cbn [sheet_name header rows].
  split; [reflexivity |]. split.
  { unfold detail_columns, column_names. cbn [map fst]. now rewrite !map_map. }
  split; [apply rows_of_length |]. split.
  - intros i I. rewrite rows_of_nth by exact I.
    unfold detail_columns. cbn [map snd]. rewrite written_nth, !map_map.
    f_equal. f_equal. apply map_ext. intros p. apply written_nth.
  - intros ts ->. apply stamps_as_text.
Qed.

Lemma detail_sheet_rows_witness :
  exists sheets,
    fst (get_excel_bytes (set_df sample_report sample_orders) []) = Ret sheets
    /\ exists before s,
         sheets = (before ++ [s])%list
         /\ sheet_name s = "Detay"
         /\ header s
            = map (first_chars 32767) ("date" :: map renamed (column_names sample_orders))
         /\ List.length (rows s) = 2%nat
         /\ nth_error (rows s) 1
            = Some [Text "2024-01-01 01:00:00"; Num 3%Q; Num 2%Q; Num (-6)%Q].
Proof.
  destruct (get_excel_bytes (set_df sample_report sample_orders) []) as [[s | e] t] eqn:E.
  - exists s. split; [reflexivity |].
    assert (N : forall name col j,
               In (name, col) (columns sample_orders) -> ~ In (Other j) col).
    { intros name col j I. cbn in I.
      repeat (destruct I as [I | I];
              [injection I as <- <-; cbn; intuition discriminate |]).
      destruct I. }
    destruct (detail_sheet_rows (set_df sample_report sample_orders) sample_orders [] s t
                eq_refl eq_refl N eq_refl eq_refl E)
      as (before & sh & S & M & H & L & R & _).
    exists before, sh. split; [exact S |]. split; [exact M |]. split; [exact H |].
    split; [exact L |]. exact (R 1%nat (le_n 2)).
  - vm_compute in E. discriminate.
Defined.

(** ** What [download_data] stores *)

(** A merged table has rows and columns. *)
Lemma merged_not_empty dfs d : merge_frames dfs = Ret (Some d) -> df_empty d = false.
Proof.
  intros H. destruct (merge_result dfs d H) as (_ & I & C & _).
  unfold merge_frames in H.
  destruct (filter (fun df => negb (df_empty df)) dfs) as [| v0 valid] eqn:V;
    [discriminate |].
  assert (E : df_empty v0 = false).
  { assert (K : In v0 (filter (fun df => negb (df_empty df)) dfs)) by (rewrite V; now left).
    apply filter_In in K. now apply negb_true_iff. }
  unfold df_empty in E |- *.
  destruct (index v0) as [| l ls] eqn:X; [discriminate |].
  destruct (columns v0) as [| c cs] eqn:Y; [discriminate |].
  assert (L : In l (index d)).
  { apply I. exists v0. split; [now left | rewrite X; now left]. }
  unfold column_names in C. cbn [flat_map] in C. rewrite Y in C. cbn [map app] in C.
  destruct (index d); [destruct L |]. destruct (columns d); [discriminate | reflexivity].
Qed.

(** X24.  Whenever [download_data] returns, it has changed nothing of
    the report but its table, and one of two things holds: nothing was
    fetched, the table is the empty one and the last line logged is the
    warning; or the table has rows and columns, its labels are
    distinct, and the last line logged gives the number of its rows. *)
Theorem download_data_stores w self tr self' tr' :
  download_data w self tr = (Ret self', tr') ->
  (tgt self' = tgt self /\ quarter_info self' = quarter_info self
   /\ start_date self' = start_date self /\ end_date self' = end_date self
   /\ ozet self' = ozet self /\ final_result self' = final_result self)
  /\ exists before,
       (df self' = Some empty_frame /\ tr' = (before ++ [nothing_line])%list)
       \/ exists d,
            df self' = Some d /\ df_empty d = false /\ NoDup (index d)
            /\ tr' = (before ++ [merged_line d])%list.
Proof.
  unfold download_data. cbv zeta. intros H.
  do 16 (apply bind_returns in H; destruct H as (? & ? & _ & H)).
  apply bind_returns in H. destruct H as (merged & t & E & H).
  unfold lift in E. apply pair_equal_spec in E. destruct E as [E _].
  destruct merged as [d |].
  - assert (S : self' = set_df self d /\ tr' = (t ++ [merged_line d])%list).
    { unfold bind, log, emit, ret in H. unfold merged_line, nothing_line. split; congruence. }
    destruct S as [-> ->]. split; [now repeat split |].
    exists t. right. exists d. split; [reflexivity |].
    split; [exact (merged_not_empty _ _ E) |].
    split; [exact (proj1 (merge_result _ _ E)) | reflexivity].
  - assert (S : self' = set_df self empty_frame /\ tr' = (t ++ [nothing_line])%list).
    { unfold bind, log, emit, ret in H. unfold merged_line, nothing_line. split; congruence. }
    destruct S as [-> ->]. split; [now repeat split |].
    exists t. left. now split.
Qed.

Lemma download_data_stores_witness :
  exists self',
    fst (download_data hourly_world sample_report []) = Ret self'
    /\ tgt self' = "TGT-1"
    /\ exists before,
         (df self' = Some empty_frame
          /\ snd (download_data hourly_world sample_report [])
             = (before ++ [nothing_line])%list)
         \/ exists d,
              df self' = Some d /\ df_empty d = false /\ NoDup (index d)
              /\ snd (download_data hourly_world sample_report [])
                 = (before ++ [merged_line d])%list.
Proof.
  destruct (download_data hourly_world sample_report []) as [[s | e] t] eqn:E.
  - exists s. split; [reflexivity |].
    destruct (download_data_stores hourly_world sample_report [] s t E) as [(T & _) B].
    split; [exact T | exact B].
  - vm_compute in E. discriminate.
Defined.
